(** * PrivateBOT: a Discord relay bot over the OpenAI Assistants API

    Shallow embedding of the three bot scripts

      - [ionetbot.js]                 (guild bot with MongoDB records),
      - [ionetbot_withoutMongoDB.js]  (the same bot without records),
      - [ionetbot_test_dm.js]         (direct-message bot with sessions),

    and proofs about thread binding, the rate gate, the run-status poll
    loop, DM sessions, reply truncation, error propagation and the two
    channel-closing paths.

    The scripts are asynchronous JavaScript running on one event loop.
    Every handler is embedded as a program tree [Prog]: synchronous
    accesses to the module-level variables are [Sync] nodes, every
    [await] of a collaborator call is an [Await] node whose continuation
    receives the settled promise, a call whose promise is dropped is a
    [Spawn], and [setTimeout] is [SetTimeout].  The event loop is the
    function [step]: it runs one handler from one suspension point to the
    next, so any interleaving of handlers is a list of events.

    Continuations that JavaScript separates only by promise-resolution
    microtasks (the return through the frames of [statusCheckLoop], the
    [await operation(db)] of [withDb]) run in the same turn of the event
    loop, since the microtask queue is drained before the next event;
    they are one segment here.  [statusCheckLoop] calls itself without
    bound; its embedding takes the number of polls it may make as
    [fuel], and every result about it holds for all sufficient [fuel].

    Conventions.
      - Discord identifiers (snowflakes) are 64-bit unsigned integers that
        discord.js carries as decimal strings; they are modelled as [N].
        Used as keys of the plain object [threadMap] they never name an
        inherited property.
      - Text is [string]; a character stands for one UTF-16 code unit.
        Only positions are ever used (length, substring, startsWith,
        emptiness).
      - [Date.now()] is an integer number of milliseconds, modelled in
        [Z]; all readings inside one run-to-next-await segment are the
        instant at which the event loop started that segment.
      - Interpolated values in console lines are left out of the model;
        a console line is identified by its fixed text.  Text sent to
        the platform is modelled in full. *)

From stdpp Require Import gmap strings list pretty.
From Stdlib Require Import ZArith String Ascii Lia.

Open Scope string_scope.
Open Scope list_scope.
Open Scope Z_scope.

(** ** Data model *)

(** discord.js [ChannelType] (the scripts compare against [GuildText]
    and [DM] only). *)
Inductive ChannelType :=
| GuildText | DM | GuildVoice | GroupDM | GuildCategory | GuildAnnouncement
| AnnouncementThread | PublicThread | PrivateThread | GuildStageVoice
| GuildDirectory | GuildForum | GuildMedia.

Definition ChannelType_eqb (a b : ChannelType) : bool :=
  match a, b with
  | GuildText, GuildText | DM, DM | GuildVoice, GuildVoice | GroupDM, GroupDM
  | GuildCategory, GuildCategory | GuildAnnouncement, GuildAnnouncement
  | AnnouncementThread, AnnouncementThread | PublicThread, PublicThread
  | PrivateThread, PrivateThread | GuildStageVoice, GuildStageVoice
  | GuildDirectory, GuildDirectory | GuildForum, GuildForum
  | GuildMedia, GuildMedia => true
  | _, _ => false
  end.

(** A channel object as held in [channelsMap]. *)
Record Channel := mkChannel {
  ch_id : N;
  ch_name : string;
  ch_type : ChannelType
}.

(** The fields of a discord.js [Message] that the handlers read.
    [msg_channel_name] is read for guild text channels only. *)
Record Message := mkMessage {
  msg_author_bot : bool;
  msg_author_id : N;
  msg_content : string;
  msg_channel_id : N;
  msg_channel_type : ChannelType;
  msg_channel_name : string;
  msg_guild_id : N
}.

(** The fields of a discord.js [Interaction] that the handler reads. *)
Record Interaction := mkInteraction {
  int_isButton : bool;
  int_customId : string;
  int_channelId : N
}.

(** An Assistants API run: [run.id], [run.status] and
    [run.last_error.code] ([None] when [last_error] is null). *)
Record Run := mkRun {
  run_id : string;
  run_status : string;
  run_last_error : option string
}.

(** One element of [messages.data]: the list [content], each part
    reduced to [text.value] ([None] for a part without [text]). *)
Record ThreadMessage := mkThreadMessage {
  tm_content : list (option string)
}.

(** Documents inserted into MongoDB collections. *)
Inductive Doc :=
| ChannelCreationDoc (channelId creatorId : N) (timestamp : Z)
| ChannelDeletionDoc (channelId : N) (deletedAt : Z)
| PrivateMessageDoc (channelId userId : N) (messageContent responseContent : string)
    (timestamp : Z).

(** Errors: a rejection delivered by a collaborator, or the [TypeError]
    raised by a property access on [undefined]/[null]. *)
Inductive Err :=
| CallFailed (reason : string)
| TypeError.

(** Calls to the collaborators; each returns a promise. *)
Inductive Call :=
| ThreadsCreate                                        (* openai.beta.threads.create() *)
| MessagesCreate (threadId content : string)           (* addMessage *)
| RunsCreate (threadId : string)                       (* openai.beta.threads.runs.create *)
| RunsRetrieve (threadId runId : string)               (* openai.beta.threads.runs.retrieve *)
| MessagesList (threadId : string)                     (* openai.beta.threads.messages.list *)
| Sleep (ms : Z)                                       (* sleep(ms) *)
| Reply (channelId : N) (text : string)                (* message.reply(text) *)
| SendTyping (channelId : N)                           (* message.channel.sendTyping() *)
| AuthorSend (userId : N) (text : string)              (* message.author.send(text) *)
| GuildChannelsCreate (guildId : N) (name : string) (ownerId : N)
                                                       (* message.guild.channels.create *)
| ChannelSend (channelId : N) (text buttonId : string) (* channel.send({content, components}) *)
| ChannelsFetch (channelId : N)                        (* client.channels.fetch(id) *)
| ChannelDelete (channelId : N)                        (* channel.delete() *)
| InsertOne (collection : string) (doc : Doc).         (* db.collection(c).insertOne(doc) *)

(** The value a fulfilled promise carries. *)
Inductive Value :=
| VVoid
| VThread (id : string)
| VRun (r : Run)
| VMessageList (data : option (list ThreadMessage))
| VChannel (c : option Channel).

Inductive Response :=
| Fulfilled (v : Value)
| Rejected (e : Err).

Inductive LogLine :=
| ConsoleLog (text : string)
| ConsoleError (text : string).

(** The module-level variables of the scripts, and the console.
    [channelsMap] exists in the two guild scripts, [dmSessions] in the
    DM script. *)
Record World := mkWorld {
  threadMap : gmap N string;
  channelsMap : gmap N Channel;
  nextAvailableTime : Z;
  dmSessions : gmap N Z;
  console : list LogLine
}.

Definition set_threadMap (f : gmap N string -> gmap N string) (w : World) : World :=
  mkWorld (f (threadMap w)) (channelsMap w) (nextAvailableTime w) (dmSessions w) (console w).
Definition set_channelsMap (f : gmap N Channel -> gmap N Channel) (w : World) : World :=
  mkWorld (threadMap w) (f (channelsMap w)) (nextAvailableTime w) (dmSessions w) (console w).
Definition set_nextAvailableTime (t : Z) (w : World) : World :=
  mkWorld (threadMap w) (channelsMap w) t (dmSessions w) (console w).
Definition set_dmSessions (f : gmap N Z -> gmap N Z) (w : World) : World :=
  mkWorld (threadMap w) (channelsMap w) (nextAvailableTime w) (f (dmSessions w)) (console w).
Definition set_console (f : list LogLine -> list LogLine) (w : World) : World :=
  mkWorld (threadMap w) (channelsMap w) (nextAvailableTime w) (dmSessions w) (f (console w)).

(** ** Handler programs *)

(** [Sync f k]: synchronous access to the module variables and the
    clock ([f now world]); [Await c k]: issue [c] and suspend until its
    promise settles; [Spawn child k]: call an async function (or issue a
    call) and drop its promise; [SetTimeout ms cb k]: schedule [cb];
    [OutOfFuel]: the poll loop was unrolled further than the model's
    bound. *)
Inductive Prog (A : Type) : Type :=
| Ret (a : A)
| Throw (e : Err)
| Sync {X : Type} (f : Z -> World -> World * X) (k : X -> Prog A)
| Await (c : Call) (k : Response -> Prog A)
| Spawn (child : Prog unit) (k : Prog A)
| SetTimeout (ms : Z) (callback : Prog unit) (k : Prog A)
| OutOfFuel.

Arguments Ret {A} a.
Arguments Throw {A} e.
Arguments Sync {A X} f k.
Arguments Await {A} c k.
Arguments Spawn {A} child k.
Arguments SetTimeout {A} ms callback k.
Arguments OutOfFuel {A}.

Fixpoint bind {A B : Type} (p : Prog A) (g : A -> Prog B) : Prog B :=
  match p with
  | Ret a => g a
  | Throw e => Throw e
  | Sync f k => Sync f (fun x => bind (k x) g)
  | Await c k => Await c (fun r => bind (k r) g)
  | Spawn child k => Spawn child (bind k g)
  | SetTimeout ms cb k => SetTimeout ms cb (bind k g)
  | OutOfFuel => OutOfFuel
  end.

(** [try { p } catch (e) { h e }] *)
Fixpoint try_catch {A : Type} (p : Prog A) (h : Err -> Prog A) : Prog A :=
  match p with
  | Ret a => Ret a
  | Throw e => h e
  | Sync f k => Sync f (fun x => try_catch (k x) h)
  | Await c k => Await c (fun r => try_catch (k r) h)
  | Spawn child k => Spawn child (try_catch k h)
  | SetTimeout ms cb k => SetTimeout ms cb (try_catch k h)
  | OutOfFuel => OutOfFuel
  end.

(** [try { p } finally { fin }]: [fin] runs on both exits; the exit of
    [p] is kept unless [fin] itself throws. *)
Definition try_finally {A : Type} (p : Prog A) (fin : Prog unit) : Prog A :=
  bind (try_catch (bind p (fun a => Ret (inl a))) (fun e => Ret (inr e)))
       (fun r => bind fin (fun _ =>
          match r with inl a => Ret a | inr e => Throw e end)).

Declare Scope prog_scope.
Delimit Scope prog_scope with prog.
Notation "x <- p ;; q" := (bind p (fun x => q))
  (at level 100, p at next level, right associativity) : prog_scope.
Notation "p ;; q" := (bind p (fun _ => q))
  (at level 100, right associativity) : prog_scope.
Open Scope prog_scope.

(** [await c]: the promise's value, or its rejection thrown. *)
Definition await (c : Call) : Prog Value :=
  Await c (fun r => match r with Fulfilled v => Ret v | Rejected e => Throw e end).

(** Reading a property of the awaited value; a value of another shape
    has no such property and the access chain throws. *)
Definition thread_id (v : Value) : Prog string :=
  match v with VThread id => Ret id | _ => Throw TypeError end.
Definition as_run (v : Value) : Prog Run :=
  match v with VRun r => Ret r | _ => Throw TypeError end.
Definition as_channel (v : Value) : Prog (option Channel) :=
  match v with VChannel c => Ret c | _ => Throw TypeError end.
Definition messages_data (v : Value) : Prog (option (list ThreadMessage)) :=
  match v with VMessageList d => Ret d | _ => Throw TypeError end.

Definition console_log (text : string) : Prog unit :=
  Sync (fun _ w => (set_console (fun l => l ++ [ConsoleLog text]) w, tt)) Ret.
Definition console_error (text : string) : Prog unit :=
  Sync (fun _ w => (set_console (fun l => l ++ [ConsoleError text]) w, tt)) Ret.

(** [Date.now()] *)
Definition Date_now : Prog Z := Sync (fun now w => (w, now)) Ret.

(** ** Definitions shared by the three scripts *)

(** [!s] for a string [s]: only the empty string is falsy. *)
Definition falsy_string (s : string) : bool :=
  match s with EmptyString => true | _ => false end.

(** [!v] for [v] a property of [dmSessions]: [undefined] or a number. *)
Definition falsy_number (v : option Z) : bool :=
  match v with None => true | Some n => n =? 0 end.

(** [Map.prototype.has] *)
Definition has {V} (map : gmap N V) (key : N) : bool :=
  match map !! key with Some _ => true | None => false end.

(** [const getOpenAiThreadId = discordThreadId => threadMap[discordThreadId]] *)
Definition getOpenAiThreadId (discordThreadId : N) (w : World) : option string :=
  threadMap w !! discordThreadId.

(** [threadMap[discordThreadId] = openAiThreadId] *)
Definition addThreadToMap (discordThreadId : N) (openAiThreadId : string) (w : World) : World :=
  set_threadMap (<[discordThreadId := openAiThreadId]>) w.

Definition terminalStates : list string :=
  ["cancelled"; "failed"; "completed"; "expired"].

(** [Array.prototype.includes] on strings. *)
Definition includes (l : list string) (s : string) : bool :=
  existsb (String.eqb s) l.

(** [sleep(ms)], awaited. *)
Definition sleep (ms : Z) : Prog unit := await (Sleep ms);; Ret tt.

(** [statusCheckLoop].  One unrolling is one execution of the function
    body: the [try] block covers the retrieve, the test and the sleep;
    the recursive call is returned without [await], so its rejection is
    not caught by this frame's [catch].  [fuel] bounds the number of
    polls. *)
Fixpoint statusCheckLoop (fuel : nat) (openAiThreadId runId : string) : Prog string :=
  match fuel with
  | O => OutOfFuel
  | S fuel' =>
      r <- try_catch
             (v <- await (RunsRetrieve openAiThreadId runId);;
              run <- as_run v;;
              if negb (includes terminalStates (run_status run)) then
                (sleep 1000;; Ret None)
              else Ret (Some (run_status run)))
             (fun error =>
                console_error "Error retrieving the run status";;
                Throw error);;
      match r with
      | None => statusCheckLoop fuel' openAiThreadId runId
      | Some status => Ret status
      end
  end.

(** [addMessage] *)
Definition addMessage (threadId content : string) : Prog Value :=
  await (MessagesCreate threadId content).

(** The lookup-or-create block that every dispatch runs inline:
<<
    let openAiThreadId = getOpenAiThreadId(message.channel.id);
    if (!openAiThreadId) {
      const thread = await openai.beta.threads.create();
      openAiThreadId = thread.id;
      addThreadToMap(message.channel.id, openAiThreadId);
    }
>> *)
Definition resolveOrCreate (channelId : N) : Prog string :=
  let create :=
    thread <- await ThreadsCreate;;
    openAiThreadId <- thread_id thread;;
    Sync (fun _ w => (addThreadToMap channelId openAiThreadId w, tt)) Ret;;
    Ret openAiThreadId in
  found <- Sync (fun _ w => (w, getOpenAiThreadId channelId w)) Ret;;
  match found with
  | Some openAiThreadId =>
      if falsy_string openAiThreadId then create else Ret openAiThreadId
  | None => create
  end.

(** [messages.data[0].content[0].text.value] *)
Definition first_text_value (data : list ThreadMessage) : Prog string :=
  match data with
  | m :: _ =>
      match tm_content m with
      | Some value :: _ => Ret value
      | _ => Throw TypeError
      end
  | [] => Throw TypeError
  end.

(** [messages.data && messages.data.length > 0] *)
Definition has_messages (data : option (list ThreadMessage)) : bool :=
  match data with
  | Some (_ :: _) => true
  | _ => false
  end.

Definition please_wait : string :=
  "Please wait a moment before making the next request.".
Definition try_again_later : string :=
  "An error occurred while processing your request. Please try again later.".
Definition processing_failed : string :=
  "An error occurred while processing your message.".

(** [details.last_error && details.last_error.code === 'rate_limit_exceeded'] *)
Definition is_rate_limit (details : Run) : bool :=
  match run_last_error details with
  | Some code => String.eqb code "rate_limit_exceeded"
  | None => false
  end.

(** [nextAvailableTime = Date.now() + 20 * 1000] *)
Definition penalize : Prog unit :=
  Sync (fun now w => (set_nextAvailableTime (now + 20 * 1000) w, tt)) Ret.

(** [Date.now() < nextAvailableTime] *)
Definition rate_limited : Prog bool :=
  Sync (fun now w => (w, now <? nextAvailableTime w)) Ret.

(** *** The dispatch code common to the three scripts

    The three message handlers contain the same dispatch code; the only
    difference is what follows the reply of a completed run
    ([after_reply]: the [withDb] record in [ionetbot.js], nothing in the
    other two scripts). *)

(** The body of [if (status === 'failed') { ... }]. *)
Definition failed_branch (message : Message) (openAiThreadId runId : string) : Prog unit :=
  console_log "Run failed for thread ID";;
  await (Reply (msg_channel_id message) try_again_later);;
  d <- await (RunsRetrieve openAiThreadId runId);;
  details <- as_run d;;
  if is_rate_limit details then penalize else Ret tt.

(** [response.substring(0, 1999)] *)
Definition truncate (response : string) : string := substring 0 1999 response.

(** The handler of [catch (error)] around the dispatch. *)
Definition on_error (message : Message) (error : Err) : Prog unit :=
  console_error "Error during message processing";;
  await (Reply (msg_channel_id message) processing_failed);;
  Ret tt.

Section Dispatch.

Variable after_reply : Message -> string -> Prog unit.

(** The body of [else if (status === 'completed') { ... }]. *)
Definition completed_branch (message : Message) (openAiThreadId : string) : Prog unit :=
  l <- await (MessagesList openAiThreadId);;
  data <- messages_data l;;
  if has_messages data then
    response <- first_text_value (default [] data);;
    let response := truncate response in
    console_log "Response from OpenAI";;
    await (Reply (msg_channel_id message) response);;
    after_reply message response
  else Ret tt.

(** What follows [const status = await statusCheckLoop(...)]. *)
Definition on_status (message : Message) (openAiThreadId runId status : string)
  : Prog unit :=
  if String.eqb status "failed" then failed_branch message openAiThreadId runId
  else if String.eqb status "completed" then completed_branch message openAiThreadId
  else Ret tt.

(** From the rate check to the end of the handler. *)
Definition dispatch (fuel : nat) (message : Message) : Prog unit :=
  limited <- rate_limited;;
  if limited : bool then
    await (Reply (msg_channel_id message) please_wait);; Ret tt
  else
    openAiThreadId <- resolveOrCreate (msg_channel_id message);;
    try_catch
      (await (SendTyping (msg_channel_id message));;
       addMessage openAiThreadId (msg_content message);;
       v <- await (RunsCreate openAiThreadId);;
       run <- as_run v;;
       status <- statusCheckLoop fuel openAiThreadId (run_id run);;
       on_status message openAiThreadId (run_id run) status)
      (on_error message).

End Dispatch.

(** The handlers of one script. *)
Record Bot := mkBot {
  on_messageCreate : Message -> Prog unit;
  on_interactionCreate : Interaction -> Prog unit
}.

(** ** [ionetbot.js] *)
Module Ionetbot.
Section Handlers.

(** The placeholder ['YOUR_COMMAND_CHANNEL_ID'], to be replaced by the
    identifier of the command channel. *)
Variable YOUR_COMMAND_CHANNEL_ID : N.

(** [mongoClient.db()] *)
Inductive Db := MongoDb.

(** [withDb] *)
Definition withDb (operation : Db -> Prog unit) : Prog unit :=
  try_catch
    (let db := MongoDb in operation db)
    (fun error => console_error "Error during DB operation:").

(** The callback given to [setTimeout] when a channel is created. *)
Definition timerCallback (channelId : N) : Prog unit :=
  registered <- Sync (fun _ w => (w, has (channelsMap w) channelId)) Ret;;
  if registered : bool then
    try_finally
      (try_catch
         (v <- await (ChannelsFetch channelId);;
          fetchedChannel <- as_channel v;;
          match fetchedChannel with
          | Some fetched =>
              await (ChannelDelete (ch_id fetched));;
              console_log "Channel has been automatically deleted.";;
              Spawn (withDb (fun db =>
                       deletedAt <- Date_now;;
                       await (InsertOne "channelDeletions"
                                (ChannelDeletionDoc (ch_id fetched) deletedAt));;
                       Ret tt))
                    (Ret tt)
          | None => Ret tt
          end)
         (fun error => console_error "Error during automatic channel deletion"))
      (Sync (fun _ w => (set_channelsMap (delete channelId) w, tt)) Ret)
  else Ret tt.

Definition greeting : string := "Hello, I'm IO ASSISTANT. How can I help you?".
(** [`${channel}`]: discord.js formats a channel as its mention. *)
Definition channel_mention (channel : Channel) : string :=
  "<#" +:+ pretty (ch_id channel) +:+ ">".

(** [`Private channel ${channel} created. It will be deleted in 10 minutes.`] *)
Definition created_notice (channel : Channel) : string :=
  "Private channel " +:+ channel_mention channel
  +:+ " created. It will be deleted in 10 minutes.".

(** The [!createPrivateChannel] branch of the message handler. *)
Definition createPrivateChannel (message : Message) : Prog unit :=
  let channelName := "private-" +:+ pretty (msg_author_id message) in
  try_catch
    (v <- await (GuildChannelsCreate (msg_guild_id message) channelName
                   (msg_author_id message));;
     created <- as_channel v;;
     match created with
     | None => Throw TypeError
     | Some channel =>
         Sync (fun _ w => (set_channelsMap (<[ch_id channel := channel]>) w, tt)) Ret;;
         await (ChannelSend (ch_id channel) greeting "close_ticket");;
         await (Reply (msg_channel_id message) (created_notice channel));;
         Spawn (withDb (fun db =>
                  timestamp <- Date_now;;
                  await (InsertOne "events"
                           (ChannelCreationDoc (ch_id channel) (msg_author_id message)
                              timestamp));;
                  Ret tt))
           (SetTimeout 600000 (timerCallback (ch_id channel)) (Ret tt))
     end)
    (fun error =>
       console_error "Error creating private channel:";;
       await (Reply (msg_channel_id message) "Failed to create private channel.");;
       Ret tt).

(** What follows the reply of a completed run: the interaction record. *)
Definition record_interaction (message : Message) (response : string) : Prog unit :=
  Spawn (withDb (fun db =>
           timestamp <- Date_now;;
           await (InsertOne "privateMessages"
                    (PrivateMessageDoc (msg_channel_id message)
                       (msg_author_id message) (msg_content message)
                       response timestamp));;
           Ret tt))
        (Ret tt).

(** The branch of the message handler for channels named [private-...]. *)
Definition dispatch : nat -> Message -> Prog unit := dispatch record_interaction.

(** [client.on('messageCreate', ...)] *)
Definition messageCreate (fuel : nat) (message : Message) : Prog unit :=
  if msg_author_bot message || falsy_string (msg_content message) then Ret tt
  else if String.prefix "!createPrivateChannel" (msg_content message)
          && (msg_channel_id message =? YOUR_COMMAND_CHANNEL_ID)%N then
    createPrivateChannel message
  else if ChannelType_eqb (msg_channel_type message) GuildText
          && String.prefix "private-" (msg_channel_name message) then
    dispatch fuel message
  else Ret tt.

(** [client.on('interactionCreate', ...)] *)
Definition interactionCreate (interaction : Interaction) : Prog unit :=
  if negb (int_isButton interaction)
     || negb (String.eqb (int_customId interaction) "close_ticket") then Ret tt
  else
    found <- Sync (fun _ w => (w, channelsMap w !! int_channelId interaction)) Ret;;
    match found with
    | Some channel =>
        try_catch
          (await (ChannelDelete (ch_id channel));;
           console_log "Channel has been deleted by user interaction.";;
           Sync (fun _ w => (set_channelsMap (delete (int_channelId interaction)) w, tt)) Ret)
          (fun error => console_error "Error deleting channel by interaction")
    | None => Ret tt
    end.

Definition bot (fuel : nat) : Bot :=
  mkBot (messageCreate fuel) interactionCreate.

End Handlers.
End Ionetbot.

(** ** [ionetbot_withoutMongoDB.js] *)
Module WithoutMongoDB.
Section Handlers.

Variable YOUR_COMMAND_CHANNEL_ID : N.

Definition timerCallback (channelId : N) : Prog unit :=
  registered <- Sync (fun _ w => (w, has (channelsMap w) channelId)) Ret;;
  if registered : bool then
    try_finally
      (try_catch
         (v <- await (ChannelsFetch channelId);;
          fetchedChannel <- as_channel v;;
          match fetchedChannel with
          | Some fetched =>
              await (ChannelDelete (ch_id fetched));;
              console_log "Channel has been automatically deleted after 10 minutes."
          | None => Ret tt
          end)
         (fun error => console_error "Error during automatic channel deletion"))
      (Sync (fun _ w => (set_channelsMap (delete channelId) w, tt)) Ret)
  else Ret tt.

Definition createPrivateChannel (message : Message) : Prog unit :=
  let channelName := "private-" +:+ pretty (msg_author_id message) in
  try_catch
    (v <- await (GuildChannelsCreate (msg_guild_id message) channelName
                   (msg_author_id message));;
     created <- as_channel v;;
     match created with
     | None => Throw TypeError
     | Some channel =>
         Sync (fun _ w => (set_channelsMap (<[ch_id channel := channel]>) w, tt)) Ret;;
         await (ChannelSend (ch_id channel) Ionetbot.greeting "close_ticket");;
         await (Reply (msg_channel_id message) (Ionetbot.created_notice channel));;
         SetTimeout 600000 (timerCallback (ch_id channel)) (Ret tt)
     end)
    (fun error =>
       console_error "Error creating private channel:";;
       await (Reply (msg_channel_id message) "Failed to create private channel.");;
       Ret tt).

Definition dispatch : nat -> Message -> Prog unit :=
  dispatch (fun _ _ => Ret tt).

Definition messageCreate (fuel : nat) (message : Message) : Prog unit :=
  if msg_author_bot message || falsy_string (msg_content message) then Ret tt
  else if String.prefix "!createPrivateChannel" (msg_content message)
          && (msg_channel_id message =? YOUR_COMMAND_CHANNEL_ID)%N then
    createPrivateChannel message
  else if ChannelType_eqb (msg_channel_type message) GuildText
          && String.prefix "private-" (msg_channel_name message) then
    dispatch fuel message
  else Ret tt.

Definition interactionCreate (interaction : Interaction) : Prog unit :=
  if negb (int_isButton interaction)
     || negb (String.eqb (int_customId interaction) "close_ticket") then Ret tt
  else
    found <- Sync (fun _ w => (w, channelsMap w !! int_channelId interaction)) Ret;;
    match found with
    | Some channel =>
        try_catch
          (await (ChannelDelete (ch_id channel));;
           Sync (fun _ w => (set_channelsMap (delete (int_channelId interaction)) w, tt)) Ret;;
           console_log "Channel has been deleted by user interaction.")
          (fun error => console_error "Error deleting channel by interaction")
    | None =>
        console_error "Attempted to delete a channel that does not exist or was not tracked."
    end.

Definition bot (fuel : nat) : Bot :=
  mkBot (messageCreate fuel) interactionCreate.

End Handlers.
End WithoutMongoDB.

(** ** [ionetbot_test_dm.js] *)
Module TestDm.
Section Handlers.

(** The placeholder ["YOUR_CHANNEL_ID"]. *)
Variable YOUR_CHANNEL_ID : N.

Definition session_started : string :=
  "You have started a DM session with the bot. You have 10 minutes to interact.".
Definition session_expired : string :=
  "Your session has expired or was not started. Use !create to start a new session.".

(** [dmSessions[discordId] = Date.now() + 600000] *)
Definition startSession (discordId : N) : Prog unit :=
  Sync (fun now w => (set_dmSessions (<[discordId := now + 600000]>) w, tt)) Ret.

(** [!sessionEndTime || Date.now() > sessionEndTime], for
    [sessionEndTime = dmSessions[message.author.id]]. *)
Definition session_rejected (now : Z) (sessionEndTime : option Z) : bool :=
  match sessionEndTime with
  | None => true
  | Some t => (t =? 0) || (t <? now)
  end.


Definition dispatch : nat -> Message -> Prog unit :=
  dispatch (fun _ _ => Ret tt).

(** [client.on("messageCreate", ...)].  The two [message.author.send]
    calls are not awaited. *)
Definition messageCreate (fuel : nat) (message : Message) : Prog unit :=
  console_log "Message received: ";;
  if msg_author_bot message || falsy_string (msg_content message) then Ret tt
  else if String.prefix "!create" (msg_content message)
          && (msg_channel_id message =? YOUR_CHANNEL_ID)%N then
    startSession (msg_author_id message);;
    Spawn (await (AuthorSend (msg_author_id message) session_started);; Ret tt)
      (console_log "Session started")
  else if ChannelType_eqb (msg_channel_type message) DM then
    console_log "Processing DM...";;
    rejected <- Sync (fun now w =>
                  (w, session_rejected now (dmSessions w !! msg_author_id message))) Ret;;
    if rejected : bool then
      Spawn (await (AuthorSend (msg_author_id message) session_expired);; Ret tt)
        (console_log "Session ended or not started")
    else dispatch fuel message
  else Ret tt.

(** The script registers no [interactionCreate] listener: an
    interaction does nothing. *)
Definition bot (fuel : nat) : Bot :=
  mkBot (messageCreate fuel) (fun _ => Ret tt).

End Handlers.
End TestDm.

(** ** The event loop *)

(** [tasks]: every handler invocation started so far, each at its
    current suspension point ([Await]) or finished ([Ret], [Throw]: a
    rejected handler promise).  [timers]: the callbacks scheduled with
    [setTimeout], with their due time, [None] once fired.  [issued]: the
    collaborator calls issued so far, oldest first. *)
Record Machine := mkMachine {
  world : World;
  tasks : list (Prog unit);
  timers : list (Z * option (Prog unit));
  issued : list Call
}.

Definition set_world (w : World) (m : Machine) : Machine :=
  mkMachine w (tasks m) (timers m) (issued m).
Definition add_task (p : Prog unit) (m : Machine) : Machine :=
  mkMachine (world m) (tasks m ++ [p]) (timers m) (issued m).
Definition put_task (i : nat) (p : Prog unit) (m : Machine) : Machine :=
  mkMachine (world m) (<[i := p]> (tasks m)) (timers m) (issued m).
Definition add_timer (due : Z) (cb : Prog unit) (m : Machine) : Machine :=
  mkMachine (world m) (tasks m) (timers m ++ [(due, Some cb)]) (issued m).
Definition clear_timer (j : nat) (m : Machine) : Machine :=
  mkMachine (world m) (tasks m)
    (match timers m !! j with
     | Some (due, _) => <[j := (due, None)]> (timers m)
     | None => timers m
     end) (issued m).
Definition issue (c : Call) (m : Machine) : Machine :=
  mkMachine (world m) (tasks m) (timers m) (issued m ++ [c]).

(** Run [p] at instant [now] up to its next suspension point.  A spawned
    child runs up to its own first suspension point before the parent
    continues, as a JavaScript async call does. *)
Fixpoint advance {A : Type} (now : Z) (p : Prog A) (m : Machine) : Machine * Prog A :=
  match p with
  | Ret a => (m, Ret a)
  | Throw e => (m, Throw e)
  | Sync f k =>
      let '(w, x) := f now (world m) in advance now (k x) (set_world w m)
  | Await c k => (issue c m, Await c k)
  | Spawn child k =>
      let '(m1, child') := advance now child m in
      advance now k (add_task child' m1)
  | SetTimeout ms cb k => advance now k (add_timer (now + ms) cb m)
  | OutOfFuel => (m, OutOfFuel)
  end.

(** What the event loop can be given: an incoming message, a component
    interaction, the [j]-th timer coming due, or the pending call of
    task [i] settling with response [r]. *)
Inductive Event :=
| MessageCreate (message : Message)
| InteractionCreate (interaction : Interaction)
| TimerFires (j : nat)
| Settles (i : nat) (r : Response).

(** Start a new handler invocation. *)
Definition start (now : Z) (p : Prog unit) (m : Machine) : Machine :=
  let i := List.length (tasks m) in
  let '(m1, p') := advance now p (add_task p m) in
  put_task i p' m1.

(** Resume task [i] with the settled promise it awaits. *)
Definition resume (now : Z) (i : nat) (r : Response) (m : Machine) : Machine :=
  match tasks m !! i with
  | Some (Await _ k) =>
      let '(m1, p') := advance now (k r) m in
      put_task i p' m1
  | _ => m
  end.

(** One turn of the event loop.  A timer that is not due, or has fired,
    and a settlement for a task that awaits nothing, change nothing. *)
Definition step (bot : Bot) (now : Z) (ev : Event) (m : Machine) : Machine :=
  match ev with
  | MessageCreate message => start now (on_messageCreate bot message) m
  | InteractionCreate interaction => start now (on_interactionCreate bot interaction) m
  | TimerFires j =>
      match timers m !! j with
      | Some (due, Some cb) =>
          if due <=? now then start now cb (clear_timer j m) else m
      | _ => m
      end
  | Settles i r => resume now i r m
  end.

(** A schedule: events with the instant at which each is processed. *)
Fixpoint run (bot : Bot) (schedule : list (Z * Event)) (m : Machine) : Machine :=
  match schedule with
  | [] => m
  | (now, ev) :: rest => run bot rest (step bot now ev m)
  end.

(** The machine when the script has just been loaded at [t0]:
    [let nextAvailableTime = Date.now()], empty maps. *)
Definition boot (t0 : Z) : Machine :=
  mkMachine (mkWorld ∅ ∅ t0 ∅ []) [] [] [].

(** The call task [i] is suspended on, if any. *)
Definition pending (m : Machine) (i : nat) : option Call :=
  match tasks m !! i with
  | Some (Await c _) => Some c
  | _ => None
  end.

(** How task [i] ended, if it has. *)
Inductive Exit := Returned | Threw (e : Err) | Unrolled.
Definition exit_of (m : Machine) (i : nat) : option Exit :=
  match tasks m !! i with
  | Some (Ret _) => Some Returned
  | Some (Throw e) => Some (Threw e)
  | Some OutOfFuel => Some Unrolled
  | _ => None
  end.

Definition is_delete (c : Call) : bool :=
  match c with ChannelDelete _ => true | _ => false end.
Definition is_deletion_record (c : Call) : bool :=
  match c with InsertOne _ (ChannelDeletionDoc _ _) => true | _ => false end.
Definition is_threads_create (c : Call) : bool :=
  match c with ThreadsCreate => true | _ => false end.
Definition is_sleep (c : Call) : bool :=
  match c with Sleep _ => true | _ => false end.
Definition count (f : Call -> bool) (m : Machine) : nat :=
  List.length (filter (fun c => f c = true) (issued m)).

(** ** One handler on its own *)

(** [feed p script m]: handler [p], suspended, receives the settlements
    of [script] in order, nothing else happening in between; tasks it
    spawns are left suspended in [tasks]. *)
Fixpoint feed {A : Type} (p : Prog A) (script : list (Z * Response)) (m : Machine)
  : Machine * Prog A :=
  match script with
  | [] => (m, p)
  | (now, r) :: rest =>
      match p with
      | Await _ k => let '(m1, p1) := advance now (k r) m in feed p1 rest m1
      | _ => (m, p)
      end
  end.

(** [invoke now p script m]: [p] is started at [now] and then fed [script]. *)
Definition invoke {A : Type} (now : Z) (p : Prog A) (script : list (Z * Response)) (m : Machine)
  : Machine * Prog A :=
  let '(m1, p1) := advance now p m in feed p1 script m1.

(** The events that settle the calls of task [i] with [script]. *)
Definition settle (i : nat) (script : list (Z * Response)) : list (Z * Event) :=
  map (fun tr => (fst tr, Settles i (snd tr))) script.

(** A poll of the run status that answers [r], then the 1000 ms sleep
    elapsing; [polls] lists the answer of each poll with the instants at
    which the answer and the end of the sleep are processed. *)
Definition poll_script (polls : list (Z * Run * Z)) : list (Z * Response) :=
  flat_map (fun p => [(fst (fst p), Fulfilled (VRun (snd (fst p))));
                      (snd p, Fulfilled VVoid)]) polls.

(** The calls a poll loop issues for [n] non-terminal answers. *)
Definition poll_calls (threadId runId : string) (n : nat) : list Call :=
  List.concat (replicate n [RunsRetrieve threadId runId; Sleep 1000]).

Definition nonterminal (r : Run) : Prop :=
  includes terminalStates (run_status r) = false.
Definition terminal (r : Run) : Prop :=
  includes terminalStates (run_status r) = true.

Definition issue_all (cs : list Call) (m : Machine) : Machine :=
  mkMachine (world m) (tasks m) (timers m) (issued m ++ cs).

(** The machine after [console.log(text)]. *)
Definition log_info (text : string) (m : Machine) : Machine :=
  set_world (set_console (fun l => l ++ [ConsoleLog text]) (world m)) m.

(** The machine after [console.error(text)]. *)
Definition log_error (text : string) (m : Machine) : Machine :=
  set_world (set_console (fun l => l ++ [ConsoleError text]) (world m)) m.

(** The dispatch from the poll loop on. *)
Definition polling (after_reply : Message -> string -> Prog unit)
    (fuel : nat) (message : Message) (threadId runId : string) : Prog unit :=
  try_catch (bind (statusCheckLoop fuel threadId runId)
               (on_status after_reply message threadId runId))
            (on_error message).

(** The call a suspended program waits for. *)
Definition awaiting {A : Type} (p : Prog A) : option Call :=
  match p with Await c _ => Some c | _ => None end.

(** [n] copies of the character [c]. *)
Fixpoint repeat_char (c : ascii) (n : nat) : string :=
  match n with O => EmptyString | S n' => String c (repeat_char c n') end.

(** No execution of [p] ends by throwing (tasks it spawns are not
    part of its own execution). *)
Fixpoint never_throws {A : Type} (p : Prog A) : Prop :=
  match p with
  | Ret _ | OutOfFuel => True
  | Throw _ => False
  | Sync f k => forall now w, never_throws (k (snd (f now w)))
  | Await _ k => forall r, never_throws (k r)
  | Spawn _ k | SetTimeout _ _ k => never_throws k
  end.

(** Two states of the module variables that agree on everything but
    the console. *)
Definition same_variables (w1 w2 : World) : Prop :=
  threadMap w1 = threadMap w2 /\ channelsMap w1 = channelsMap w2 /\
  nextAvailableTime w1 = nextAvailableTime w2 /\ dmSessions w1 = dmSessions w2.

(** The only assignment to [nextAvailableTime] a synchronous step may
    make at instant [now]. *)
Definition gate_step (now : Z) (w w' : World) : Prop :=
  nextAvailableTime w' = nextAvailableTime w \/
  nextAvailableTime w' = now + 20 * 1000.

(** Every synchronous step of [p], of the tasks it spawns and of the
    callbacks it schedules is a [gate_step]. *)
Fixpoint gate_safe {A : Type} (p : Prog A) : Prop :=
  match p with
  | Ret _ | Throw _ | OutOfFuel => True
  | Sync f k =>
      forall now w, gate_step now w (fst (f now w)) /\ gate_safe (k (snd (f now w)))
  | Await _ k => forall r, gate_safe (k r)
  | Spawn child k => gate_safe child /\ gate_safe k
  | SetTimeout _ cb k => gate_safe cb /\ gate_safe k
  end.

Definition gate_safe_timer (tm : Z * option (Prog unit)) : Prop :=
  match snd tm with Some cb => gate_safe cb | None => True end.

(** The gate never lies more than the penalty ahead of the clock, and
    everything that can still run keeps it so. *)
Definition gate_invariant (now : Z) (m : Machine) : Prop :=
  nextAvailableTime (world m) <= now + 20 * 1000
  /\ Forall (fun p => gate_safe p) (tasks m)
  /\ Forall gate_safe_timer (timers m).

(** The instants of a schedule never go back, starting from [t]. *)
Fixpoint clock_monotone (t : Z) (schedule : list (Z * Event)) : Prop :=
  match schedule with
  | [] => True
  | (t', _) :: rest => t <= t' /\ clock_monotone t' rest
  end.

(** The instant of the last event of a schedule that starts at [t]. *)
Fixpoint last_instant (t : Z) (schedule : list (Z * Event)) : Z :=
  match schedule with
  | [] => t
  | (t', _) :: rest => last_instant t' rest
  end.

(** The three scripts, with the identifier that replaces the
    placeholder of each. *)
Inductive Script :=
| IonetbotJs (commandChannelId : N)
| WithoutMongoDBJs (commandChannelId : N)
| TestDmJs (channelId : N).

Definition bot_of (script : Script) (fuel : nat) : Bot :=
  match script with
  | IonetbotJs c => Ionetbot.bot c fuel
  | WithoutMongoDBJs c => WithoutMongoDB.bot c fuel
  | TestDmJs c => TestDm.bot c fuel
  end.

(** The statuses the specification names as terminal. *)
Definition spec_terminal_status (status : string) : Prop :=
  status = "cancelled" \/ status = "failed" \/ status = "completed"
  \/ status = "expired".

(** The thread a dispatch finds for its channel: the value of
    [getOpenAiThreadId(message.channel.id)] when it is truthy. *)
Definition bound_thread (channelId : N) (w : World) : option string :=
  match getOpenAiThreadId channelId w with
  | Some openAiThreadId =>
      if falsy_string openAiThreadId then None else Some openAiThreadId
  | None => None
  end.

(** The settlements that take a dispatch from its start to the created
    run: the new thread when none was found, then the typing indicator,
    the message and the run. *)
Definition run_opening (found : option string) (t1 : Z) (created : string)
    (t2 t3 t4 : Z) (v1 v2 : Value) (run : Run) : list (Z * Response) :=
  match found with
  | Some _ => []
  | None => [(t1, Fulfilled (VThread created))]
  end ++ [(t2, Fulfilled v1); (t3, Fulfilled v2); (t4, Fulfilled (VRun run))].

(** The thread the dispatch goes on with. *)
Definition thread_used (found : option string) (created : string) : string :=
  match found with Some openAiThreadId => openAiThreadId | None => created end.

(** The machine of a dispatch once its run has been created. *)
Definition run_started (message : Message) (created : string) (m : Machine) : Machine :=
  match bound_thread (msg_channel_id message) (world m) with
  | Some openAiThreadId =>
      issue_all [ SendTyping (msg_channel_id message);
                  MessagesCreate openAiThreadId (msg_content message);
                  RunsCreate openAiThreadId ] m
  | None =>
      issue_all [ ThreadsCreate; SendTyping (msg_channel_id message);
                  MessagesCreate created (msg_content message); RunsCreate created ]
        (set_world (addThreadToMap (msg_channel_id message) created (world m)) m)
  end.

(** ** Two concrete interleavings

    Channel 500 is the command channel, user 42 the author. *)

Definition create_command : Message :=
  mkMessage false 42 "!createPrivateChannel" 500 GuildText "commands" 1.

Definition private_42 : Channel := mkChannel 7 "private-42" GuildText.

Definition close_press : Interaction := mkInteraction true "close_ticket" 7.

(** The channel is created and registered and its timer scheduled
    (tasks 0 and 1: the handler and its creation record); ten minutes
    later the timer fires (task 2) and, while its fetch is in flight,
    the user presses the button (task 3).  The fetch and the user's
    delete succeed; the timer's own delete then fails. *)
Definition close_race : list (Z * Event) :=
  [ (1000, MessageCreate create_command);
    (1100, Settles 0 (Fulfilled (VChannel (Some private_42))));
    (1200, Settles 0 (Fulfilled VVoid));
    (1300, Settles 0 (Fulfilled VVoid));
    (1400, Settles 1 (Fulfilled VVoid));
    (601300, TimerFires 0);
    (601310, InteractionCreate close_press);
    (601320, Settles 2 (Fulfilled (VChannel (Some private_42))));
    (601330, Settles 3 (Fulfilled VVoid));
    (601340, Settles 2 (Rejected (CallFailed "Unknown Channel"))) ].

Definition hello : Message :=
  mkMessage false 42 "hello" 7 GuildText "private-42" 1.
Definition again : Message :=
  mkMessage false 42 "again" 7 GuildText "private-42" 1.

(** Two messages arrive in the same unbound channel before the thread
    of the first has been created (tasks 0 and 1). *)
Definition first_use_race : list (Z * Event) :=
  [ (10, MessageCreate hello);
    (20, MessageCreate again);
    (30, Settles 0 (Fulfilled (VThread "thread_A")));
    (40, Settles 1 (Fulfilled (VThread "thread_B")));
    (50, Settles 0 (Fulfilled VVoid));
    (60, Settles 1 (Fulfilled VVoid)) ].

(** ** Sample data *)

Definition sample_polls : list (Z * Run * Z) :=
  [ (5, mkRun "run_1" "queued" None, 1005);
    (1010, mkRun "run_1" "in_progress" None, 2010) ].
Definition sample_completed : Run := mkRun "run_1" "completed" None.
Definition sample_run : Run := mkRun "run_1" "queued" None.
Definition sample_overloaded : Run :=
  mkRun "run_1" "failed" (Some "rate_limit_exceeded").
Definition sample_reply : option (list ThreadMessage) :=
  Some [mkThreadMessage [Some "hi there"]].

(** Channel 7 registered, nothing else. *)
Definition sample_registered : Machine :=
  mkMachine (mkWorld ∅ {[ 7%N := private_42 ]} 0 ∅ []) [] [] [].

(** The DM script: channel 600 is the start channel, 900 a DM channel. *)
Definition start_command : Message :=
  mkMessage false 42 "!create" 600 GuildText "start" 1.
Definition dm_hello : Message :=
  mkMessage false 42 "hello" 900 DM "" 0.
Definition sample_session : Machine :=
  fst (advance 1000 (TestDm.messageCreate 600 5 start_command) (boot 0)).

(** ** Definitions for the further properties *)

(** The machine of a first message once its run has been created. *)
Definition run_created (message : Message) (threadId : string) (m : Machine) : Machine :=
  issue_all [ ThreadsCreate; SendTyping (msg_channel_id message);
              MessagesCreate threadId (msg_content message); RunsCreate threadId ]
    (set_world (addThreadToMap (msg_channel_id message) threadId (world m)) m).

(** [messages.data[0].content[0].text] exists. *)
Definition has_text (first : ThreadMessage) : bool :=
  match tm_content first with Some _ :: _ => true | _ => false end.

(** *** What the handlers may do to the module variables *)

(** Every synchronous step of [p], of the tasks it spawns and of the
    callbacks it schedules is related by [R]. *)
Fixpoint steps_in (R : Z -> World -> World -> Prop) {A : Type} (p : Prog A) : Prop :=
  match p with
  | Ret _ | Throw _ | OutOfFuel => True
  | Sync f k =>
      forall now w, R now w (fst (f now w)) /\ steps_in R (k (snd (f now w)))
  | Await _ k => forall r, steps_in R (k r)
  | Spawn child k => steps_in R child /\ steps_in R k
  | SetTimeout _ cb k => steps_in R cb /\ steps_in R k
  end.

Definition steps_in_timer (R : Z -> World -> World -> Prop)
    (tm : Z * option (Prog unit)) : Prop :=
  match snd tm with Some cb => steps_in R cb | None => True end.

Definition all_steps_in (R : Z -> World -> World -> Prop) (m : Machine) : Prop :=
  Forall (fun p => steps_in R p) (tasks m) /\ Forall (steps_in_timer R) (timers m).

(** [R] allows what the dispatch does: reading, writing to the console,
    binding a thread, moving the gate by the penalty. *)
Record permits (R : Z -> World -> World -> Prop) : Prop := mkPermits {
  permits_same : forall now w w', same_variables w' w -> R now w w';
  permits_bind : forall now w c tid, R now w (addThreadToMap c tid w);
  permits_penalty : forall now w, R now w (set_nextAvailableTime (now + 20 * 1000) w)
}.

Definition thread_step (w w' : World) : Prop :=
  threadMap w' = threadMap w \/
  exists c tid, threadMap w' = <[c := tid]> (threadMap w).

Definition channel_step (w w' : World) : Prop :=
  channelsMap w' = channelsMap w
  \/ (exists ch, channelsMap w' = <[ch_id ch := ch]> (channelsMap w))
  \/ (exists c, channelsMap w' = delete c (channelsMap w)).

Definition session_step (now : Z) (w w' : World) : Prop :=
  dmSessions w' = dmSessions w \/
  exists u, dmSessions w' = <[u := now + 600000]> (dmSessions w).

(** The assignments any of the scripts makes. *)
Definition store_step (now : Z) (w w' : World) : Prop :=
  thread_step w w' /\ channel_step w w' /\ gate_step now w w' /\ session_step now w w'.

(** The assignments of the two guild scripts. *)
Definition guild_step (now : Z) (w w' : World) : Prop :=
  thread_step w w' /\ channel_step w w' /\ gate_step now w w'
  /\ dmSessions w' = dmSessions w.

(** The assignments of the DM script. *)
Definition dm_step (now : Z) (w w' : World) : Prop :=
  thread_step w w' /\ channelsMap w' = channelsMap w /\ gate_step now w w'
  /\ session_step now w w'.

(** The assignments of a handler that leaves the sessions alone. *)
Definition keeps_sessions (now : Z) (w w' : World) : Prop :=
  dmSessions w' = dmSessions w.

(** *** Start-up of [ionetbot.js]

    [connectMongo] and [setupIndexes] run once, before any handler, and
    touch none of the module variables of the handlers; they are
    embedded on their own, as functions of how each call is answered. *)

(** The two calls [connectMongo] and [setupIndexes] make. *)
Inductive StartupCall :=
| MongoConnect                                            (* mongoClient.connect() *)
| CreateIndex (collection : string) (keys : list (string * Z)).
                                                          (* db.collection(c).createIndex(keys) *)

(** What start-up has done so far: the calls made, the console. *)
Record StartupLog := mkStartupLog {
  made : list StartupCall;
  printed : list LogLine
}.

(** A start-up computation: given how each call is answered ([None]:
    fulfilled, [Some e]: rejected with [e]), it extends the log and
    returns a value or throws. *)
Definition Startup (A : Type) : Type :=
  (StartupCall -> option Err) -> StartupLog -> StartupLog * (A + Err).

Definition su_ret {A : Type} (a : A) : Startup A := fun _ l => (l, inl a).

Definition su_bind {A B : Type} (p : Startup A) (g : A -> Startup B) : Startup B :=
  fun answer l =>
    match p answer l with
    | (l', inl a) => g a answer l'
    | (l', inr e) => (l', inr e)
    end.

Definition su_try {A : Type} (p : Startup A) (h : Err -> Startup A) : Startup A :=
  fun answer l =>
    match p answer l with
    | (l', inl a) => (l', inl a)
    | (l', inr e) => h e answer l'
    end.

(** [await call] *)
Definition su_await (c : StartupCall) : Startup unit :=
  fun answer l =>
    (mkStartupLog (made l ++ [c]) (printed l),
     match answer c with None => inl tt | Some e => inr e end).

Definition su_print (line : LogLine) : Startup unit :=
  fun _ l => (mkStartupLog (made l) (printed l ++ [line]), inl tt).

(** The three indexes, in the order [setupIndexes] creates them. *)
Definition index_privateMessages : StartupCall :=
  CreateIndex "privateMessages" [("channelId", 1); ("timestamp", -1)].
Definition index_interactions : StartupCall :=
  CreateIndex "interactions" [("interactionId", 1)].
Definition index_channelDeletions : StartupCall :=
  CreateIndex "channelDeletions" [("channelId", 1)].

(** [setupIndexes] *)
Definition setupIndexes : Startup unit :=
  su_try
    (su_bind (su_await index_privateMessages) (fun _ =>
     su_bind (su_await index_interactions) (fun _ =>
     su_bind (su_await index_channelDeletions) (fun _ =>
     su_print (ConsoleLog "Indexes created.")))))
    (fun e => su_print (ConsoleError "Could not create indexes")).

(** [connectMongo]; the value is the status given to [process.exit],
    if it is called. *)
Definition connectMongo : Startup (option Z) :=
  su_try
    (su_bind (su_await MongoConnect) (fun _ =>
     su_bind (su_print (ConsoleLog "Connected to MongoDB")) (fun _ =>
     su_bind setupIndexes (fun _ => su_ret None))))
    (fun e =>
       su_bind (su_print (ConsoleError "Could not connect to MongoDB")) (fun _ =>
       su_ret (Some 1))).

(** The index calls [setupIndexes] makes under [answer]: the indexes in
    order, up to and including the first that is rejected. *)
Definition indexes_tried (answer : StartupCall -> option Err) : list StartupCall :=
  match answer index_privateMessages with
  | Some _ => [index_privateMessages]
  | None =>
      match answer index_interactions with
      | Some _ => [index_privateMessages; index_interactions]
      | None => [index_privateMessages; index_interactions; index_channelDeletions]
      end
  end.

(** All three indexes are created. *)
Definition indexes_created (answer : StartupCall -> option Err) : bool :=
  match answer index_privateMessages, answer index_interactions,
        answer index_channelDeletions with
  | None, None, None => true
  | _, _, _ => false
  end.

(** *** Sample data for the further properties *)

(** A message of another user in another private channel. *)
Definition elsewhere : Message :=
  mkMessage false 43 "hi" 8 GuildText "private-43" 1.

(** The newest message of a thread, its first part without text. *)
Definition sample_image : ThreadMessage := mkThreadMessage [None].

(** User 42 sends the create command again and gets channel 9. *)
Definition create_again : Message :=
  mkMessage false 42 "!createPrivateChannel please" 500 GuildText "commands" 1.
Definition private_42_bis : Channel := mkChannel 9 "private-42" GuildText.

(** MongoDB refuses the connection. *)
Definition connection_refused (call : StartupCall) : option Err :=
  match call with
  | MongoConnect => Some (CallFailed "ECONNREFUSED")
  | CreateIndex _ _ => None
  end.

(** The status retrieve of a run is rejected, and so is the failure
    reply that the dispatch then sends (task 0). *)
Definition status_error_unreported : list (Z * Event) :=
  [ (10, MessageCreate hello);
    (20, Settles 0 (Fulfilled (VThread "thread_1")));
    (30, Settles 0 (Fulfilled VVoid));
    (40, Settles 0 (Fulfilled VVoid));
    (50, Settles 0 (Fulfilled (VRun (mkRun "run_1" "queued" None))));
    (60, Settles 0 (Rejected (CallFailed "ECONNRESET")));
    (70, Settles 0 (Rejected (CallFailed "Missing Permissions"))) ].

(** Two messages in two channels (tasks 0 and 1); both runs fail with
    [rate_limit_exceeded].  The failure details of the first arrive at
    5000; the system clock is then set back and the details of the
    second arrive at 4000. *)
Definition clock_set_back : list (Z * Event) :=
  [ (10, MessageCreate hello);
    (20, MessageCreate elsewhere);
    (30, Settles 0 (Fulfilled (VThread "thread_1")));
    (40, Settles 1 (Fulfilled (VThread "thread_2")));
    (50, Settles 0 (Fulfilled VVoid));
    (60, Settles 1 (Fulfilled VVoid));
    (70, Settles 0 (Fulfilled VVoid));
    (80, Settles 1 (Fulfilled VVoid));
    (90, Settles 0 (Fulfilled (VRun (mkRun "run_1" "queued" None))));
    (100, Settles 1 (Fulfilled (VRun (mkRun "run_2" "queued" None))));
    (110, Settles 0 (Fulfilled (VRun (mkRun "run_1" "failed"
                                        (Some "rate_limit_exceeded")))));
    (120, Settles 1 (Fulfilled (VRun (mkRun "run_2" "failed"
                                        (Some "rate_limit_exceeded")))));
    (130, Settles 0 (Fulfilled VVoid));
    (140, Settles 1 (Fulfilled VVoid));
    (5000, Settles 0 (Fulfilled (VRun (mkRun "run_1" "failed"
                                         (Some "rate_limit_exceeded")))));
    (4000, Settles 1 (Fulfilled (VRun (mkRun "run_2" "failed"
                                         (Some "rate_limit_exceeded"))))) ].

(** One message whose run fails with [rate_limit_exceeded], the failure
    details arriving at 5000 (task 0); a second message at 6000. *)
Definition one_penalty : list (Z * Event) :=
  [ (10, MessageCreate hello);
    (30, Settles 0 (Fulfilled (VThread "thread_1")));
    (50, Settles 0 (Fulfilled VVoid));
    (70, Settles 0 (Fulfilled VVoid));
    (90, Settles 0 (Fulfilled (VRun (mkRun "run_1" "queued" None))));
    (110, Settles 0 (Fulfilled (VRun (mkRun "run_1" "failed"
                                        (Some "rate_limit_exceeded")))));
    (130, Settles 0 (Fulfilled VVoid));
    (5000, Settles 0 (Fulfilled (VRun (mkRun "run_1" "failed"
                                         (Some "rate_limit_exceeded")))));
    (6000, MessageCreate elsewhere) ].

(** * Proofs *)

Arguments includes : simpl never.

Lemma issue_all_issue c cs m :
  issue_all cs (issue c m) = issue_all (c :: cs) m.
Proof. unfold issue_all, issue; cbn. by rewrite <- app_assoc. Qed.

Lemma issue_all_nil m : issue_all [] m = m.
Proof. destruct m; unfold issue_all; cbn. by rewrite app_nil_r. Qed.

Lemma feed_done {A : Type} (p : Prog A) script m :
  (forall c k, p <> Await c k) -> feed p script m = (m, p).
Proof.
  intros Hp. destruct script as [|[t r] rest]; [reflexivity|].
  destruct p; try reflexivity. exfalso; eapply Hp; reflexivity.
Qed.

Lemma feed_app {A : Type} (s1 s2 : list (Z * Response)) : forall (p : Prog A) m,
  feed p (s1 ++ s2) m = let '(m1, p1) := feed p s1 m in feed p1 s2 m1.
Proof.
  induction s1 as [|[t r] s1 IH]; intros p m; [reflexivity|].
  cbn [app feed]. destruct p; try (symmetry; apply feed_done; congruence).
  destruct (advance t (k r) m) as [m1 p1]. apply IH.
Qed.

(** ** The poll loop inside an arbitrary [try]/continuation context *)
Section PollLoop.
Context {A : Type} (g : string -> Prog A) (h : Err -> Prog A).
Variables (threadId runId : string).

Let K (fuel : nat) : Prog A :=
  try_catch (bind (statusCheckLoop fuel threadId runId) g) h.

Lemma invoke_loop_now t t' fuel sc m :
  invoke t (K fuel) sc m = invoke t' (K fuel) sc m.
Proof. destruct fuel; reflexivity. Qed.

(** Non-terminal answers: each costs one retrieve and one sleep of
    1000 ms and one unit of fuel, and leaves the loop where it was. *)
Lemma loop_ctx_polls polls : forall fuel now rest m,
  Forall (fun p => nonterminal (snd (fst p))) polls ->
  (List.length polls <= fuel)%nat ->
  invoke now (K fuel) (poll_script polls ++ rest) m =
  invoke now (K (fuel - List.length polls)) rest
    (issue_all (poll_calls threadId runId (List.length polls)) m).
Proof.
  induction polls as [|[[t1 r] t2] polls IH]; intros fuel now rest m Hnt Hfuel.
  - cbn. rewrite Nat.sub_0_r, issue_all_nil. reflexivity.
  - inversion Hnt as [|? ? Hr Hnt']; subst. cbn in Hr.
    destruct fuel as [|fuel]; [cbn in Hfuel; lia|].
    cbn [List.length Nat.sub].
    unfold invoke at 1. cbn. unfold nonterminal in Hr. rewrite Hr. cbn.
    change (invoke t2 (K fuel) (poll_script polls ++ rest)
              (issue (Sleep 1000) (issue (RunsRetrieve threadId runId) m)) =
            invoke now (K (fuel - List.length polls)) rest
              (issue_all (poll_calls threadId runId (S (List.length polls))) m)).
    rewrite IH by (auto; cbn in Hfuel; lia).
    rewrite !issue_all_issue. apply invoke_loop_now.
Qed.

(** A terminal answer ends the loop with that status. *)
Lemma loop_ctx_terminal fuel now t last rest m :
  terminal last ->
  invoke now (K (S fuel)) ((t, Fulfilled (VRun last)) :: rest) m =
  let '(m1, p1) := advance t (try_catch (g (run_status last)) h)
                     (issue (RunsRetrieve threadId runId) m) in
  feed p1 rest m1.
Proof.
  intros Hr. unfold invoke at 1. cbn. unfold terminal in Hr. rewrite Hr. cbn.
  reflexivity.
Qed.

(** A rejected retrieve is logged once and thrown to the context. *)
Lemma loop_ctx_rejected fuel now t e rest m :
  invoke now (K (S fuel)) ((t, Rejected e) :: rest) m =
  let '(m1, p1) := advance t (h e)
                     (log_error "Error retrieving the run status"
                        (issue (RunsRetrieve threadId runId) m)) in
  feed p1 rest m1.
Proof. reflexivity. Qed.

End PollLoop.

Arguments on_status : simpl never.
Arguments on_error : simpl never.

Ltac norm_machine :=
  unfold issue, issue_all, set_world, add_task, put_task, add_timer, log_error;
  cbn [world tasks timers issued];
  rewrite <- ?app_assoc; cbn [app].

Section DispatchPrefix.
Variable after_reply : Message -> string -> Prog unit.

Lemma dispatch_unbound fuel msg m t0 t1 t2 t3 t4 tid v1 v2 run rest :
  nextAvailableTime (world m) <= t0 ->
  threadMap (world m) !! msg_channel_id msg = None ->
  invoke t0 (dispatch after_reply fuel msg)
    ((t1, Fulfilled (VThread tid)) :: (t2, Fulfilled v1) :: (t3, Fulfilled v2)
       :: (t4, Fulfilled (VRun run)) :: rest) m =
  invoke t4 (polling after_reply fuel msg tid (run_id run)) rest
    (issue_all [ThreadsCreate; SendTyping (msg_channel_id msg);
                MessagesCreate tid (msg_content msg); RunsCreate tid]
       (set_world (addThreadToMap (msg_channel_id msg) tid (world m)) m)).
Proof.
  intros Hgate Hnone. apply Z.ltb_ge in Hgate. destruct m as [w ts tm iss].
  cbn in Hgate, Hnone.
  unfold invoke, dispatch, polling. cbn. rewrite Hgate. cbn.
  unfold getOpenAiThreadId. rewrite Hnone. cbn.
  norm_machine. reflexivity.
Qed.

Lemma dispatch_bound fuel msg m t0 t2 t3 t4 tid v1 v2 run rest :
  nextAvailableTime (world m) <= t0 ->
  threadMap (world m) !! msg_channel_id msg = Some tid ->
  falsy_string tid = false ->
  invoke t0 (dispatch after_reply fuel msg)
    ((t2, Fulfilled v1) :: (t3, Fulfilled v2) :: (t4, Fulfilled (VRun run)) :: rest) m =
  invoke t4 (polling after_reply fuel msg tid (run_id run)) rest
    (issue_all [SendTyping (msg_channel_id msg);
                MessagesCreate tid (msg_content msg); RunsCreate tid] m).
Proof.
  intros Hgate Hsome Htid. apply Z.ltb_ge in Hgate. destruct m as [w ts tm iss].
  cbn in Hgate, Hsome.
  unfold invoke, dispatch, polling. cbn. rewrite Hgate. cbn.
  unfold getOpenAiThreadId. rewrite Hsome. cbn. rewrite Htid. cbn.
  norm_machine. reflexivity.
Qed.

Lemma dispatch_limited fuel msg m t0 :
  t0 < nextAvailableTime (world m) ->
  advance t0 (dispatch after_reply fuel msg) m =
  (issue (Reply (msg_channel_id msg) please_wait) m,
   await (Reply (msg_channel_id msg) please_wait);; Ret tt).
Proof.
  intros Hgate. apply Z.ltb_lt in Hgate. destruct m as [w ts tm iss].
  cbn in Hgate. unfold dispatch. cbn. rewrite Hgate. reflexivity.
Qed.

End DispatchPrefix.

(** The dispatch up to its poll loop, whether or not a thread was found. *)
Lemma dispatch_opening after_reply fuel msg m t0 t1 t2 t3 t4 created v1 v2 run rest :
  nextAvailableTime (world m) <= t0 ->
  invoke t0 (dispatch after_reply fuel msg)
    (run_opening (bound_thread (msg_channel_id msg) (world m))
       t1 created t2 t3 t4 v1 v2 run ++ rest) m =
  invoke t4 (polling after_reply fuel msg
               (thread_used (bound_thread (msg_channel_id msg) (world m)) created)
               (run_id run)) rest
    (run_started msg created m).
Proof.
  intros Hgate. apply Z.ltb_ge in Hgate. destruct m as [w ts tm iss]. cbn in Hgate.
  unfold run_started, run_opening, thread_used, bound_thread, getOpenAiThreadId.
  cbn [world].
  unfold invoke, dispatch, polling. cbn. rewrite Hgate. cbn. unfold getOpenAiThreadId.
  destruct (threadMap w !! msg_channel_id msg) as [tid|]; cbn.
  - destruct (falsy_string tid); cbn; norm_machine; reflexivity.
  - norm_machine. reflexivity.
Qed.

(** [terminalStates] lists the four terminal statuses and nothing else. *)
Lemma terminal_iff (r : Run) : terminal r <-> spec_terminal_status (run_status r).
Proof.
  unfold terminal, includes, terminalStates, spec_terminal_status. cbn [existsb].
  rewrite !orb_true_iff, !String.eqb_eq. split.
  - intros [H|[H|[H|[H|H]]]]; auto. discriminate.
  - intros [H|[H|[H|H]]]; auto.
Qed.

Lemma nonterminal_iff (r : Run) :
  nonterminal r <-> ~ spec_terminal_status (run_status r).
Proof.
  rewrite <- terminal_iff. unfold nonterminal, terminal.
  destruct (includes terminalStates (run_status r)); split; congruence.
Qed.

Lemma waiting_polls (polls : list (Z * Run * Z)) :
  Forall (fun p => ~ spec_terminal_status (run_status (snd (fst p)))) polls ->
  Forall (fun p => nonterminal (snd (fst p))) polls.
Proof.
  intros H. eapply Forall_impl; [exact H|]. intros p. apply nonterminal_iff.
Qed.

(** The test of the failed branch is on the error code. *)
Lemma is_rate_limit_iff (details : Run) :
  is_rate_limit details = true <-> run_last_error details = Some "rate_limit_exceeded".
Proof.
  unfold is_rate_limit. destruct (run_last_error details) as [code|].
  - rewrite String.eqb_eq. split; congruence.
  - split; discriminate.
Qed.

(** ** The poll loop on its own *)
Section PlainLoop.
Variables (threadId runId : string).

Lemma invoke_plain_now t t' fuel sc m :
  invoke t (statusCheckLoop fuel threadId runId) sc m =
  invoke t' (statusCheckLoop fuel threadId runId) sc m.
Proof. destruct fuel; reflexivity. Qed.

Lemma loop_polls polls : forall fuel now rest m,
  Forall (fun p => nonterminal (snd (fst p))) polls ->
  (List.length polls <= fuel)%nat ->
  invoke now (statusCheckLoop fuel threadId runId) (poll_script polls ++ rest) m =
  invoke now (statusCheckLoop (fuel - List.length polls) threadId runId) rest
    (issue_all (poll_calls threadId runId (List.length polls)) m).
Proof.
  induction polls as [|[[t1 r] t2] polls IH]; intros fuel now rest m Hnt Hfuel.
  - cbn. rewrite Nat.sub_0_r, issue_all_nil. reflexivity.
  - inversion Hnt as [|? ? Hr Hnt']; subst. cbn in Hr.
    destruct fuel as [|fuel]; [cbn in Hfuel; lia|].
    cbn [List.length Nat.sub].
    unfold invoke at 1. cbn. unfold nonterminal in Hr. rewrite Hr. cbn.
    change (invoke t2 (statusCheckLoop fuel threadId runId) (poll_script polls ++ rest)
              (issue (Sleep 1000) (issue (RunsRetrieve threadId runId) m)) =
            invoke now (statusCheckLoop (fuel - List.length polls) threadId runId) rest
              (issue_all (poll_calls threadId runId (S (List.length polls))) m)).
    rewrite IH by (auto; cbn in Hfuel; lia).
    rewrite !issue_all_issue. apply invoke_plain_now.
Qed.

Lemma loop_terminal fuel now t last m :
  terminal last ->
  invoke now (statusCheckLoop (S fuel) threadId runId) [(t, Fulfilled (VRun last))] m =
  (issue (RunsRetrieve threadId runId) m, Ret (run_status last)).
Proof.
  intros Hr. unfold invoke. cbn. unfold terminal in Hr. rewrite Hr. reflexivity.
Qed.

Lemma loop_rejected fuel now t e m :
  invoke now (statusCheckLoop (S fuel) threadId runId) [(t, Rejected e)] m =
  (log_error "Error retrieving the run status" (issue (RunsRetrieve threadId runId) m),
   Throw e).
Proof. reflexivity. Qed.

Lemma loop_returns_first_terminal fuel polls last now t m :
  Forall (fun p => nonterminal (snd (fst p))) polls ->
  terminal last ->
  (List.length polls < fuel)%nat ->
  invoke now (statusCheckLoop fuel threadId runId)
    (poll_script polls ++ [(t, Fulfilled (VRun last))]) m =
  (issue_all (poll_calls threadId runId (List.length polls) ++ [RunsRetrieve threadId runId]) m,
   Ret (run_status last)).
Proof.
  intros Hnt Hlast Hfuel. rewrite loop_polls by (auto; lia).
  destruct (fuel - List.length polls)%nat as [|f] eqn:E; [lia|].
  rewrite loop_terminal by done.
  unfold issue. unfold issue_all. cbn. rewrite <- app_assoc. reflexivity.
Qed.

End PlainLoop.

Lemma sleeps_poll_calls tid rid n :
  filter (fun c => is_sleep c = true) (poll_calls tid rid n) = replicate n (Sleep 1000).
Proof.
  unfold poll_calls. induction n as [|n IH]; [reflexivity|].
  cbn [replicate List.concat app]. rewrite !filter_cons.
  cbn. rewrite decide_False by discriminate. rewrite decide_True by reflexivity.
  cbn. by rewrite IH.
Qed.

(** ** C3: terminal-state coverage of the run driver *)

(** C3.  [statusCheckLoop] retrieves the run; on a status that is none
    of cancelled, failed, completed, expired it awaits [sleep(1000)] and
    polls again; on each of these four it returns that status, the first
    one observed.  For the answers queued, in_progress, completed it
    returns "completed" after two sleeps; for queued, failed it returns
    "failed" after one sleep, and the dispatch of [ionetbot.js] then sets
    [nextAvailableTime] to the instant at which the failure details
    arrive (its last step) plus 20000 when the error code of the details
    is rate_limit_exceeded, and leaves it alone for any other code or
    when there is no error. *)
Theorem C3_terminal_state_coverage
    (fuel : nat) (threadId runId : string) (polls : list (Z * Run * Z)) (last : Run)
    (now t : Z) (m : Machine)
    (message : Message) (details : Run) (run : Run)
    (t0 t1 t2 t3 t4 t5 t6 t7 t8 t9 : Z) (v1 v2 v4 : Value) (e1 e2 e3 : option string)
    (Hpolls : Forall (fun p => ~ spec_terminal_status (run_status (snd (fst p)))) polls)
    (Hlast : spec_terminal_status (run_status last))
    (Hfuel : (List.length polls < fuel)%nat)
    (Hgate : nextAvailableTime (world m) <= t0)
    (Hunbound : threadMap (world m) !! msg_channel_id message = None) :
  (* every non-terminal answer is followed by sleep(1000) and a new poll;
     the first terminal status, whichever of the four, is returned *)
  invoke now (statusCheckLoop fuel threadId runId)
    (poll_script polls ++ [(t, Fulfilled (VRun last))]) m =
  (issue_all (poll_calls threadId runId (List.length polls) ++ [RunsRetrieve threadId runId]) m,
   Ret (run_status last))
  (* one suspension per non-terminal answer, each of 1000 ms *)
  /\ filter (fun c => is_sleep c = true)
       (poll_calls threadId runId (List.length polls)
        ++ [RunsRetrieve threadId runId]) = replicate (List.length polls) (Sleep 1000)
  (* ["queued"; "in_progress"; "completed"]: two suspensions *)
  /\ invoke now (statusCheckLoop (3 + fuel) threadId runId)
       [ (t1, Fulfilled (VRun (mkRun runId "queued" e1))); (t2, Fulfilled VVoid);
         (t3, Fulfilled (VRun (mkRun runId "in_progress" e2))); (t4, Fulfilled VVoid);
         (t5, Fulfilled (VRun (mkRun runId "completed" e3))) ] m =
     (issue_all [ RunsRetrieve threadId runId; Sleep 1000;
                  RunsRetrieve threadId runId; Sleep 1000;
                  RunsRetrieve threadId runId ] m,
      Ret "completed")
  (* ["queued"; "failed"]: one suspension, then the penalty *)
  /\ invoke now (statusCheckLoop (2 + fuel) threadId runId)
       [ (t1, Fulfilled (VRun (mkRun runId "queued" e1))); (t2, Fulfilled VVoid);
         (t3, Fulfilled (VRun (mkRun runId "failed" e2))) ] m =
     (issue_all [ RunsRetrieve threadId runId; Sleep 1000;
                  RunsRetrieve threadId runId ] m,
      Ret "failed")
  /\ let '(m', p') :=
       invoke t0 (Ionetbot.dispatch (2 + fuel) message)
         [ (t1, Fulfilled (VThread threadId)); (t2, Fulfilled v1); (t3, Fulfilled v2);
           (t4, Fulfilled (VRun run));
           (t5, Fulfilled (VRun (mkRun (run_id run) "queued" e1))); (t6, Fulfilled VVoid);
           (t7, Fulfilled (VRun (mkRun (run_id run) "failed" e2)));
           (t8, Fulfilled v4);
           (t9, Fulfilled (VRun details)) ] m in
     p' = Ret tt
     /\ count is_sleep m' = (count is_sleep m + 1)%nat
     /\ (run_last_error details = Some "rate_limit_exceeded" ->
         nextAvailableTime (world m') = t9 + 20000)
     /\ (run_last_error details <> Some "rate_limit_exceeded" ->
         nextAvailableTime (world m') = nextAvailableTime (world m)).
Proof.
  apply waiting_polls in Hpolls. apply terminal_iff in Hlast.
  split; [by apply loop_returns_first_terminal|].
  split.
  { rewrite filter_app, sleeps_poll_calls. cbn. apply app_nil_r. }
  split.
  { apply (loop_returns_first_terminal threadId runId (3 + fuel)
             [(t1, mkRun runId "queued" e1, t2); (t3, mkRun runId "in_progress" e2, t4)]
             (mkRun runId "completed" e3) now t5 m);
      [repeat constructor | reflexivity | cbn; lia]. }
  split.
  { apply (loop_returns_first_terminal threadId runId (2 + fuel)
             [(t1, mkRun runId "queued" e1, t2)]
             (mkRun runId "failed" e2) now t3 m);
      [repeat constructor | reflexivity | cbn; lia]. }
  unfold Ionetbot.dispatch.
  rewrite dispatch_unbound by assumption.
  change [ (t5, Fulfilled (VRun (mkRun (run_id run) "queued" e1))); (t6, Fulfilled VVoid);
           (t7, Fulfilled (VRun (mkRun (run_id run) "failed" e2)));
           (t8, Fulfilled v4); (t9, Fulfilled (VRun details)) ]
    with (poll_script [(t5, mkRun (run_id run) "queued" e1, t6)] ++
          [ (t7, Fulfilled (VRun (mkRun (run_id run) "failed" e2)));
            (t8, Fulfilled v4); (t9, Fulfilled (VRun details)) ]).
  unfold polling. rewrite loop_ctx_polls; [|repeat constructor|cbn; lia].
  cbn [List.length Nat.add Nat.sub].
  rewrite loop_ctx_terminal by reflexivity.
  destruct m as [w ts tm iss].
  unfold on_status, failed_branch. cbn.
  pose proof (is_rate_limit_iff details) as Hcode.
  destruct (is_rate_limit details); cbn;
    (split; [reflexivity|split; [|split]]).
  - unfold count; norm_machine; rewrite filter_app, length_app; reflexivity.
  - reflexivity.
  - intros Hother. exfalso. apply Hother, Hcode. reflexivity.
  - unfold count; norm_machine; rewrite filter_app, length_app; reflexivity.
  - intros Hlimit. apply Hcode in Hlimit. discriminate.
  - reflexivity.
Qed.

(** ** Handlers on their own and the event loop *)

Lemma advance_tasks_length {A : Type} (p : Prog A) : forall now m,
  (List.length (tasks m) <= List.length (tasks (fst (advance now p m))))%nat.
Proof.
  induction p as [A a|A e|A X f k IH|A c k IH|A child IHc k IHk|A ms cb IHcb k IHk|A];
    intros now m; cbn; try lia.
  - destruct (f now (world m)) as [w x]. etransitivity; [|apply IH]. cbn. lia.
  - specialize (IHc now m). destruct (advance now child m) as [m1 child'].
    etransitivity; [|apply IHk]. cbn in *. rewrite length_app. lia.
  - etransitivity; [|apply IHk]. cbn. lia.
Qed.

Lemma advance_put_task {A : Type} (p : Prog A) : forall now i x m,
  (i < List.length (tasks m))%nat ->
  advance now p (put_task i x m) =
  (put_task i x (fst (advance now p m)), snd (advance now p m)).
Proof.
  induction p as [A a|A e|A X f k IH|A c k IH|A child IHc k IHk|A ms cb IHcb k IHk|A];
    intros now i x m Hi; cbn; try reflexivity.
  - destruct (f now (world m)) as [w y].
    change (set_world w (put_task i x m)) with (put_task i x (set_world w m)).
    apply IH. exact Hi.
  - rewrite IHc by exact Hi.
    pose proof (advance_tasks_length child now m) as Hlen.
    destruct (advance now child m) as [m1 child']. cbn in *.
    replace (add_task child' (put_task i x m1)) with (put_task i x (add_task child' m1)).
    + apply IHk. cbn. rewrite length_app. lia.
    + unfold add_task, put_task. cbn. f_equal. apply insert_app_l. lia.
  - change (add_timer (now + ms) cb (put_task i x m))
      with (put_task i x (add_timer (now + ms) cb m)).
    apply IHk. exact Hi.
Qed.

Lemma feed_tasks_length {A : Type} script : forall (p : Prog A) m,
  (List.length (tasks m) <= List.length (tasks (fst (feed p script m))))%nat.
Proof.
  induction script as [|[t r] rest IH]; intros p m; cbn; [lia|].
  destruct p as [a|e|X f k|c k|child k|ms cb k|]; cbn; try lia.
  pose proof (advance_tasks_length (k r) t m) as Hlen.
  destruct (advance t (k r) m) as [m1 p1]. etransitivity; [|apply IH]. exact Hlen.
Qed.

Lemma feed_put_task {A : Type} script : forall (p : Prog A) i x m,
  (i < List.length (tasks m))%nat ->
  feed p script (put_task i x m) =
  (put_task i x (fst (feed p script m)), snd (feed p script m)).
Proof.
  induction script as [|[t r] rest IH]; intros p i x m Hi; cbn; [reflexivity|].
  destruct p as [a|e|X f k|c k|child k|ms cb k|]; try reflexivity.
  rewrite advance_put_task by exact Hi.
  pose proof (advance_tasks_length (k r) t m) as Hlen.
  destruct (advance t (k r) m) as [m1 p1]. cbn in *. apply IH. lia.
Qed.

Lemma put_task_put_task i x y m : put_task i y (put_task i x m) = put_task i y m.
Proof. unfold put_task; cbn. by rewrite list_insert_insert_eq. Qed.

Lemma run_settle bot script : forall i p m,
  tasks m !! i = Some p ->
  run bot (settle i script) m =
  put_task i (snd (feed p script m)) (fst (feed p script m)).
Proof.
  induction script as [|[t r] rest IH]; intros i p m Hp; cbn.
  - unfold put_task. destruct m as [w ts tm iss]; cbn in *.
    by rewrite list_insert_id.
  - fold (settle i rest). unfold resume. rewrite Hp.
    assert (Hi : (i < List.length (tasks m))%nat) by (eapply lookup_lt_Some; eauto).
    destruct p as [a|e|X f k|c k|child k|ms cb k|]; try (rewrite (IH i _ m Hp), feed_done by congruence; reflexivity).
    pose proof (advance_tasks_length (k r) t m) as Hlen.
    destruct (advance t (k r) m) as [m1 p1] eqn:E. cbn in Hlen.
    rewrite (IH i p1).
    + rewrite feed_put_task by lia. cbn. apply put_task_put_task.
    + unfold put_task; cbn. apply list_lookup_insert_eq. lia.
Qed.

(** Starting a handler and then processing the settlements of its
    calls, with no other event in between, is [invoke] of the handler. *)
Lemma start_settle bot now p script m :
  let i := List.length (tasks m) in
  run bot (settle i script) (start now p m) =
  put_task i (snd (invoke now p script (add_task p m)))
             (fst (invoke now p script (add_task p m))).
Proof.
  intros i. unfold start, invoke. fold i.
  pose proof (advance_tasks_length p now (add_task p m)) as Hlen.
  destruct (advance now p (add_task p m)) as [m1 p1]. cbn in Hlen.
  rewrite length_app in Hlen. cbn in Hlen.
  rewrite (run_settle bot script i p1).
  - rewrite feed_put_task by (fold i; lia). cbn. apply put_task_put_task.
  - unfold put_task; cbn. apply list_lookup_insert_eq. fold i. lia.
Qed.

Lemma run_message bot now message script m :
  let p := on_messageCreate bot message in
  let i := List.length (tasks m) in
  run bot ((now, MessageCreate message) :: settle i script) m =
  put_task i (snd (invoke now p script (add_task p m)))
             (fst (invoke now p script (add_task p m))).
Proof. apply start_settle. Qed.

Lemma run_interaction bot now interaction script m :
  let p := on_interactionCreate bot interaction in
  let i := List.length (tasks m) in
  run bot ((now, InteractionCreate interaction) :: settle i script) m =
  put_task i (snd (invoke now p script (add_task p m)))
             (fst (invoke now p script (add_task p m))).
Proof. apply start_settle. Qed.

(** ** C7: a failed status retrieval *)

(** C7, as stated, fails: in [status_error_unreported] the status
    retrieve is rejected, the dispatch catches the error and sends the
    failure reply, and that reply is rejected in turn.  The reply is
    awaited in the [catch] block, outside any [try]: the handler ends
    with the rejection of the reply, uncaught. *)
Lemma C7_counterexample_notice_rejected :
  let bot := Ionetbot.bot 500 5 in
  let caught := run bot (take 6 status_error_unreported) (boot 0) in
  let final := run bot status_error_unreported (boot 0) in
  pending caught 0 = Some (Reply 7 processing_failed)
  /\ exit_of final 0 = Some (Threw (CallFailed "Missing Permissions"))
  /\ issued final =
       [ ThreadsCreate; SendTyping 7; MessagesCreate "thread_1" "hello";
         RunsCreate "thread_1"; RunsRetrieve "thread_1" "run_1";
         Reply 7 processing_failed ]
  /\ console (world final) =
       [ ConsoleError "Error retrieving the run status";
         ConsoleError "Error during message processing" ].
Proof. vm_compute. repeat split; reflexivity. Qed.

(** C7, amended.  When a retrieve of the run status is rejected,
    [statusCheckLoop] logs the error and throws it to its caller; it
    polls no more, whatever settles later.  The dispatch, whether or not
    the conversation already has a thread, catches the error, logs it
    and sends the generic failure reply.  When that reply is delivered
    the handler returns; when the reply is rejected the handler ends
    with that rejection, which nothing catches. *)
Theorem C7_status_error_propagates
    (after_reply : Message -> string -> Prog unit)
    (fuel : nat) (threadId runId created : string) (polls : list (Z * Run * Z))
    (e e' : Err) (now t t' : Z) (m : Machine) (message : Message) (run : Run)
    (t0 t1 t2 t3 t4 : Z) (v v1 v2 : Value) (later : list (Z * Response))
    (Hpolls : Forall (fun p => nonterminal (snd (fst p))) polls)
    (Hfuel : (List.length polls < fuel)%nat)
    (Hgate : nextAvailableTime (world m) <= t0) :
  (* the loop ends with the error; no poll follows the rejected one *)
  invoke now (statusCheckLoop fuel threadId runId)
    (poll_script polls ++ (t, Rejected e) :: later) m =
  (log_error "Error retrieving the run status"
     (issue_all (poll_calls threadId runId (List.length polls)
                   ++ [RunsRetrieve threadId runId]) m),
   Throw e)
  /\ (let found := bound_thread (msg_channel_id message) (world m) in
      let opening := run_opening found t1 created t2 t3 t4 v1 v2 run in
      let tid := thread_used found created in
      let notice := Reply (msg_channel_id message) processing_failed in
      let caught :=
        issue notice
          (log_error "Error during message processing"
             (log_error "Error retrieving the run status"
                (issue_all (poll_calls tid (run_id run) (List.length polls)
                              ++ [RunsRetrieve tid (run_id run)])
                   (run_started message created m)))) in
      (* the dispatch catches the error and sends the notice *)
      invoke t0 (dispatch after_reply fuel message)
        (opening ++ poll_script polls ++ [(t, Rejected e)]) m =
      (caught, await notice;; Ret tt)
      (* the notice is delivered: the handler returns *)
      /\ invoke t0 (dispatch after_reply fuel message)
           (opening ++ poll_script polls ++ (t, Rejected e) :: (t', Fulfilled v) :: later)
           m = (caught, Ret tt)
      (* the notice is rejected: the handler ends with that rejection *)
      /\ invoke t0 (dispatch after_reply fuel message)
           (opening ++ poll_script polls ++ (t, Rejected e) :: (t', Rejected e') :: later)
           m = (caught, Throw e')).
Proof.
  split.
  - rewrite loop_polls by (auto; lia).
    destruct (fuel - List.length polls)%nat as [|f] eqn:E; [lia|].
    unfold invoke. cbn. rewrite feed_done by congruence.
    f_equal. destruct m as [w ts tm iss]. norm_machine. reflexivity.
  - intros found opening tid notice caught.
    assert (Hloop : forall rest, invoke t0 (dispatch after_reply fuel message)
              (opening ++ poll_script polls ++ (t, Rejected e) :: rest) m =
              feed (await notice;; Ret tt) rest caught).
    { intros rest. subst opening found. rewrite dispatch_opening by assumption.
      unfold polling. rewrite loop_ctx_polls by (auto; lia).
      destruct (fuel - List.length polls)%nat as [|f] eqn:E; [lia|].
      rewrite loop_ctx_rejected. unfold on_error. cbn.
      f_equal. subst caught notice tid.
      destruct (run_started message created m) as [w ts tm iss]. norm_machine.
      reflexivity. }
    rewrite !Hloop. cbn. rewrite !feed_done by congruence. auto.
Qed.

(** ** C6: reply truncation *)

Lemma substring_0_length n : forall s,
  String.length (substring 0 n s) = Nat.min n (String.length s).
Proof.
  induction n as [|n IH]; intros s; [by destruct s|].
  destruct s as [|c s]; [reflexivity|]. cbn. by rewrite IH.
Qed.

Lemma substring_0_short n : forall s,
  (String.length s <= n)%nat -> substring 0 n s = s.
Proof.
  induction n as [|n IH]; intros s Hs.
  - destruct s; [reflexivity|cbn in Hs; lia].
  - destruct s as [|c s]; [reflexivity|]. cbn in *. rewrite IH; [reflexivity|lia].
Qed.

Lemma substring_0_prefix n : forall s,
  exists rest, s = (substring 0 n s +:+ rest)%string.
Proof.
  induction n as [|n IH]; intros s.
  - exists s. by destruct s.
  - destruct s as [|c s]; [by exists EmptyString|].
    destruct (IH s) as [rest Hrest]. exists rest.
    change (String c s = String c (substring 0 n s +:+ rest)). by f_equal.
Qed.

Lemma length_repeat_char c n : String.length (repeat_char c n) = n.
Proof. induction n as [|n IH]; cbn; [reflexivity|by rewrite IH]. Qed.

(** C6.  For a completed run the text given to [message.reply] is
    [response.substring(0, 1999)] of the extracted reply, in the script
    with records and in the one without: the first 1999 characters when
    the reply is longer, the reply itself otherwise; a reply of 5000
    characters is sent as 1999 characters. *)
Theorem C6_reply_truncation
    (after_reply : Message -> string -> Prog unit)
    (message : Message) (threadId runId : string)
    (reply : string) (parts : list (option string)) (older : list ThreadMessage)
    (t t' : Z) (m : Machine) (c : ascii) :
  let data := Some (mkThreadMessage (Some reply :: parts) :: older) in
  let result := invoke t (completed_branch after_reply message threadId)
                  [(t', Fulfilled (VMessageList data))] m in
  on_status after_reply message threadId runId "completed" =
    completed_branch after_reply message threadId
  /\ issued (fst result) =
       issued m ++ [MessagesList threadId; Reply (msg_channel_id message) (truncate reply)]
  /\ awaiting (snd result) = Some (Reply (msg_channel_id message) (truncate reply))
  /\ ((1999 < String.length reply)%nat ->
        String.length (truncate reply) = 1999%nat
        /\ exists rest, reply = (truncate reply +:+ rest)%string)
  /\ ((String.length reply <= 1999)%nat -> truncate reply = reply)
  /\ String.length (truncate (repeat_char c 5000)) = 1999%nat.
Proof.
  intros data result.
  split; [reflexivity|].
  split; [destruct m; subst result; cbn; by rewrite <- app_assoc|].
  split; [reflexivity|].
  unfold truncate. split; [|split].
  - intros Hlong. split; [rewrite substring_0_length; lia|apply substring_0_prefix].
  - apply substring_0_short.
  - rewrite substring_0_length, length_repeat_char. reflexivity.
Qed.

(** ** C8: persistence failures *)

Lemma lookup_last_task {T : Type} (ts : list T) (p : T) :
  (ts ++ [p]) !! List.length ts = Some p.
Proof. by apply list_lookup_middle. Qed.

Lemma insert_last_task {T : Type} (ts : list T) (p q : T) :
  <[List.length ts := q]> (ts ++ [p]) = ts ++ [q].
Proof. rewrite insert_app_r_alt by lia. by rewrite Nat.sub_diag. Qed.

Lemma try_catch_never_throws {A : Type} (p : Prog A) (h : Err -> Prog A) :
  (forall e, never_throws (h e)) -> never_throws (try_catch p h).
Proof.
  intros Hh.
  induction p as [A a|A e|A X f k IH|A c k IH|A child IHc k IHk|A ms cb IHcb k IHk|A];
    cbn; auto.
Qed.

Lemma advance_never_throws {A : Type} (p : Prog A) : forall now m,
  never_throws p -> never_throws (snd (advance now p m)).
Proof.
  induction p as [A a|A e|A X f k IH|A c k IH|A child IHc k IHk|A ms cb IHcb k IHk|A];
    intros now m Hp; cbn in *; auto.
  - specialize (Hp now (world m)). destruct (f now (world m)) as [w x]. by apply IH.
  - destruct (advance now child m) as [m1 child']. by apply IHk.
Qed.

Lemma feed_never_throws {A : Type} script : forall (p : Prog A) m,
  never_throws p -> never_throws (snd (feed p script m)).
Proof.
  induction script as [|[t r] rest IH]; intros p m Hp; cbn; [exact Hp|].
  destruct p as [a|e|X f k|c k|child k|ms cb k|]; cbn in *; auto.
  pose proof (advance_never_throws (k r) t m (Hp r)) as Hk.
  destruct (advance t (k r) m) as [m1 p1]. by apply IH.
Qed.

Lemma withDb_never_throws (operation : Ionetbot.Db -> Prog unit) :
  never_throws (Ionetbot.withDb operation).
Proof. apply try_catch_never_throws. intros e. cbn. auto. Qed.

(** C8.  [withDb] catches and logs whatever its operation throws and
    never rejects; in the dispatch the reply has been sent and the
    handler has returned before the insert settles, and the settlement,
    fulfilled or rejected, changes nothing but the console. *)
Theorem C8_persistence_failures_contained
    (operation : Ionetbot.Db -> Prog unit) (script : list (Z * Response))
    (message : Message) (threadId reply : string)
    (parts : list (option string)) (older : list ThreadMessage)
    (t t1 t2 t3 : Z) (v : Value) (r : Response) (m : Machine) :
  let data := Some (mkThreadMessage (Some reply :: parts) :: older) in
  let i := List.length (tasks m) in
  let result := invoke t (completed_branch Ionetbot.record_interaction message threadId)
                  [(t1, Fulfilled (VMessageList data)); (t2, Fulfilled v)] m in
  let m1 := fst result in
  let m2 := resume t3 i r m1 in
  (* [withDb] never rejects, whatever the operation does *)
  (forall e, snd (invoke t (Ionetbot.withDb operation) script m) <> Throw e)
  (* an operation that fails is logged *)
  /\ (forall e, invoke t (Ionetbot.withDb (fun _ => Throw e)) script m =
                (log_error "Error during DB operation:" m, Ret tt))
  (* the reply is sent and the handler has returned before the insert settles *)
  /\ issued m1 = issued m ++
       [ MessagesList threadId; Reply (msg_channel_id message) (truncate reply);
         InsertOne "privateMessages"
           (PrivateMessageDoc (msg_channel_id message) (msg_author_id message)
              (msg_content message) (truncate reply) t2) ]
  /\ snd result = Ret tt
  /\ pending m1 i = Some (InsertOne "privateMessages"
           (PrivateMessageDoc (msg_channel_id message) (msg_author_id message)
              (msg_content message) (truncate reply) t2))
  (* whatever the insert answers, only the console can differ *)
  /\ exit_of m2 i = Some Returned
  /\ issued m2 = issued m1
  /\ same_variables (world m2) (world m1)
  /\ console (world m2) =
       console (world m1) ++
       match r with
       | Fulfilled _ => []
       | Rejected _ => [ConsoleError "Error during DB operation:"]
       end.
Proof.
  intros data i result m1 m2.
  split.
  { intros e He. pose proof (withDb_never_throws operation) as H.
    unfold invoke in He.
    pose proof (advance_never_throws _ t m H) as H1.
    destruct (advance t (Ionetbot.withDb operation) m) as [m' p'].
    pose proof (feed_never_throws script p' m' H1) as H2.
    rewrite He in H2. exact H2. }
  split.
  { intros e. unfold invoke. cbn. destruct script as [|[? ?] ?]; reflexivity. }
  destruct m as [w ts tm iss].
  subst m2 m1 result i. cbn.
  split; [by rewrite <- !app_assoc|]. split; [reflexivity|].
  unfold pending, exit_of, resume, add_task, issue, set_world, same_variables.
  cbn [world tasks timers issued]. rewrite lookup_last_task.
  split; [reflexivity|].
  destruct r as [v'|e]; cbn; rewrite insert_last_task, lookup_last_task;
    rewrite ?app_nil_r; auto 10.
Qed.

(** ** C10: the two close paths when the platform delete fails *)

(** C10.  When [channel.delete()] is rejected, the button handler leaves
    the entry of the channel in [channelsMap]; the timer callback
    removes it in its [finally] block whether the fetch or the delete
    was rejected or both succeeded. *)
Theorem C10_close_paths_differ_on_error
    (interaction : Interaction) (channel fetched : Channel)
    (t1 t2 t3 : Z) (e : Err) (v : Value) (m : Machine)
    (Hbutton : int_isButton interaction = true)
    (Hid : int_customId interaction = "close_ticket")
    (Hreg : channelsMap (world m) !! int_channelId interaction = Some channel) :
  let channelId := int_channelId interaction in
  (* user close, delete rejected: still registered *)
  invoke t1 (Ionetbot.interactionCreate interaction) [(t2, Rejected e)] m =
    (log_error "Error deleting channel by interaction"
       (issue (ChannelDelete (ch_id channel)) m), Ret tt)
  (* user close, delete fulfilled: deregistered *)
  /\ (let '(m', p') := invoke t1 (Ionetbot.interactionCreate interaction)
                         [(t2, Fulfilled v)] m in
      p' = Ret tt /\ channelsMap (world m') = delete channelId (channelsMap (world m)))
  (* timer close, delete rejected: deregistered anyway *)
  /\ (let '(m', p') := invoke t1 (Ionetbot.timerCallback channelId)
                         [(t2, Fulfilled (VChannel (Some fetched))); (t3, Rejected e)] m in
      p' = Ret tt
      /\ issued m' = issued m ++ [ChannelsFetch channelId; ChannelDelete (ch_id fetched)]
      /\ channelsMap (world m') = delete channelId (channelsMap (world m)))
  (* timer close, fetch rejected: deregistered anyway *)
  /\ (let '(m', p') := invoke t1 (Ionetbot.timerCallback channelId)
                         [(t2, Rejected e)] m in
      p' = Ret tt /\ channelsMap (world m') = delete channelId (channelsMap (world m)))
  (* timer close, delete fulfilled: deregistered *)
  /\ (let '(m', p') := invoke t1 (Ionetbot.timerCallback channelId)
                         [(t2, Fulfilled (VChannel (Some fetched))); (t3, Fulfilled v)] m in
      p' = Ret tt /\ channelsMap (world m') = delete channelId (channelsMap (world m))).
Proof.
  intros channelId. subst channelId. destruct m as [w ts tm iss]. cbn in Hreg.
  unfold invoke, Ionetbot.interactionCreate, Ionetbot.timerCallback, has.
  rewrite Hbutton, Hid. cbn. rewrite Hreg. cbn.
  repeat split; try reflexivity. by rewrite <- app_assoc.
Qed.

(** ** C9: admission to the dispatch by channel name *)

(** C9.  A human, non-empty message that is not the create command is
    dispatched exactly when its channel is a guild text channel whose
    name starts with [private-]; the test reads the message only, so a
    message in such a channel reaches the backend although the channel
    is absent from [channelsMap]. *)
Theorem C9_dispatch_by_name_only
    (cmd : N) (fuel : nat) (message : Message) (threadId : string)
    (t0 t1 t2 t3 : Z) (v1 v2 : Value) (m : Machine)
    (Hhuman : msg_author_bot message = false)
    (Hcontent : falsy_string (msg_content message) = false)
    (Hnotcmd : String.prefix "!createPrivateChannel" (msg_content message)
               && (msg_channel_id message =? cmd)%N = false)
    (Htype : msg_channel_type message = GuildText)
    (Hname : String.prefix "private-" (msg_channel_name message) = true)
    (Habsent : channelsMap (world m) !! msg_channel_id message = None)
    (Hgate : nextAvailableTime (world m) <= t0)
    (Hunbound : threadMap (world m) !! msg_channel_id message = None) :
  (* the guard reads the message only *)
  Ionetbot.messageCreate cmd fuel message = Ionetbot.dispatch fuel message
  (* the message goes to the backend although the channel is not registered *)
  /\ issued (fst (invoke t0 (Ionetbot.messageCreate cmd fuel message)
                    [ (t1, Fulfilled (VThread threadId)); (t2, Fulfilled v1);
                      (t3, Fulfilled v2) ] m)) =
     issued m ++ [ ThreadsCreate; SendTyping (msg_channel_id message);
                   MessagesCreate threadId (msg_content message);
                   RunsCreate threadId ]
  (* any other human message that is not the create command is
     dispatched exactly when its channel is a guild text channel named
     private-... *)
  /\ (forall other : Message,
        msg_author_bot other || falsy_string (msg_content other) = false ->
        String.prefix "!createPrivateChannel" (msg_content other)
          && (msg_channel_id other =? cmd)%N = false ->
        Ionetbot.messageCreate cmd fuel other =
        if ChannelType_eqb (msg_channel_type other) GuildText
           && String.prefix "private-" (msg_channel_name other)
        then Ionetbot.dispatch fuel other else Ret tt).
Proof.
  assert (Heq : Ionetbot.messageCreate cmd fuel message = Ionetbot.dispatch fuel message).
  { unfold Ionetbot.messageCreate. by rewrite Hhuman, Hcontent, Hnotcmd, Htype, Hname. }
  split; [exact Heq|]. split.
  - rewrite Heq. apply Z.ltb_ge in Hgate. destruct m as [w ts tm iss].
    cbn in Hgate, Hunbound.
    unfold invoke, Ionetbot.dispatch, dispatch. cbn. rewrite Hgate. cbn.
    unfold getOpenAiThreadId. rewrite Hunbound. cbn. by rewrite <- !app_assoc.
  - intros other H1 H2. unfold Ionetbot.messageCreate. by rewrite H1, H2.
Qed.

(** ** C5: DM sessions *)


(** ** C4: the rate gate *)

Lemma gate_safe_bind {A B : Type} (p : Prog A) (g : A -> Prog B) :
  gate_safe p -> (forall a, gate_safe (g a)) -> gate_safe (bind p g).
Proof.
  intros Hp Hg.
  induction p as [A a|A e|A X f k IH|A c k IH|A child IHc k IHk|A ms cb IHcb k IHk|A];
    cbn in *; auto.
  - intros now w. destruct (Hp now w). split; auto.
  - destruct Hp. split; auto.
  - destruct Hp. split; auto.
Qed.

Lemma gate_safe_try_catch {A : Type} (p : Prog A) (h : Err -> Prog A) :
  gate_safe p -> (forall e, gate_safe (h e)) -> gate_safe (try_catch p h).
Proof.
  intros Hp Hh.
  induction p as [A a|A e|A X f k IH|A c k IH|A child IHc k IHk|A ms cb IHcb k IHk|A];
    cbn in *; auto.
  - intros now w. destruct (Hp now w). split; auto.
  - destruct Hp. split; auto.
  - destruct Hp. split; auto.
Qed.

Lemma gate_safe_try_finally {A : Type} (p : Prog A) (fin : Prog unit) :
  gate_safe p -> gate_safe fin -> gate_safe (try_finally p fin).
Proof.
  intros Hp Hfin. unfold try_finally.
  apply gate_safe_bind.
  - apply gate_safe_try_catch; [|cbn; auto].
    apply gate_safe_bind; [exact Hp|cbn; auto].
  - intros r. apply gate_safe_bind; [exact Hfin|]. intros _. destruct r; cbn; auto.
Qed.

Lemma gate_safe_await c : gate_safe (await c).
Proof. intros [v|e]; cbn; auto. Qed.

Lemma gate_safe_console_log text : gate_safe (console_log text).
Proof. intros now w. cbn. split; [by left|exact I]. Qed.

Lemma gate_safe_console_error text : gate_safe (console_error text).
Proof. intros now w. cbn. split; [by left|exact I]. Qed.

Lemma gate_safe_penalize : gate_safe penalize.
Proof. intros now w. cbn. split; [by right|exact I]. Qed.

Lemma gate_safe_read {X : Type} (g : Z -> World -> X) :
  gate_safe (Sync (fun now w => (w, g now w)) Ret).
Proof. intros now w. cbn. split; [by left|exact I]. Qed.

Lemma gate_safe_ret {A : Type} (a : A) : gate_safe (Ret a).
Proof. exact I. Qed.

Lemma gate_safe_throw {A : Type} (e : Err) : gate_safe (@Throw A e).
Proof. exact I. Qed.

Create HintDb gate.
#[local] Hint Resolve gate_safe_await gate_safe_console_log gate_safe_console_error
  gate_safe_penalize gate_safe_ret gate_safe_throw : gate.

Ltac gate_safe_tac :=
  repeat first
    [ progress intros
    | exact I
    | solve [auto with gate]
    | apply gate_safe_read
    | apply gate_safe_bind
    | apply gate_safe_try_catch
    | apply gate_safe_try_finally
    | match goal with
      | |- gate_safe (if ?b then _ else _) => destruct b
      | |- gate_safe (match ?x with _ => _ end) => destruct x
      | |- gate_safe (Spawn _ _) => split
      | |- gate_safe (SetTimeout _ _ _) => split
      | |- gate_safe (Sync _ _) => intros ? ?; cbn; split; [by left|]
      end ].

Lemma gate_safe_statusCheckLoop fuel tid rid : gate_safe (statusCheckLoop fuel tid rid).
Proof.
  induction fuel as [|fuel IH]; [exact I|]. cbn [statusCheckLoop].
  apply gate_safe_bind; [|intros [s|]; [exact I|exact IH]].
  unfold sleep, as_run. gate_safe_tac.
Qed.

Lemma gate_safe_resolveOrCreate c : gate_safe (resolveOrCreate c).
Proof. unfold resolveOrCreate, getOpenAiThreadId, thread_id. gate_safe_tac. Qed.

Lemma gate_safe_dispatch after_reply fuel message :
  (forall msg response, gate_safe (after_reply msg response)) ->
  gate_safe (dispatch after_reply fuel message).
Proof.
  intros Har. unfold dispatch, rate_limited.
  apply gate_safe_bind; [apply gate_safe_read|]. intros [|]; [gate_safe_tac|].
  apply gate_safe_bind; [apply gate_safe_resolveOrCreate|]. intros tid.
  apply gate_safe_try_catch; [|unfold on_error; gate_safe_tac].
  apply gate_safe_bind; [gate_safe_tac|]. intros _.
  apply gate_safe_bind; [unfold addMessage; gate_safe_tac|]. intros _.
  apply gate_safe_bind; [gate_safe_tac|]. intros v.
  apply gate_safe_bind; [unfold as_run; gate_safe_tac|]. intros run.
  apply gate_safe_bind; [apply gate_safe_statusCheckLoop|]. intros status.
  unfold on_status, failed_branch, completed_branch, as_run, messages_data,
    first_text_value.
  gate_safe_tac.
Qed.

Lemma gate_safe_withDb operation :
  (forall db, gate_safe (operation db)) -> gate_safe (Ionetbot.withDb operation).
Proof. intros H. unfold Ionetbot.withDb. gate_safe_tac. Qed.

Lemma gate_safe_record_interaction message response :
  gate_safe (Ionetbot.record_interaction message response).
Proof.
  unfold Ionetbot.record_interaction. split; [|exact I].
  apply gate_safe_withDb. intros db. unfold Date_now. gate_safe_tac.
Qed.

Lemma gate_safe_timerCallback ch : gate_safe (Ionetbot.timerCallback ch).
Proof.
  unfold Ionetbot.timerCallback, as_channel.
  apply gate_safe_bind; [apply gate_safe_read|]. intros [|]; [|exact I].
  apply gate_safe_try_finally; [|gate_safe_tac].
  apply gate_safe_try_catch; [|gate_safe_tac].
  apply gate_safe_bind; [gate_safe_tac|]. intros v.
  apply gate_safe_bind; [gate_safe_tac|]. intros [fetched|]; [|exact I].
  apply gate_safe_bind; [gate_safe_tac|]. intros _.
  apply gate_safe_bind; [gate_safe_tac|]. intros _.
  split; [|exact I]. apply gate_safe_withDb. intros db. unfold Date_now. gate_safe_tac.
Qed.

Lemma gate_safe_ionetbot cmd fuel :
  (forall message, gate_safe (on_messageCreate (Ionetbot.bot cmd fuel) message))
  /\ (forall interaction, gate_safe (on_interactionCreate (Ionetbot.bot cmd fuel) interaction)).
Proof.
  split.
  - intros message. cbn. unfold Ionetbot.messageCreate.
    destruct (_ || _); [exact I|]. destruct (_ && _).
    + unfold Ionetbot.createPrivateChannel, as_channel.
      apply gate_safe_try_catch; [|gate_safe_tac].
      apply gate_safe_bind; [gate_safe_tac|]. intros v.
      apply gate_safe_bind; [gate_safe_tac|]. intros [channel|]; [|exact I].
      apply gate_safe_bind; [gate_safe_tac|]. intros _.
      apply gate_safe_bind; [gate_safe_tac|]. intros _.
      apply gate_safe_bind; [gate_safe_tac|]. intros _.
      split; [|split; [apply gate_safe_timerCallback|exact I]].
      apply gate_safe_withDb. intros db. unfold Date_now. gate_safe_tac.
    + destruct (_ && _); [|exact I].
      apply gate_safe_dispatch. apply gate_safe_record_interaction.
  - intros interaction. cbn. unfold Ionetbot.interactionCreate.
    destruct (_ || _); [exact I|]. gate_safe_tac.
Qed.

Lemma gate_safe_nodb_timerCallback ch : gate_safe (WithoutMongoDB.timerCallback ch).
Proof.
  unfold WithoutMongoDB.timerCallback, as_channel.
  apply gate_safe_bind; [apply gate_safe_read|]. intros [|]; [|exact I].
  apply gate_safe_try_finally; [|gate_safe_tac].
  apply gate_safe_try_catch; [|gate_safe_tac].
  apply gate_safe_bind; [gate_safe_tac|]. intros v.
  apply gate_safe_bind; [gate_safe_tac|]. intros [fetched|]; [|exact I].
  gate_safe_tac.
Qed.

Lemma gate_safe_without_mongodb cmd fuel :
  (forall message, gate_safe (on_messageCreate (WithoutMongoDB.bot cmd fuel) message))
  /\ (forall interaction,
        gate_safe (on_interactionCreate (WithoutMongoDB.bot cmd fuel) interaction)).
Proof.
  split.
  - intros message. cbn. unfold WithoutMongoDB.messageCreate.
    destruct (_ || _); [exact I|]. destruct (_ && _).
    + unfold WithoutMongoDB.createPrivateChannel, as_channel.
      apply gate_safe_try_catch; [|gate_safe_tac].
      apply gate_safe_bind; [gate_safe_tac|]. intros v.
      apply gate_safe_bind; [gate_safe_tac|]. intros [channel|]; [|exact I].
      apply gate_safe_bind; [gate_safe_tac|]. intros _.
      apply gate_safe_bind; [gate_safe_tac|]. intros _.
      apply gate_safe_bind; [gate_safe_tac|]. intros _.
      split; [apply gate_safe_nodb_timerCallback|exact I].
    + destruct (_ && _); [|exact I].
      apply gate_safe_dispatch. intros; exact I.
  - intros interaction. cbn. unfold WithoutMongoDB.interactionCreate.
    destruct (_ || _); [exact I|]. gate_safe_tac.
Qed.

Lemma gate_safe_test_dm cid fuel :
  (forall message, gate_safe (on_messageCreate (TestDm.bot cid fuel) message))
  /\ (forall interaction, gate_safe (on_interactionCreate (TestDm.bot cid fuel) interaction)).
Proof.
  split; [|intros; exact I].
  intros message. unfold TestDm.bot; cbn [on_messageCreate]. unfold TestDm.messageCreate.
  apply gate_safe_bind; [gate_safe_tac|]. intros _.
  destruct (_ || _); [exact I|]. destruct (_ && _).
  - unfold TestDm.startSession. gate_safe_tac.
  - destruct (ChannelType_eqb _ _); [|exact I].
    apply gate_safe_bind; [gate_safe_tac|]. intros _.
    apply gate_safe_bind; [apply gate_safe_read|]. intros [|]; [gate_safe_tac|].
    apply gate_safe_dispatch. intros; exact I.
Qed.

Lemma gate_safe_bot script fuel :
  (forall message, gate_safe (on_messageCreate (bot_of script fuel) message))
  /\ (forall interaction, gate_safe (on_interactionCreate (bot_of script fuel) interaction)).
Proof.
  destruct script; [apply gate_safe_ionetbot|apply gate_safe_without_mongodb
                   |apply gate_safe_test_dm].
Qed.

Lemma gate_invariant_later now now' m :
  now <= now' -> gate_invariant now m -> gate_invariant now' m.
Proof. intros Hle (Hg & Ht & Htm). split; [lia|auto]. Qed.

Lemma advance_gate {A : Type} (p : Prog A) : forall now m,
  gate_safe p -> gate_invariant now m ->
  nextAvailableTime (world m) <= nextAvailableTime (world (fst (advance now p m)))
  /\ gate_invariant now (fst (advance now p m))
  /\ gate_safe (snd (advance now p m)).
Proof.
  induction p as [A a|A e|A X f k IH|A c k IH|A child IHc k IHk|A ms cb IHcb k IHk|A];
    intros now m Hp Hinv; cbn; try (split; [lia|split; [exact Hinv|exact Hp]]).
  - destruct (Hp now (world m)) as [Hstep Hk].
    destruct (f now (world m)) as [w x]; cbn in Hstep, Hk.
    destruct Hinv as (Hg & Ht & Htm).
    assert (Hinv' : gate_invariant now (set_world w m)).
    { split; [cbn; destruct Hstep as [-> | ->]; lia|split; assumption]. }
    destruct (IH x now (set_world w m) Hk Hinv') as (Hle & Hinv'' & Hsafe).
    split; [|split; assumption].
    etransitivity; [|exact Hle]. cbn. destruct Hstep as [-> | ->]; lia.
  - destruct Hp as [Hchild Hk].
    destruct (IHc now m Hchild Hinv) as (Hle1 & Hinv1 & Hsafe1).
    destruct (advance now child m) as [m1 child']; cbn in Hle1, Hinv1, Hsafe1.
    assert (Hinv1' : gate_invariant now (add_task child' m1)).
    { destruct Hinv1 as (Hg & Ht & Htm). split; [exact Hg|]. split; [|exact Htm].
      cbn. apply Forall_app. split; [exact Ht|]. by constructor. }
    destruct (IHk now (add_task child' m1) Hk Hinv1') as (Hle2 & Hinv2 & Hsafe2).
    split; [|split; assumption]. etransitivity; [exact Hle1|exact Hle2].
  - destruct Hp as [Hcb Hk].
    assert (Hinv' : gate_invariant now (add_timer (now + ms) cb m)).
    { destruct Hinv as (Hg & Ht & Htm). split; [exact Hg|]. split; [exact Ht|].
      cbn. apply Forall_app. split; [exact Htm|]. by constructor. }
    destruct (IHk now (add_timer (now + ms) cb m) Hk Hinv') as (Hle & Hinv'' & Hsafe).
    split; [exact Hle|split; assumption].
Qed.

Lemma put_task_gate now i p m :
  gate_safe p -> gate_invariant now m -> gate_invariant now (put_task i p m).
Proof.
  intros Hp (Hg & Ht & Htm). split; [exact Hg|]. split; [|exact Htm].
  cbn. by apply Forall_insert.
Qed.

Lemma start_gate now p m :
  gate_safe p -> gate_invariant now m ->
  nextAvailableTime (world m) <= nextAvailableTime (world (start now p m))
  /\ gate_invariant now (start now p m).
Proof.
  intros Hp Hinv. unfold start.
  assert (Hinv' : gate_invariant now (add_task p m)).
  { destruct Hinv as (Hg & Ht & Htm). split; [exact Hg|]. split; [|exact Htm].
    cbn. apply Forall_app. split; [exact Ht|]. by constructor. }
  destruct (advance_gate p now (add_task p m) Hp Hinv') as (Hle & Hinv'' & Hsafe).
  destruct (advance now p (add_task p m)) as [m1 p1]; cbn in *.
  split; [exact Hle|]. by apply put_task_gate.
Qed.

Lemma step_gate bot now ev m :
  (forall message, gate_safe (on_messageCreate bot message)) ->
  (forall interaction, gate_safe (on_interactionCreate bot interaction)) ->
  gate_invariant now m ->
  nextAvailableTime (world m) <= nextAvailableTime (world (step bot now ev m))
  /\ gate_invariant now (step bot now ev m).
Proof.
  intros Hmsg Hint Hinv. destruct ev as [message|interaction|j|i r]; cbn.
  - by apply start_gate.
  - by apply start_gate.
  - destruct (timers m !! j) as [[due [cb|]]|] eqn:Hj; try (split; [lia|exact Hinv]).
    destruct (due <=? now); [|split; [lia|exact Hinv]].
    assert (Hcb : gate_safe cb).
    { destruct Hinv as (_ & _ & Htm).
      apply (Forall_lookup_1 _ _ _ _ Htm Hj). }
    assert (Hinv' : gate_invariant now (clear_timer j m)).
    { destruct Hinv as (Hg & Ht & Htm). split; [exact Hg|]. split; [exact Ht|].
      unfold clear_timer. cbn. rewrite Hj. by apply Forall_insert. }
    apply (start_gate now cb (clear_timer j m) Hcb Hinv').
  - unfold resume.
    destruct (tasks m !! i) as [p|] eqn:Hi; [|split; [lia|exact Hinv]].
    destruct p as [a|e|X f k|c k|child k|ms cb k|]; try (split; [lia|exact Hinv]).
    assert (Hk : gate_safe (k r)).
    { destruct Hinv as (_ & Ht & _).
      apply (Forall_lookup_1 _ _ _ _ Ht Hi). }
    destruct (advance_gate (k r) now m Hk Hinv) as (Hle & Hinv' & Hsafe).
    destruct (advance now (k r) m) as [m1 p1]; cbn in *.
    split; [exact Hle|]. by apply put_task_gate.
Qed.

Lemma run_gate bot schedule : forall now m,
  (forall message, gate_safe (on_messageCreate bot message)) ->
  (forall interaction, gate_safe (on_interactionCreate bot interaction)) ->
  gate_invariant now m ->
  clock_monotone now schedule ->
  nextAvailableTime (world m) <= nextAvailableTime (world (run bot schedule m))
  /\ gate_invariant (last_instant now schedule) (run bot schedule m).
Proof.
  induction schedule as [|[t ev] rest IH]; intros now m Hmsg Hint Hinv Hclock; cbn.
  - split; [lia|exact Hinv].
  - destruct Hclock as [Hle Hrest].
    pose proof (gate_invariant_later now t m Hle Hinv) as Hinv'.
    destruct (step_gate bot t ev m Hmsg Hint Hinv') as (Hstep & Hinv'').
    destruct (IH t (step bot t ev m) Hmsg Hint Hinv'' Hrest) as (Hrun & Hlast).
    split; [lia|exact Hlast].
Qed.

Lemma run_app bot s1 s2 m : run bot (s1 ++ s2) m = run bot s2 (run bot s1 m).
Proof.
  revert m. induction s1 as [|[t ev] s1 IH]; intros m; [reflexivity|]. cbn. apply IH.
Qed.

Lemma clock_monotone_app s1 : forall t s2,
  clock_monotone t (s1 ++ s2) ->
  clock_monotone t s1 /\ clock_monotone (last_instant t s1) s2.
Proof.
  induction s1 as [|[t' ev] s1 IH]; intros t s2 H; cbn in *; [auto|].
  destruct H as [Hle H]. destruct (IH t' s2 H). auto.
Qed.

Lemma boot_gate t0 : gate_invariant t0 (boot t0).
Proof. split; [cbn; lia|]. split; constructor. Qed.

(** C4, as stated, fails: the penalty assigns [Date.now() + 20000]
    whatever the gate was.  In [clock_set_back] two runs fail with
    [rate_limit_exceeded]; the first penalty is applied at 5000, the
    system clock is set back, and the second penalty, applied at 4000,
    moves the gate from 25000 back to 24000: a message at 24500, which
    the first penalty alone would have denied, is admitted. *)
Lemma C4_counterexample_clock_set_back :
  let bot := Ionetbot.bot 500 5 in
  let first := run bot (take 15 clock_set_back) (boot 0) in
  let second := run bot clock_set_back (boot 0) in
  nextAvailableTime (world first) = 25000
  /\ nextAvailableTime (world second) = 24000
  /\ exit_of second 0 = Some Returned
  /\ exit_of second 1 = Some Returned
  /\ pending (step bot 24500 (MessageCreate again) first) 2
     = Some (Reply 7 please_wait)
  /\ pending (step bot 24500 (MessageCreate again) second) 2
     = Some (SendTyping 7).
Proof. vm_compute. repeat split; reflexivity. Qed.

(** The dispatch of a run that ends as failed, up to the end of its
    handler: notice, failure details, penalty. *)
Lemma dispatch_failed_run after_reply fuel message m created run polls last details
    t0 t1 t2 t3 t4 t s1 s2 v v1 v2 :
  nextAvailableTime (world m) <= t0 ->
  Forall (fun p => nonterminal (snd (fst p))) polls ->
  (List.length polls < fuel)%nat ->
  run_status last = "failed" ->
  let found := bound_thread (msg_channel_id message) (world m) in
  let '(m', p') :=
    invoke t0 (dispatch after_reply fuel message)
      (run_opening found t1 created t2 t3 t4 v1 v2 run
       ++ poll_script polls
       ++ [ (t, Fulfilled (VRun last)); (s1, Fulfilled v);
            (s2, Fulfilled (VRun details)) ]) m in
  p' = Ret tt
  /\ threadMap (world m') = threadMap (world (run_started message created m))
  /\ nextAvailableTime (world m') =
     if is_rate_limit details then s2 + 20000 else nextAvailableTime (world m).
Proof.
  intros Hgate Hpolls Hfuel Hlast found. subst found.
  assert (Hterm : terminal last) by (unfold terminal; by rewrite Hlast).
  rewrite dispatch_opening by assumption.
  unfold polling. rewrite loop_ctx_polls by (auto; lia).
  destruct (fuel - List.length polls)%nat as [|f] eqn:E; [lia|].
  rewrite loop_ctx_terminal by assumption.
  unfold on_status, failed_branch. rewrite Hlast.
  assert (Hworld : nextAvailableTime (world (run_started message created m))
                   = nextAvailableTime (world m)).
  { unfold run_started. destruct (bound_thread _ _); reflexivity. }
  destruct (run_started message created m) as [w ts tm iss]. cbn in Hworld. cbn.
  destruct (is_rate_limit details); cbn; auto.
Qed.

(** The last step of that handler, in whatever state the machine is
    when the failure details arrive. *)
Lemma dispatch_failed_last after_reply fuel message m created run polls last
    t0 t1 t2 t3 t4 t s1 v v1 v2 :
  nextAvailableTime (world m) <= t0 ->
  Forall (fun p => nonterminal (snd (fst p))) polls ->
  (List.length polls < fuel)%nat ->
  run_status last = "failed" ->
  forall (m' : Machine) (s2 : Z) (details : Run),
  feed (snd (invoke t0 (dispatch after_reply fuel message)
               (run_opening (bound_thread (msg_channel_id message) (world m))
                  t1 created t2 t3 t4 v1 v2 run
                ++ poll_script polls
                ++ [(t, Fulfilled (VRun last)); (s1, Fulfilled v)]) m))
    [(s2, Fulfilled (VRun details))] m' =
  (if is_rate_limit details
   then set_world (set_nextAvailableTime (s2 + 20 * 1000) (world m')) m'
   else m', Ret tt).
Proof.
  intros Hgate Hpolls Hfuel Hlast m' s2 details.
  assert (Hterm : terminal last) by (unfold terminal; by rewrite Hlast).
  rewrite dispatch_opening by assumption.
  unfold polling. rewrite loop_ctx_polls by (auto; lia).
  destruct (fuel - List.length polls)%nat as [|f] eqn:E; [lia|].
  rewrite loop_ctx_terminal by assumption.
  unfold on_status, failed_branch. rewrite Hlast.
  destruct (run_started message created m) as [w ts tm iss]. cbn.
  destruct m' as [w' ts' tm' iss'].
  destruct (is_rate_limit details); reflexivity.
Qed.

(** C4, amended.  With a clock that does not go back, [nextAvailableTime]
    never decreases along any schedule of any of the three scripts.  The
    handler of a run that failed with error code rate_limit_exceeded
    sets it to [t + 20000], [t] being the instant of its last step; a
    message of any channel handled before that instant gets the wait
    notice and nothing else, one handled at or after it goes on to the
    backend.  That last step assigns [t + 20000] in whatever state the
    machine is when the failure details arrive, so also when the gate is
    above [t + 20000] by then. *)
Theorem C4_rate_gate_monotone
    (script : Script) (fuel : nat) (t0 : Z) (before after : list (Z * Event))
    (after_reply : Message -> string -> Prog unit) (message other : Message)
    (created : string) (newRun last details : Run) (polls : list (Z * Run * Z))
    (s0 t1 t2 t3 t4 s t' t : Z) (v v1 v2 : Value) (m : Machine)
    (Hclock : clock_monotone t0 (before ++ after))
    (Hgate : nextAvailableTime (world m) <= s0)
    (Hpolls : Forall (fun p => nonterminal (snd (fst p))) polls)
    (Hfuel : (List.length polls < fuel)%nat)
    (Hlast : run_status last = "failed")
    (Hcode : run_last_error details = Some "rate_limit_exceeded") :
  let bot := bot_of script fuel in
  let penalized :=
    fst (invoke s0 (dispatch after_reply fuel message)
           (run_opening (bound_thread (msg_channel_id message) (world m))
              t1 created t2 t3 t4 v1 v2 newRun
            ++ poll_script polls
            ++ [ (s, Fulfilled (VRun last)); (t', Fulfilled v);
                 (t, Fulfilled (VRun details)) ]) m) in
  (* the gate never moves back *)
  nextAvailableTime (world (run bot before (boot t0))) <=
  nextAvailableTime (world (run bot (before ++ after) (boot t0)))
  (* the penalty applied at [t] sets the gate to [t + 20000] *)
  /\ nextAvailableTime (world penalized) = t + 20000
  (* until then a dispatch answers with the notice and stops *)
  /\ (forall now u w, now < t + 20000 ->
      invoke now (dispatch after_reply fuel other) [(u, Fulfilled w)] penalized =
      (issue (Reply (msg_channel_id other) please_wait) penalized, Ret tt))
  (* from then on it goes to the backend *)
  /\ (forall now, t + 20000 <= now ->
      awaiting (snd (invoke now (dispatch after_reply fuel other) [] penalized)) =
      Some match bound_thread (msg_channel_id other) (world penalized) with
           | Some _ => SendTyping (msg_channel_id other)
           | None => ThreadsCreate
           end)
  (* the penalty overwrites the gate, whatever it has become meanwhile *)
  /\ (forall m' : Machine,
      let suspended :=
        snd (invoke s0 (dispatch after_reply fuel message)
               (run_opening (bound_thread (msg_channel_id message) (world m))
                  t1 created t2 t3 t4 v1 v2 newRun
                ++ poll_script polls
                ++ [(s, Fulfilled (VRun last)); (t', Fulfilled v)]) m) in
      nextAvailableTime
        (world (fst (feed suspended [(t, Fulfilled (VRun details))] m')))
      = t + 20000).
Proof.
  intros bot penalized.
  destruct (gate_safe_bot script fuel) as [Hmsg Hint]. fold bot in Hmsg, Hint.
  assert (Hpen : nextAvailableTime (world penalized) = t + 20000).
  { subst penalized.
    pose proof (dispatch_failed_run after_reply fuel message m created newRun polls last
                  details s0 t1 t2 t3 t4 s t' t v v1 v2 Hgate Hpolls Hfuel Hlast) as H.
    cbv zeta in H. destruct (invoke s0 _ _ m) as [m' p']. cbn.
    destruct H as (_ & _ & H). rewrite H.
    apply is_rate_limit_iff in Hcode. rewrite Hcode. reflexivity. }
  split; [|split; [|split; [|split]]].
  - rewrite run_app.
    destruct (clock_monotone_app before t0 after Hclock) as [Hb Ha].
    destruct (run_gate bot before t0 (boot t0) Hmsg Hint (boot_gate t0) Hb) as [_ Hinv].
    apply (run_gate bot after _ _ Hmsg Hint Hinv Ha).
  - exact Hpen.
  - intros now u w Hnow. unfold invoke. rewrite dispatch_limited by lia. reflexivity.
  - intros now Hnow. destruct penalized as [w ts tm iss]. cbn in Hpen.
    unfold invoke, dispatch, bound_thread. cbn.
    replace (now <? nextAvailableTime w) with false by (symmetry; apply Z.ltb_ge; lia).
    cbn. unfold getOpenAiThreadId.
    destruct (threadMap w !! msg_channel_id other) as [tid|]; [|reflexivity].
    destruct (falsy_string tid); reflexivity.
  - intros m' suspended. subst suspended.
    rewrite (dispatch_failed_last after_reply fuel message m created newRun polls last
               s0 t1 t2 t3 t4 s t' v v1 v2 Hgate Hpolls Hfuel Hlast).
    apply is_rate_limit_iff in Hcode. rewrite Hcode. reflexivity.
Qed.

(** ** C1: the timer and the button *)

(** C1, as stated, fails: in [close_race] both handlers pass their
    registry test before either removes the entry; two platform delete
    calls are issued and no deletion record is written. *)
Lemma C1_counterexample_two_deletes :
  let bot := Ionetbot.bot 500 5 in
  let registered := run bot (take 5 close_race) (boot 0) in
  let final := run bot close_race (boot 0) in
  channelsMap (world registered) !! 7%N = Some private_42
  /\ timers registered = [(601300, Some (Ionetbot.timerCallback 7))]
  /\ filter (fun c => is_delete c = true) (issued final) =
       [ChannelDelete 7; ChannelDelete 7]
  /\ count is_delete final = 2%nat
  /\ count is_deletion_record final = 0%nat
  /\ exit_of final 2 = Some Returned
  /\ exit_of final 3 = Some Returned.
Proof. vm_compute. repeat split; reflexivity. Qed.

(** C1, amended.  Without interleaving: when the timer close runs to
    completion first, its fetch resolving to a channel and its delete
    succeeding, or the button close does, its delete succeeding, one
    delete call is issued and the channel is deregistered, and the other
    close then finds no entry and issues nothing; the timer close that
    deleted the channel writes one deletion record.  When the fetch of
    the timer close resolves to no channel or is rejected, it issues no
    delete and still deregisters the channel, so that no delete is
    issued at all.  With interleaving, the close that starts second
    still finds the entry: a button pressed while the fetch or the
    delete of the timer close is pending issues its own delete at once,
    and a timer that fires while the delete of the button close is
    pending issues its fetch; two delete calls are then issued when the
    fetch of the timer close resolves to a channel, and one when it
    resolves to no channel or is rejected. *)
Theorem C1_sequential_close_deletes_once
    (interaction : Interaction) (channel fetched : Channel)
    (t1 t2 t3 t4 : Z) (v : Value) (e : Err) (missing : Response)
    (script : list (Z * Response)) (m : Machine)
    (Hbutton : int_isButton interaction = true)
    (Hid : int_customId interaction = "close_ticket")
    (Hreg : channelsMap (world m) !! int_channelId interaction = Some channel)
    (Hmissing : missing = Fulfilled (VChannel None) \/ missing = Rejected e) :
  let channelId := int_channelId interaction in
  let timer := Ionetbot.timerCallback channelId in
  let button := Ionetbot.interactionCreate interaction in
  let found := Fulfilled (VChannel (Some fetched)) in
  (* the timer runs to completion, then the button is pressed *)
  (let '(m1, p1) := invoke t1 timer [(t2, found); (t3, Fulfilled v)] m in
   let '(m2, p2) := invoke t4 button script m1 in
   p1 = Ret tt /\ p2 = Ret tt
   /\ issued m2 = issued m ++
        [ ChannelsFetch channelId; ChannelDelete (ch_id fetched);
          InsertOne "channelDeletions" (ChannelDeletionDoc (ch_id fetched) t3) ]
   /\ count is_delete m2 = (count is_delete m + 1)%nat
   /\ count is_deletion_record m2 = (count is_deletion_record m + 1)%nat
   /\ channelsMap (world m2) !! channelId = None)
  (* the button is pressed and its handler completes, then the timer fires *)
  /\ (let '(m1, p1) := invoke t1 button [(t2, Fulfilled v)] m in
      let '(m2, p2) := invoke t4 timer script m1 in
      p1 = Ret tt /\ p2 = Ret tt
      /\ count is_delete m1 = (count is_delete m + 1)%nat
      /\ issued m2 = issued m1
      /\ channelsMap (world m2) !! channelId = None)
  (* the timer runs to completion without a fetched channel, then the
     button is pressed: no delete at all *)
  /\ (let '(m1, p1) := invoke t1 timer [(t2, missing)] m in
      let '(m2, p2) := invoke t4 button script m1 in
      p1 = Ret tt /\ p2 = Ret tt
      /\ issued m2 = issued m ++ [ChannelsFetch channelId]
      /\ channelsMap (world m2) !! channelId = None)
  (* the button is pressed while the fetch of the timer is pending *)
  /\ (let '(m1, p1) := advance t1 timer m in
      let '(m2, p2) := advance t2 button m1 in
      awaiting p1 = Some (ChannelsFetch channelId)
      /\ awaiting p2 = Some (ChannelDelete (ch_id channel))
      /\ issued (fst (feed p1 [(t3, found)] m2)) = issued m ++
           [ ChannelsFetch channelId; ChannelDelete (ch_id channel);
             ChannelDelete (ch_id fetched) ]
      /\ issued (fst (feed p1 [(t3, missing)] m2)) = issued m ++
           [ ChannelsFetch channelId; ChannelDelete (ch_id channel) ])
  (* the button is pressed while the delete of the timer is pending *)
  /\ (let '(m1, p1) := invoke t1 timer [(t2, found)] m in
      let '(m2, p2) := advance t3 button m1 in
      awaiting p1 = Some (ChannelDelete (ch_id fetched))
      /\ awaiting p2 = Some (ChannelDelete (ch_id channel))
      /\ issued m2 = issued m ++
           [ ChannelsFetch channelId; ChannelDelete (ch_id fetched);
             ChannelDelete (ch_id channel) ])
  (* the timer fires while the delete of the button is pending *)
  /\ (let '(m1, p1) := advance t1 button m in
      let '(m2, p2) := advance t2 timer m1 in
      awaiting p1 = Some (ChannelDelete (ch_id channel))
      /\ awaiting p2 = Some (ChannelsFetch channelId)
      /\ issued (fst (feed p2 [(t3, found)] m2)) = issued m ++
           [ ChannelDelete (ch_id channel); ChannelsFetch channelId;
             ChannelDelete (ch_id fetched) ]
      /\ issued (fst (feed p2 [(t3, missing)] m2)) = issued m ++
           [ ChannelDelete (ch_id channel); ChannelsFetch channelId ]).
Proof.
  intros channelId timer button found. subst channelId timer button found.
  destruct m as [w ts tm iss]. cbn in Hreg.
  unfold invoke, Ionetbot.interactionCreate, Ionetbot.timerCallback, has.
  rewrite Hbutton, Hid. cbn. rewrite Hreg. cbn. rewrite lookup_delete_eq. cbn.
  rewrite !feed_done by congruence.
  split; [|split; [|split; [|split; [|split]]]].
  - split; [reflexivity|]. split; [reflexivity|].
    split; [cbn; by rewrite <- !app_assoc|].
    unfold count. norm_machine. rewrite !filter_app, !length_app.
    split; [reflexivity|]. split; [reflexivity|]. cbn. apply lookup_delete_eq.
  - split; [reflexivity|]. split; [reflexivity|].
    unfold count. norm_machine. rewrite !filter_app, !length_app.
    split; [reflexivity|]. split; [reflexivity|]. cbn. apply lookup_delete_eq.
  - destruct Hmissing as [-> | ->]; cbn; rewrite lookup_delete_eq; cbn;
      rewrite ?feed_done by congruence; cbn;
      (split; [reflexivity|]; split; [reflexivity|]; split; [reflexivity|]);
      apply lookup_delete_eq.
  - rewrite Hreg. cbn. split; [reflexivity|]. split; [reflexivity|].
    split; [by rewrite <- !app_assoc|].
    destruct Hmissing as [-> | ->]; cbn; by rewrite <- !app_assoc.
  - rewrite Hreg. cbn. split; [reflexivity|]. split; [reflexivity|].
    by rewrite <- !app_assoc.
  - rewrite Hreg. cbn. split; [reflexivity|]. split; [reflexivity|].
    split; [by rewrite <- !app_assoc|].
    destruct Hmissing as [-> | ->]; cbn; by rewrite <- !app_assoc.
Qed.

(** The button path on its own: the delete call and nothing else; the
    deletion record of the timer path has no counterpart here. *)
Lemma button_close_calls
    (interaction : Interaction) (channel : Channel) (t1 t2 : Z) (v : Value) (m : Machine) :
  int_isButton interaction = true ->
  int_customId interaction = "close_ticket" ->
  channelsMap (world m) !! int_channelId interaction = Some channel ->
  issued (fst (invoke t1 (Ionetbot.interactionCreate interaction)
                 [(t2, Fulfilled v)] m)) =
  issued m ++ [ChannelDelete (ch_id channel)].
Proof.
  intros Hbutton Hid Hreg. destruct m as [w ts tm iss]. cbn in Hreg.
  unfold invoke, Ionetbot.interactionCreate.
  rewrite Hbutton, Hid. cbn. rewrite Hreg. reflexivity.
Qed.

(** ** C2: thread binding *)

(** C2, as stated, fails: in [first_use_race] both handlers find the
    channel unbound; each creates a backend thread, the channel is bound
    to the first and then to the second, and the two messages go to
    different threads. *)
Lemma C2_counterexample_two_threads :
  let bot := Ionetbot.bot 500 5 in
  let after3 := run bot (take 3 first_use_race) (boot 0) in
  let after4 := run bot (take 4 first_use_race) (boot 0) in
  let final := run bot first_use_race (boot 0) in
  threadMap (world after3) !! 7%N = Some "thread_A"
  /\ pending after3 0 = Some (SendTyping 7)
  /\ threadMap (world after4) !! 7%N = Some "thread_B"
  /\ count is_threads_create final = 2%nat
  /\ pending final 0 = Some (MessagesCreate "thread_A" "hello")
  /\ pending final 1 = Some (MessagesCreate "thread_B" "again").
Proof. vm_compute. repeat split; reflexivity. Qed.

(** C2, amended: without interleaving of first uses, the first
    resolve-or-create binds the channel to the thread it created and
    every later one returns that thread without calling the backend. *)
Theorem C2_binding_stable_without_interleaving
    (after_reply : Message -> string -> Prog unit) (fuel : nat)
    (message : Message) (threadId : string)
    (now t : Z) (m : Machine)
    (Hunbound : threadMap (world m) !! msg_channel_id message = None)
    (Hid : falsy_string threadId = false) :
  let channelId := msg_channel_id message in
  let bound := set_world (addThreadToMap channelId threadId (world m))
                 (issue ThreadsCreate m) in
  (* first use: one create call, the binding is stored and returned *)
  invoke now (resolveOrCreate channelId) [(t, Fulfilled (VThread threadId))] m =
    (bound, Ret threadId)
  /\ threadMap (world bound) !! channelId = Some threadId
  (* every later use: the same identifier, no call, no change; this
     holds in any machine where the channel is so bound *)
  /\ (forall m' now' script,
        threadMap (world m') !! channelId = Some threadId ->
        invoke now' (resolveOrCreate channelId) script m' = (m', Ret threadId))
  (* and a later message of the channel is sent to that thread *)
  /\ (forall m' t0 t1 v,
        threadMap (world m') !! channelId = Some threadId ->
        nextAvailableTime (world m') <= t0 ->
        issued (fst (invoke t0 (dispatch after_reply fuel message) [(t1, Fulfilled v)] m')) =
        issued m' ++ [SendTyping channelId; MessagesCreate threadId (msg_content message)]).
Proof.
  intros channelId bound. subst channelId bound.
  split; [|split; [|split]].
  - destruct m as [w ts tm iss]. cbn in Hunbound.
    unfold invoke, resolveOrCreate, getOpenAiThreadId. cbn. rewrite Hunbound. cbn.
    reflexivity.
  - cbn. apply lookup_insert_eq.
  - intros m' now' script Hbound. destruct m' as [w ts tm iss]. cbn in Hbound.
    unfold invoke, resolveOrCreate, getOpenAiThreadId. cbn. rewrite Hbound. cbn.
    rewrite Hid. cbn. apply feed_done. congruence.
  - intros m' t0 t1 v Hbound Hgate. apply Z.ltb_ge in Hgate.
    destruct m' as [w ts tm iss]. cbn in Hbound, Hgate.
    unfold invoke, dispatch, getOpenAiThreadId. cbn. rewrite Hgate. cbn.
    unfold getOpenAiThreadId. rewrite Hbound. cbn. rewrite Hid. cbn.
    by rewrite <- app_assoc.
Qed.

(** ** Instances *)

Lemma sample_polls_nonterminal :
  Forall (fun p => nonterminal (snd (fst p))) sample_polls.
Proof. repeat constructor. Defined.

Lemma boot_gate_open : nextAvailableTime (world (boot 0)) <= 10.
Proof. cbn. lia. Defined.

Lemma sample_polls_waiting :
  Forall (fun p => ~ spec_terminal_status (run_status (snd (fst p)))) sample_polls.
Proof.
  repeat constructor; intros [H|[H|[H|H]]]; discriminate H.
Defined.

(** C3 at sample data: a run that expires after two polls, and the
    penalty of a run that failed with rate_limit_exceeded. *)
Lemma C3_terminal_state_coverage_witness :
  (Forall (fun p => ~ spec_terminal_status (run_status (snd (fst p)))) sample_polls
   /\ spec_terminal_status (run_status (mkRun "run_1" "expired" None))
   /\ (List.length sample_polls < 3)%nat
   /\ nextAvailableTime (world (boot 0)) <= 10
   /\ threadMap (world (boot 0)) !! msg_channel_id hello = None)
  /\ invoke 0 (statusCheckLoop 3 "thread_1" "run_1")
       (poll_script sample_polls
        ++ [(2015, Fulfilled (VRun (mkRun "run_1" "expired" None)))])
       (boot 0) =
     (issue_all (poll_calls "thread_1" "run_1" 2 ++ [RunsRetrieve "thread_1" "run_1"])
        (boot 0),
      Ret "expired")
  /\ nextAvailableTime
       (world (fst (invoke 10 (Ionetbot.dispatch (2 + 3) hello)
                      [ (20, Fulfilled (VThread "thread_1")); (30, Fulfilled VVoid);
                        (40, Fulfilled VVoid); (50, Fulfilled (VRun sample_run));
                        (60, Fulfilled (VRun (mkRun (run_id sample_run) "queued" None)));
                        (70, Fulfilled VVoid);
                        (80, Fulfilled (VRun (mkRun (run_id sample_run) "failed" None)));
                        (90, Fulfilled VVoid);
                        (100, Fulfilled (VRun sample_overloaded)) ] (boot 0))))
     = 100 + 20000.
Proof.
  assert (H3 : (List.length sample_polls < 3)%nat) by (cbn; lia).
  assert (Hexpired : spec_terminal_status (run_status (mkRun "run_1" "expired" None))).
  { right. right. right. reflexivity. }
  pose proof (C3_terminal_state_coverage 3 "thread_1" "run_1" sample_polls
                (mkRun "run_1" "expired" None) 0 2015 (boot 0) hello sample_overloaded
                sample_run 10 20 30 40 50 60 70 80 90 100 VVoid VVoid VVoid
                None None None
                sample_polls_waiting Hexpired H3 boot_gate_open eq_refl) as H.
  destruct H as (Hloop & _ & _ & _ & Hpenalty).
  split.
  - split; [exact sample_polls_waiting|]. split; [exact Hexpired|].
    split; [exact H3|]. split; [exact boot_gate_open|reflexivity].
  - split; [exact Hloop|].
    destruct (invoke 10 (Ionetbot.dispatch (2 + 3) hello) _ (boot 0)) as [m' p'].
    destruct Hpenalty as (_ & _ & Hlimit & _). exact (Hlimit eq_refl).
Defined.

(** C7, amended, at sample data: an unbound conversation; the notice is
    delivered, or rejected. *)
Lemma C7_status_error_propagates_witness :
  (Forall (fun p => nonterminal (snd (fst p))) sample_polls
   /\ (List.length sample_polls < 3)%nat
   /\ nextAvailableTime (world (boot 0)) <= 10)
  /\ snd (invoke 10 (dispatch Ionetbot.record_interaction 3 hello)
            (run_opening (bound_thread (msg_channel_id hello) (world (boot 0)))
               20 "thread_1" 30 40 50 VVoid VVoid sample_run
             ++ poll_script sample_polls
             ++ (2015, Rejected (CallFailed "ECONNRESET"))
                :: (2020, Fulfilled VVoid) :: [])
            (boot 0)) = Ret tt
  /\ snd (invoke 10 (dispatch Ionetbot.record_interaction 3 hello)
            (run_opening (bound_thread (msg_channel_id hello) (world (boot 0)))
               20 "thread_1" 30 40 50 VVoid VVoid sample_run
             ++ poll_script sample_polls
             ++ (2015, Rejected (CallFailed "ECONNRESET"))
                :: (2020, Rejected (CallFailed "Missing Permissions")) :: [])
            (boot 0)) = Throw (CallFailed "Missing Permissions").
Proof.
  assert (H3 : (List.length sample_polls < 3)%nat) by (cbn; lia).
  pose proof (C7_status_error_propagates Ionetbot.record_interaction 3
                "thread_1" "run_1" "thread_1" sample_polls (CallFailed "ECONNRESET")
                (CallFailed "Missing Permissions") 0 2015 2020 (boot 0) hello sample_run
                10 20 30 40 50 VVoid VVoid VVoid []
                sample_polls_nonterminal H3 boot_gate_open) as H.
  cbv zeta in H. destruct H as (_ & _ & Hdelivered & Hrejected).
  split.
  - split; [exact sample_polls_nonterminal|]. split; [exact H3|exact boot_gate_open].
  - split.
    + rewrite Hdelivered. reflexivity.
    + rewrite Hrejected. reflexivity.
Defined.

(** C6 at sample data. *)
Lemma C6_reply_truncation_witness :
  String.length (truncate (repeat_char "a" 5000)) = 1999%nat
  /\ truncate "hi there" = "hi there".
Proof.
  pose proof (C6_reply_truncation Ionetbot.record_interaction hello "thread_1" "run_1"
                "hi there" [] [] 0 10 (boot 0) "a"%char) as H.
  cbv zeta in H. destruct H as (_ & _ & _ & _ & Hshort & Hlong).
  split; [exact Hlong|]. apply Hshort. cbn. lia.
Defined.

(** C8 at sample data. *)
Lemma C8_persistence_failures_contained_witness :
  exit_of (resume 30 0 (Rejected (CallFailed "db down"))
             (fst (invoke 0 (completed_branch Ionetbot.record_interaction hello "thread_1")
                     [(10, Fulfilled (VMessageList sample_reply)); (20, Fulfilled VVoid)]
                     (boot 0)))) 0 = Some Returned.
Proof.
  pose proof (C8_persistence_failures_contained (fun _ => Ret tt) [] hello "thread_1"
                "hi there" [] [] 0 10 20 30 VVoid (Rejected (CallFailed "db down"))
                (boot 0)) as H.
  cbv zeta in H. destruct H as (_ & _ & _ & _ & _ & Hexit & _). exact Hexit.
Defined.

(** C9 at sample data. *)
Lemma C9_dispatch_by_name_only_witness :
  (msg_author_bot hello = false
   /\ falsy_string (msg_content hello) = false
   /\ String.prefix "!createPrivateChannel" (msg_content hello)
        && (msg_channel_id hello =? 500)%N = false
   /\ msg_channel_type hello = GuildText
   /\ String.prefix "private-" (msg_channel_name hello) = true
   /\ channelsMap (world (boot 0)) !! msg_channel_id hello = None
   /\ nextAvailableTime (world (boot 0)) <= 10
   /\ threadMap (world (boot 0)) !! msg_channel_id hello = None)
  /\ Ionetbot.messageCreate 500 5 hello = Ionetbot.dispatch 5 hello.
Proof.
  split.
  - repeat (split; [reflexivity|]). split; [exact boot_gate_open|reflexivity].
  - exact (proj1 (C9_dispatch_by_name_only 500 5 hello "thread_1" 10 20 30 40 VVoid VVoid
                    (boot 0) eq_refl eq_refl eq_refl eq_refl eq_refl eq_refl
                    boot_gate_open eq_refl)).
Defined.

(** C10 at sample data. *)
Lemma C10_close_paths_differ_on_error_witness :
  (int_isButton close_press = true
   /\ int_customId close_press = "close_ticket"
   /\ channelsMap (world sample_registered) !! int_channelId close_press
        = Some private_42)
  /\ invoke 10 (Ionetbot.interactionCreate close_press)
       [(20, Rejected (CallFailed "Missing Permissions"))] sample_registered =
     (log_error "Error deleting channel by interaction"
        (issue (ChannelDelete 7) sample_registered), Ret tt).
Proof.
  split.
  - repeat split; reflexivity.
  - exact (proj1 (C10_close_paths_differ_on_error close_press private_42 private_42
                    10 20 30 (CallFailed "Missing Permissions") VVoid sample_registered
                    eq_refl eq_refl eq_refl)).
Defined.



Lemma one_penalty_clock : clock_monotone 0 (take 7 one_penalty ++ drop 7 one_penalty).
Proof. cbn. repeat split; lia. Defined.

(** C4, amended, at sample data: in [one_penalty] the gate moves from 0
    to 25000, and the message handled at 6000 is denied. *)
Lemma C4_rate_gate_monotone_witness :
  (clock_monotone 0 (take 7 one_penalty ++ drop 7 one_penalty)
   /\ nextAvailableTime (world (boot 0)) <= 10
   /\ Forall (fun p => nonterminal (snd (fst p))) sample_polls
   /\ (List.length sample_polls < 5)%nat
   /\ run_status sample_overloaded = "failed"
   /\ run_last_error sample_overloaded = Some "rate_limit_exceeded")
  /\ nextAvailableTime (world (run (bot_of (IonetbotJs 500) 5) (take 7 one_penalty)
                                 (boot 0))) <=
     nextAvailableTime (world (run (bot_of (IonetbotJs 500) 5)
                                 (take 7 one_penalty ++ drop 7 one_penalty) (boot 0)))
  /\ nextAvailableTime (world (run (bot_of (IonetbotJs 500) 5)
                                 (take 7 one_penalty ++ drop 7 one_penalty) (boot 0)))
     = 5000 + 20000
  /\ (let penalized :=
        fst (invoke 10 (dispatch Ionetbot.record_interaction 5 hello)
               (run_opening (bound_thread (msg_channel_id hello) (world (boot 0)))
                  20 "thread_1" 30 40 50 VVoid VVoid sample_run
                ++ poll_script sample_polls
                ++ [ (2015, Fulfilled (VRun sample_overloaded)); (2020, Fulfilled VVoid);
                     (5000, Fulfilled (VRun sample_overloaded)) ]) (boot 0)) in
      nextAvailableTime (world penalized) = 5000 + 20000
      /\ invoke 6000 (dispatch Ionetbot.record_interaction 5 elsewhere)
           [(6010, Fulfilled VVoid)] penalized =
         (issue (Reply (msg_channel_id elsewhere) please_wait) penalized, Ret tt)).
Proof.
  assert (H5 : (List.length sample_polls < 5)%nat) by (cbn; lia).
  assert (Hnow : 6000 < 5000 + 20000) by lia.
  pose proof (C4_rate_gate_monotone (IonetbotJs 500) 5 0 (take 7 one_penalty)
                (drop 7 one_penalty) Ionetbot.record_interaction hello elsewhere
                "thread_1" sample_run sample_overloaded sample_overloaded sample_polls
                10 20 30 40 50 2015 2020 5000 VVoid VVoid VVoid (boot 0)
                one_penalty_clock boot_gate_open sample_polls_nonterminal H5
                eq_refl eq_refl) as H.
  cbv zeta in H. destruct H as (Hmono & Hpen & Hdenied & _ & _).
  split.
  - split; [exact one_penalty_clock|]. split; [exact boot_gate_open|].
    split; [exact sample_polls_nonterminal|]. split; [exact H5|].
    split; reflexivity.
  - split; [exact Hmono|]. split; [reflexivity|].
    split; [exact Hpen|]. exact (Hdenied 6000 6010 VVoid Hnow).
Defined.

(** C1, amended, at sample data: the button first, then the timer; and
    the button pressed while the fetch of the timer is pending. *)
Lemma C1_sequential_close_deletes_once_witness :
  (int_isButton close_press = true
   /\ int_customId close_press = "close_ticket"
   /\ channelsMap (world sample_registered) !! int_channelId close_press
        = Some private_42
   /\ (Rejected (CallFailed "Unknown Channel") = Fulfilled (VChannel None)
       \/ Rejected (CallFailed "Unknown Channel")
          = Rejected (CallFailed "Unknown Channel")))
  /\ (let '(m1, p1) := invoke 10 (Ionetbot.interactionCreate close_press)
                          [(20, Fulfilled VVoid)] sample_registered in
      let '(m2, p2) := invoke 40 (Ionetbot.timerCallback (int_channelId close_press))
                          [] m1 in
      p1 = Ret tt /\ p2 = Ret tt
      /\ count is_delete m1 = (count is_delete sample_registered + 1)%nat
      /\ issued m2 = issued m1
      /\ channelsMap (world m2) !! int_channelId close_press = None)
  /\ (let '(m1, p1) := advance 10 (Ionetbot.timerCallback (int_channelId close_press))
                          sample_registered in
      let '(m2, p2) := advance 20 (Ionetbot.interactionCreate close_press) m1 in
      awaiting p1 = Some (ChannelsFetch (int_channelId close_press))
      /\ awaiting p2 = Some (ChannelDelete (ch_id private_42))
      /\ issued (fst (feed p1 [(30, Fulfilled (VChannel (Some private_42)))] m2)) =
         issued sample_registered ++
           [ ChannelsFetch (int_channelId close_press); ChannelDelete (ch_id private_42);
             ChannelDelete (ch_id private_42) ]
      /\ issued (fst (feed p1 [(30, Rejected (CallFailed "Unknown Channel"))] m2)) =
         issued sample_registered ++
           [ ChannelsFetch (int_channelId close_press);
             ChannelDelete (ch_id private_42) ]).
Proof.
  pose proof (C1_sequential_close_deletes_once close_press private_42 private_42
                10 20 30 40 VVoid (CallFailed "Unknown Channel")
                (Rejected (CallFailed "Unknown Channel")) [] sample_registered
                eq_refl eq_refl eq_refl (or_intror eq_refl)) as H.
  cbv zeta in H. destruct H as (_ & Hsequential & _ & Hinterleaved & _).
  split.
  - split; [reflexivity|]. split; [reflexivity|]. split; [reflexivity|].
    right. reflexivity.
  - split; [exact Hsequential|exact Hinterleaved].
Defined.

(** C2, amended, at sample data. *)
Lemma C2_binding_stable_without_interleaving_witness :
  (threadMap (world (boot 0)) !! msg_channel_id hello = None
   /\ falsy_string "thread_A" = false)
  /\ invoke 10 (resolveOrCreate 7) [(20, Fulfilled (VThread "thread_A"))] (boot 0) =
     (set_world (addThreadToMap 7 "thread_A" (world (boot 0))) (issue ThreadsCreate (boot 0)),
      Ret "thread_A").
Proof.
  split.
  - split; reflexivity.
  - exact (proj1 (C2_binding_stable_without_interleaving Ionetbot.record_interaction 5
                    hello "thread_A" 10 20 (boot 0) eq_refl eq_refl)).
Defined.

(** * Further properties of the handlers *)

(** ** Creating a private channel *)

Lemma prefix_create_nonempty (content : string) :
  String.prefix "!createPrivateChannel" content = true -> falsy_string content = false.
Proof. destruct content; [discriminate|reflexivity]. Qed.

Lemma prefix_append (s x : string) : String.prefix s (s +:+ x) = true.
Proof.
  induction s as [|a s IH]; [change ("" +:+ x) with x; by destruct x|].
  change (String a s +:+ x) with (String a (s +:+ x)). cbn [String.prefix].
  destruct (ascii_dec a a); [exact IH|congruence].
Qed.

(** X1: a create command in the command channel whose three platform calls
    succeed registers the new channel under its own id, schedules the
    deletion callback for that id 600000 ms after the instant of the last
    settlement, and returns; the channel is asked for under a name that
    starts with private-, which is the prefix the dispatch branch tests.
    [ionetbot.js] also starts the creation record; the script without a
    database issues the platform calls only. *)
Theorem X1_create_registers_and_schedules
    (cmd : N) (fuel : nat) (message : Message) (channel : Channel)
    (t0 t1 t2 t3 : Z) (v1 v2 : Value) (m : Machine)
    (Hhuman : msg_author_bot message = false)
    (Hcommand : String.prefix "!createPrivateChannel" (msg_content message) = true)
    (Hchannel : msg_channel_id message = cmd) :
  let name := "private-" +:+ pretty (msg_author_id message) in
  let script := [ (t1, Fulfilled (VChannel (Some channel))); (t2, Fulfilled v1);
                  (t3, Fulfilled v2) ] in
  String.prefix "private-" name = true
  /\ (let '(m', p') := invoke t0 (Ionetbot.messageCreate cmd fuel message) script m in
      p' = Ret tt
      /\ channelsMap (world m') = <[ch_id channel := channel]> (channelsMap (world m))
      /\ timers m' = timers m ++ [(t3 + 600000, Some (Ionetbot.timerCallback (ch_id channel)))]
      /\ issued m' = issued m ++
           [ GuildChannelsCreate (msg_guild_id message) name (msg_author_id message);
             ChannelSend (ch_id channel) Ionetbot.greeting "close_ticket";
             Reply (msg_channel_id message) (Ionetbot.created_notice channel);
             InsertOne "events"
               (ChannelCreationDoc (ch_id channel) (msg_author_id message) t3) ])
  /\ (let '(m', p') := invoke t0 (WithoutMongoDB.messageCreate cmd fuel message) script m in
      p' = Ret tt
      /\ channelsMap (world m') = <[ch_id channel := channel]> (channelsMap (world m))
      /\ timers m' = timers m
                     ++ [(t3 + 600000, Some (WithoutMongoDB.timerCallback (ch_id channel)))]
      /\ issued m' = issued m ++
           [ GuildChannelsCreate (msg_guild_id message) name (msg_author_id message);
             ChannelSend (ch_id channel) Ionetbot.greeting "close_ticket";
             Reply (msg_channel_id message) (Ionetbot.created_notice channel) ]).
Proof.
  intros name script. subst name script.
  pose proof (prefix_create_nonempty _ Hcommand) as Hne.
  split; [apply prefix_append|].
  destruct m as [w ts tm iss].
  unfold invoke, Ionetbot.messageCreate, WithoutMongoDB.messageCreate.
  subst cmd. rewrite Hhuman, Hne, Hcommand, N.eqb_refl.
  split; cbn; rewrite <- ?app_assoc; repeat split; reflexivity.
Qed.

(** X2: when the platform rejects the channel creation, both guild scripts
    log the error, reply with the failure notice and return: nothing is
    registered, no timer is scheduled, no greeting is sent and no record
    is written. *)
Theorem X2_create_rejected_registers_nothing
    (cmd : N) (fuel : nat) (message : Message)
    (t0 t1 t2 : Z) (e : Err) (v : Value) (m : Machine)
    (Hhuman : msg_author_bot message = false)
    (Hcommand : String.prefix "!createPrivateChannel" (msg_content message) = true)
    (Hchannel : msg_channel_id message = cmd) :
  let name := "private-" +:+ pretty (msg_author_id message) in
  let script := [(t1, Rejected e); (t2, Fulfilled v)] in
  let outcome :=
    (issue_all [ GuildChannelsCreate (msg_guild_id message) name (msg_author_id message);
                 Reply (msg_channel_id message) "Failed to create private channel." ]
       (log_error "Error creating private channel:" m), Ret tt) in
  invoke t0 (Ionetbot.messageCreate cmd fuel message) script m = outcome
  /\ invoke t0 (WithoutMongoDB.messageCreate cmd fuel message) script m = outcome.
Proof.
  intros name script outcome. subst name script outcome.
  pose proof (prefix_create_nonempty _ Hcommand) as Hne.
  destruct m as [w ts tm iss].
  unfold invoke, Ionetbot.messageCreate, WithoutMongoDB.messageCreate.
  subst cmd. rewrite Hhuman, Hne, Hcommand, N.eqb_refl.
  split; cbn; norm_machine; reflexivity.
Qed.

(** X3: the channel is registered before the greeting is sent.  When the
    greeting or the creation notice is rejected, the handler replies with
    the failure notice and returns, but the channel stays in
    [channelsMap], no deletion timer has been scheduled for it and no
    record task has been started. *)
Theorem X3_create_failing_after_registration_leaks
    (cmd : N) (fuel : nat) (message : Message) (channel : Channel)
    (t0 t1 t2 t3 t4 : Z) (e : Err) (v v' : Value) (m : Machine)
    (Hhuman : msg_author_bot message = false)
    (Hcommand : String.prefix "!createPrivateChannel" (msg_content message) = true)
    (Hchannel : msg_channel_id message = cmd) :
  let name := "private-" +:+ pretty (msg_author_id message) in
  let greeting_fails := [ (t1, Fulfilled (VChannel (Some channel))); (t2, Rejected e);
                          (t3, Fulfilled v) ] in
  let notice_fails := [ (t1, Fulfilled (VChannel (Some channel))); (t2, Fulfilled v);
                        (t3, Rejected e); (t4, Fulfilled v') ] in
  let create := GuildChannelsCreate (msg_guild_id message) name (msg_author_id message) in
  let greet := ChannelSend (ch_id channel) Ionetbot.greeting "close_ticket" in
  let notice := Reply (msg_channel_id message) (Ionetbot.created_notice channel) in
  let failed := Reply (msg_channel_id message) "Failed to create private channel." in
  let leaked (calls : list Call) (result : Machine * Prog unit) :=
    snd result = Ret tt
    /\ channelsMap (world (fst result)) = <[ch_id channel := channel]> (channelsMap (world m))
    /\ timers (fst result) = timers m
    /\ tasks (fst result) = tasks m
    /\ issued (fst result) = issued m ++ calls in
  leaked [create; greet; failed]
    (invoke t0 (Ionetbot.messageCreate cmd fuel message) greeting_fails m)
  /\ leaked [create; greet; notice; failed]
    (invoke t0 (Ionetbot.messageCreate cmd fuel message) notice_fails m)
  /\ leaked [create; greet; failed]
    (invoke t0 (WithoutMongoDB.messageCreate cmd fuel message) greeting_fails m)
  /\ leaked [create; greet; notice; failed]
    (invoke t0 (WithoutMongoDB.messageCreate cmd fuel message) notice_fails m).
Proof.
  intros name greeting_fails notice_fails create greet notice failed leaked.
  subst name greeting_fails notice_fails create greet notice failed leaked.
  pose proof (prefix_create_nonempty _ Hcommand) as Hne.
  destruct m as [w ts tm iss].
  unfold invoke, Ionetbot.messageCreate, WithoutMongoDB.messageCreate.
  subst cmd. rewrite Hhuman, Hne, Hcommand, N.eqb_refl.
  cbn. rewrite <- !app_assoc. cbn. repeat split; reflexivity.
Qed.

(** X21: nothing limits a user to one private channel.  A second create
    command of the same author asks the platform for a channel of the
    same name again, and when the platform answers with another channel
    both are registered, each with its own deletion timer. *)
Theorem X21_one_user_can_hold_several_channels
    (cmd : N) (fuel : nat) (first second : Message) (c1 c2 : Channel)
    (t0 t1 t2 t3 s0 s1 s2 s3 : Z) (v1 v2 v3 v4 : Value) (m : Machine)
    (Hhuman1 : msg_author_bot first = false)
    (Hhuman2 : msg_author_bot second = false)
    (Hcommand1 : String.prefix "!createPrivateChannel" (msg_content first) = true)
    (Hcommand2 : String.prefix "!createPrivateChannel" (msg_content second) = true)
    (Hchannel1 : msg_channel_id first = cmd)
    (Hchannel2 : msg_channel_id second = cmd)
    (Hauthor : msg_author_id second = msg_author_id first)
    (Hother : ch_id c1 <> ch_id c2) :
  let name := "private-" +:+ pretty (msg_author_id first) in
  let answers (c : Channel) (a b d : Z) (v v' : Value) :=
    [(a, Fulfilled (VChannel (Some c))); (b, Fulfilled v); (d, Fulfilled v')] in
  let twice (handler : Message -> Prog unit) :=
    fst (invoke s0 (handler second) (answers c2 s1 s2 s3 v3 v4)
           (fst (invoke t0 (handler first) (answers c1 t1 t2 t3 v1 v2) m))) in
  let created (message : Message) (c : Channel) :=
    [ GuildChannelsCreate (msg_guild_id message) name (msg_author_id first);
      ChannelSend (ch_id c) Ionetbot.greeting "close_ticket";
      Reply (msg_channel_id message) (Ionetbot.created_notice c) ] in
  let both (callback : N -> Prog unit) (record : Channel -> Z -> list Call)
           (m2 : Machine) :=
    channelsMap (world m2) !! ch_id c1 = Some c1
    /\ channelsMap (world m2) !! ch_id c2 = Some c2
    /\ timers m2 = timers m ++ [ (t3 + 600000, Some (callback (ch_id c1)));
                                 (s3 + 600000, Some (callback (ch_id c2))) ]
    /\ issued m2 = issued m ++ created first c1 ++ record c1 t3
                             ++ created second c2 ++ record c2 s3 in
  both Ionetbot.timerCallback
    (fun c t => [InsertOne "events"
                   (ChannelCreationDoc (ch_id c) (msg_author_id first) t)])
    (twice (Ionetbot.messageCreate cmd fuel))
  /\ both WithoutMongoDB.timerCallback (fun _ _ => [])
       (twice (WithoutMongoDB.messageCreate cmd fuel)).
Proof.
  intros name answers twice created both. subst name answers twice created both.
  cbv beta.
  pose proof (prefix_create_nonempty _ Hcommand1) as Hne1.
  pose proof (prefix_create_nonempty _ Hcommand2) as Hne2.
  destruct m as [w ts tm iss].
  unfold invoke, Ionetbot.messageCreate, WithoutMongoDB.messageCreate.
  rewrite Hhuman1, Hhuman2, Hne1, Hne2, Hcommand1, Hcommand2, Hchannel1, Hchannel2,
    N.eqb_refl.
  cbn. rewrite <- !app_assoc. cbn. rewrite ?Hchannel1, ?Hchannel2, ?Hauthor.
  rewrite lookup_insert_ne by congruence. rewrite !lookup_insert_eq.
  repeat split; reflexivity.
Qed.

(** ** Closing a channel *)

(** X4: when the timer callback finds its channel registered but the fetch
    resolves to no channel, it issues no delete and writes no record, and
    its [finally] block still removes the entry. *)
Theorem X4_timer_fetch_without_channel
    (channelId : N) (channel : Channel) (t1 t2 : Z) (m : Machine)
    (Hreg : channelsMap (world m) !! channelId = Some channel) :
  let script := [(t2, Fulfilled (VChannel None))] in
  let outcome :=
    (set_world (set_channelsMap (delete channelId) (world m))
       (issue (ChannelsFetch channelId) m), Ret tt) in
  invoke t1 (Ionetbot.timerCallback channelId) script m = outcome
  /\ invoke t1 (WithoutMongoDB.timerCallback channelId) script m = outcome.
Proof.
  intros script outcome. subst script outcome. destruct m as [w ts tm iss]. cbn in Hreg.
  unfold invoke, Ionetbot.timerCallback, WithoutMongoDB.timerCallback, has.
  cbn. rewrite Hreg. cbn. split; reflexivity.
Qed.

(** X5: a button close whose delete is rejected leaves the channel
    registered, so that a second press issues the delete again and, when
    that succeeds, removes the entry; the timer callback, too, still
    finds the entry, deletes the channel and removes it. *)
Theorem X5_failed_button_close_can_be_retried
    (interaction : Interaction) (channel fetched : Channel)
    (t1 t2 t3 t4 t5 : Z) (e : Err) (v : Value) (m : Machine)
    (Hbutton : int_isButton interaction = true)
    (Hid : int_customId interaction = "close_ticket")
    (Hreg : channelsMap (world m) !! int_channelId interaction = Some channel) :
  let channelId := int_channelId interaction in
  let failed := fst (invoke t1 (Ionetbot.interactionCreate interaction)
                       [(t2, Rejected e)] m) in
  (* a second press issues the delete again and, if it succeeds, deregisters *)
  (let '(m', p') := invoke t3 (Ionetbot.interactionCreate interaction)
                      [(t4, Fulfilled v)] failed in
   p' = Ret tt
   /\ issued m' = issued m ++ [ChannelDelete (ch_id channel); ChannelDelete (ch_id channel)]
   /\ channelsMap (world m') !! channelId = None)
  (* and so does the timer when it fires *)
  /\ (let '(m', p') := invoke t3 (Ionetbot.timerCallback channelId)
                         [(t4, Fulfilled (VChannel (Some fetched))); (t5, Fulfilled v)]
                         failed in
      p' = Ret tt
      /\ issued m' = issued m ++
           [ ChannelDelete (ch_id channel); ChannelsFetch channelId;
             ChannelDelete (ch_id fetched);
             InsertOne "channelDeletions" (ChannelDeletionDoc (ch_id fetched) t5) ]
      /\ channelsMap (world m') !! channelId = None).
Proof.
  intros channelId failed. subst channelId failed. destruct m as [w ts tm iss].
  cbn in Hreg.
  unfold invoke, Ionetbot.interactionCreate, Ionetbot.timerCallback, has.
  rewrite Hbutton, Hid. cbn. rewrite Hreg. cbn. rewrite Hreg. cbn.
  rewrite <- !app_assoc. cbn.
  repeat split; try reflexivity; apply lookup_delete_eq.
Qed.

Lemma bind_never_throws {A B : Type} (p : Prog A) (g : A -> Prog B) :
  never_throws p -> (forall a, never_throws (g a)) -> never_throws (bind p g).
Proof.
  intros Hp Hg.
  induction p as [A a|A e|A X f k IH|A c k IH|A child IHc k IHk|A ms cb IHcb k IHk|A];
    cbn in *; auto.
Qed.

Lemma try_finally_never_throws {A : Type} (p : Prog A) (fin : Prog unit) :
  never_throws p -> never_throws fin -> never_throws (try_finally p fin).
Proof.
  intros Hp Hfin. unfold try_finally.
  induction p as [A a|A e|A X f k IH|A c k IH|A child IHc k IHk|A ms cb IHcb k IHk|A];
    cbn in *; auto.
  - apply bind_never_throws; [exact Hfin|]. intros _. exact I.
  - contradiction.
Qed.

Lemma console_error_never_throws text : never_throws (console_error text).
Proof. intros now w. exact I. Qed.

(** X6: whatever the platform answers, and for any number of answers,
    neither the button handler nor the timer callback of either guild
    script ends in an uncaught exception. *)
Theorem X6_close_handlers_never_reject
    (interaction : Interaction) (channelId : N) (now : Z)
    (script : list (Z * Response)) (m : Machine) (e : Err) :
  snd (invoke now (Ionetbot.interactionCreate interaction) script m) <> Throw e
  /\ snd (invoke now (Ionetbot.timerCallback channelId) script m) <> Throw e
  /\ snd (invoke now (WithoutMongoDB.interactionCreate interaction) script m) <> Throw e
  /\ snd (invoke now (WithoutMongoDB.timerCallback channelId) script m) <> Throw e.
Proof.
  assert (Hrun : forall p : Prog unit, never_throws p ->
                   snd (invoke now p script m) <> Throw e).
  { intros p Hp He. unfold invoke in He.
    pose proof (advance_never_throws p now m Hp) as H1.
    destruct (advance now p m) as [m' p'].
    pose proof (feed_never_throws script p' m' H1) as H2.
    rewrite He in H2. exact H2. }
  assert (Hfin : never_throws
            (Sync (fun (_ : Z) w => (set_channelsMap (delete channelId) w, tt)) Ret)).
  { intros ? ?. exact I. }
  assert (Hread : forall (X : Type) (g : World -> X),
            never_throws (Sync (fun (_ : Z) w => (w, g w)) Ret)).
  { intros X g ? ?. exact I. }
  repeat split; apply Hrun.
  - unfold Ionetbot.interactionCreate. destruct (_ || _); [exact I|].
    apply bind_never_throws; [apply Hread|]. intros [c|]; [|exact I].
    apply try_catch_never_throws. intros. apply console_error_never_throws.
  - unfold Ionetbot.timerCallback.
    apply bind_never_throws; [apply Hread|]. intros [|]; [|exact I].
    apply try_finally_never_throws; [|exact Hfin].
    apply try_catch_never_throws. intros. apply console_error_never_throws.
  - unfold WithoutMongoDB.interactionCreate. destruct (_ || _); [exact I|].
    apply bind_never_throws; [apply Hread|]. intros [c|].
    + apply try_catch_never_throws. intros. apply console_error_never_throws.
    + apply console_error_never_throws.
  - unfold WithoutMongoDB.timerCallback.
    apply bind_never_throws; [apply Hread|]. intros [|]; [|exact I].
    apply try_finally_never_throws; [|exact Hfin].
    apply try_catch_never_throws. intros. apply console_error_never_throws.
Qed.

(** ** The dispatch *)

(** A first message whose run ends, after any number of non-terminal
    answers, with the terminal answer [last]: what remains is the code
    after [statusCheckLoop], inside the [try]. *)
Lemma dispatch_to_status after_reply fuel message m threadId run polls last
    t0 t1 t2 t3 t4 t v1 v2 rest :
  nextAvailableTime (world m) <= t0 ->
  threadMap (world m) !! msg_channel_id message = None ->
  Forall (fun p => nonterminal (snd (fst p))) polls ->
  terminal last ->
  (List.length polls < fuel)%nat ->
  invoke t0 (dispatch after_reply fuel message)
    ([ (t1, Fulfilled (VThread threadId)); (t2, Fulfilled v1); (t3, Fulfilled v2);
       (t4, Fulfilled (VRun run)) ]
     ++ poll_script polls ++ (t, Fulfilled (VRun last)) :: rest) m =
  let '(m1, p1) :=
    advance t (try_catch (on_status after_reply message threadId (run_id run)
                            (run_status last))
                 (on_error message))
      (issue_all (poll_calls threadId (run_id run) (List.length polls)
                    ++ [RunsRetrieve threadId (run_id run)])
         (run_created message threadId m)) in
  feed p1 rest m1.
Proof.
  intros Hgate Hunbound Hpolls Hlast Hfuel. cbn [app].
  rewrite dispatch_unbound by assumption.
  unfold polling. rewrite loop_ctx_polls by (auto; lia).
  destruct (fuel - List.length polls)%nat as [|f] eqn:E; [lia|].
  rewrite loop_ctx_terminal by assumption.
  unfold run_created. destruct m as [w ts tm iss]. norm_machine. reflexivity.
Qed.

(** X7: the poll loop has no ceiling on the number of polls: after any
    number of non-terminal answers it has issued one retrieve and one
    one-second sleep per answer, is waiting on a further retrieve, and has
    changed none of the module variables. *)
Theorem X7_polling_has_no_ceiling
    (fuel : nat) (threadId runId : string) (polls : list (Z * Run * Z))
    (now : Z) (m : Machine)
    (Hpolls : Forall (fun p => nonterminal (snd (fst p))) polls)
    (Hfuel : (List.length polls < fuel)%nat) :
  let result := invoke now (statusCheckLoop fuel threadId runId) (poll_script polls) m in
  awaiting (snd result) = Some (RunsRetrieve threadId runId)
  /\ issued (fst result) =
       issued m ++ poll_calls threadId runId (List.length polls)
                ++ [RunsRetrieve threadId runId]
  /\ world (fst result) = world m.
Proof.
  intros result. subst result.
  rewrite <- (app_nil_r (poll_script polls)). rewrite loop_polls by (auto; lia).
  destruct (fuel - List.length polls)%nat as [|f] eqn:E; [lia|].
  destruct m as [w ts tm iss]. unfold invoke. cbn.
  rewrite <- app_assoc. auto.
Qed.

(** X8: when the run ends as cancelled or expired, the dispatch returns
    without any reply and without any console line: its last call is the
    retrieve that returned the terminal status. *)
Theorem X8_cancelled_or_expired_run_is_silent
    (after_reply : Message -> string -> Prog unit) (fuel : nat) (message : Message)
    (threadId : string) (run last : Run) (polls : list (Z * Run * Z))
    (t0 t1 t2 t3 t4 t : Z) (v1 v2 : Value) (rest : list (Z * Response)) (m : Machine)
    (Hgate : nextAvailableTime (world m) <= t0)
    (Hunbound : threadMap (world m) !! msg_channel_id message = None)
    (Hpolls : Forall (fun p => nonterminal (snd (fst p))) polls)
    (Hfuel : (List.length polls < fuel)%nat)
    (Hlast : run_status last = "cancelled" \/ run_status last = "expired") :
  invoke t0 (dispatch after_reply fuel message)
    ([ (t1, Fulfilled (VThread threadId)); (t2, Fulfilled v1); (t3, Fulfilled v2);
       (t4, Fulfilled (VRun run)) ]
     ++ poll_script polls ++ (t, Fulfilled (VRun last)) :: rest) m =
  (issue_all (poll_calls threadId (run_id run) (List.length polls)
                ++ [RunsRetrieve threadId (run_id run)])
     (run_created message threadId m), Ret tt).
Proof.
  assert (Hterm : terminal last).
  { unfold terminal. destruct Hlast as [-> | ->]; reflexivity. }
  rewrite dispatch_to_status by assumption.
  unfold on_status. destruct Hlast as [-> | ->]; cbn; apply feed_done; congruence.
Qed.

Ltac norm_run :=
  unfold run_created, log_error, log_info; norm_machine.

(** X9: when the run is completed but the message list has no data or no
    element, the dispatch lists the messages and returns without any
    reply. *)
Theorem X9_completed_run_without_messages_is_silent
    (after_reply : Message -> string -> Prog unit) (fuel : nat) (message : Message)
    (threadId : string) (run last : Run) (polls : list (Z * Run * Z))
    (data : option (list ThreadMessage))
    (t0 t1 t2 t3 t4 t t' : Z) (v1 v2 : Value) (rest : list (Z * Response)) (m : Machine)
    (Hgate : nextAvailableTime (world m) <= t0)
    (Hunbound : threadMap (world m) !! msg_channel_id message = None)
    (Hpolls : Forall (fun p => nonterminal (snd (fst p))) polls)
    (Hfuel : (List.length polls < fuel)%nat)
    (Hlast : run_status last = "completed")
    (Hdata : has_messages data = false) :
  invoke t0 (dispatch after_reply fuel message)
    ([ (t1, Fulfilled (VThread threadId)); (t2, Fulfilled v1); (t3, Fulfilled v2);
       (t4, Fulfilled (VRun run)) ]
     ++ poll_script polls
     ++ (t, Fulfilled (VRun last)) :: (t', Fulfilled (VMessageList data)) :: rest) m =
  (issue_all (poll_calls threadId (run_id run) (List.length polls)
                ++ [RunsRetrieve threadId (run_id run); MessagesList threadId])
     (run_created message threadId m), Ret tt).
Proof.
  assert (Hterm : terminal last) by (unfold terminal; by rewrite Hlast).
  rewrite dispatch_to_status by assumption.
  unfold on_status, completed_branch. rewrite Hlast. cbn. rewrite Hdata. cbn.
  rewrite feed_done by congruence. f_equal.
  unfold run_created. destruct m as [w ts tm iss]. norm_machine. reflexivity.
Qed.

(** X10: when the run is completed and the first part of the newest
    message carries no text (or the message has no part), reading
    [text.value] throws inside the [try]: the dispatch logs the error and
    sends the generic failure reply. *)
Theorem X10_completed_run_without_text_gets_the_notice
    (after_reply : Message -> string -> Prog unit) (fuel : nat) (message : Message)
    (threadId : string) (run last : Run) (polls : list (Z * Run * Z))
    (first : ThreadMessage) (older : list ThreadMessage)
    (t0 t1 t2 t3 t4 t t' t'' : Z) (v v1 v2 : Value) (m : Machine)
    (Hgate : nextAvailableTime (world m) <= t0)
    (Hunbound : threadMap (world m) !! msg_channel_id message = None)
    (Hpolls : Forall (fun p => nonterminal (snd (fst p))) polls)
    (Hfuel : (List.length polls < fuel)%nat)
    (Hlast : run_status last = "completed")
    (Htext : has_text first = false) :
  invoke t0 (dispatch after_reply fuel message)
    ([ (t1, Fulfilled (VThread threadId)); (t2, Fulfilled v1); (t3, Fulfilled v2);
       (t4, Fulfilled (VRun run)) ]
     ++ poll_script polls
     ++ [ (t, Fulfilled (VRun last));
          (t', Fulfilled (VMessageList (Some (first :: older))));
          (t'', Fulfilled v) ]) m =
  (issue_all (poll_calls threadId (run_id run) (List.length polls)
                ++ [ RunsRetrieve threadId (run_id run); MessagesList threadId;
                     Reply (msg_channel_id message) processing_failed ])
     (log_error "Error during message processing" (run_created message threadId m)),
   Ret tt).
Proof.
  assert (Hterm : terminal last) by (unfold terminal; by rewrite Hlast).
  rewrite dispatch_to_status by assumption.
  unfold on_status, completed_branch, first_text_value, on_error. rewrite Hlast. cbn.
  unfold has_text in Htext.
  destruct (tm_content first) as [|[value|] parts]; try discriminate; cbn;
    f_equal; destruct m as [w ts tm iss]; norm_run; reflexivity.
Qed.

(** X11: in [ionetbot.js], when sending the reply is rejected, the
    dispatch sends the generic failure reply and starts no interaction
    record: the record is started only after the reply has been sent. *)
Theorem X11_rejected_reply_skips_the_record
    (fuel : nat) (message : Message)
    (threadId reply : string) (run last : Run) (polls : list (Z * Run * Z))
    (parts : list (option string)) (older : list ThreadMessage)
    (t0 t1 t2 t3 t4 t t' t'' t''' : Z) (e : Err) (v v1 v2 : Value) (m : Machine)
    (Hgate : nextAvailableTime (world m) <= t0)
    (Hunbound : threadMap (world m) !! msg_channel_id message = None)
    (Hpolls : Forall (fun p => nonterminal (snd (fst p))) polls)
    (Hfuel : (List.length polls < fuel)%nat)
    (Hlast : run_status last = "completed") :
  let data := Some (mkThreadMessage (Some reply :: parts) :: older) in
  let '(m', p') :=
    invoke t0 (Ionetbot.dispatch fuel message)
      ([ (t1, Fulfilled (VThread threadId)); (t2, Fulfilled v1); (t3, Fulfilled v2);
         (t4, Fulfilled (VRun run)) ]
       ++ poll_script polls
       ++ [ (t, Fulfilled (VRun last)); (t', Fulfilled (VMessageList data));
            (t'', Rejected e); (t''', Fulfilled v) ]) m in
  p' = Ret tt
  /\ issued m' = issued (run_created message threadId m)
       ++ poll_calls threadId (run_id run) (List.length polls)
       ++ [ RunsRetrieve threadId (run_id run); MessagesList threadId;
            Reply (msg_channel_id message) (truncate reply);
            Reply (msg_channel_id message) processing_failed ]
  /\ tasks m' = tasks m.
Proof.
  intros data. subst data.
  assert (Hterm : terminal last) by (unfold terminal; by rewrite Hlast).
  unfold Ionetbot.dispatch. rewrite dispatch_to_status by assumption.
  unfold on_status, completed_branch, first_text_value, on_error. rewrite Hlast. cbn.
  unfold run_created. destruct m as [w ts tm iss]. norm_machine.
  repeat split; reflexivity.
Qed.

(** X12: when the run has failed and either the failure notice cannot be
    sent or the failure details cannot be retrieved, the dispatch sends
    the generic failure reply, returns, and leaves [nextAvailableTime] as
    it was. *)
Theorem X12_failed_run_errors_leave_the_gate
    (after_reply : Message -> string -> Prog unit) (fuel : nat) (message : Message)
    (threadId : string) (run last : Run) (polls : list (Z * Run * Z))
    (t0 t1 t2 t3 t4 t s1 s2 s3 : Z) (e : Err) (v v' v1 v2 : Value) (m : Machine)
    (Hgate : nextAvailableTime (world m) <= t0)
    (Hunbound : threadMap (world m) !! msg_channel_id message = None)
    (Hpolls : Forall (fun p => nonterminal (snd (fst p))) polls)
    (Hfuel : (List.length polls < fuel)%nat)
    (Hlast : run_status last = "failed") :
  let polled := poll_calls threadId (run_id run) (List.length polls)
                ++ [RunsRetrieve threadId (run_id run)] in
  let caught (calls : list Call) (result : Machine * Prog unit) :=
    snd result = Ret tt
    /\ issued (fst result) = issued (run_created message threadId m) ++ polled ++ calls
    /\ nextAvailableTime (world (fst result)) = nextAvailableTime (world m) in
  (* the first notice cannot be sent *)
  caught [ Reply (msg_channel_id message) try_again_later;
           Reply (msg_channel_id message) processing_failed ]
    (invoke t0 (dispatch after_reply fuel message)
       ([ (t1, Fulfilled (VThread threadId)); (t2, Fulfilled v1);
          (t3, Fulfilled v2); (t4, Fulfilled (VRun run)) ]
        ++ poll_script polls
        ++ [(t, Fulfilled (VRun last)); (s1, Rejected e); (s2, Fulfilled v)]) m)
  (* the failure details cannot be retrieved *)
  /\ caught [ Reply (msg_channel_id message) try_again_later;
              RunsRetrieve threadId (run_id run);
              Reply (msg_channel_id message) processing_failed ]
       (invoke t0 (dispatch after_reply fuel message)
          ([ (t1, Fulfilled (VThread threadId)); (t2, Fulfilled v1);
             (t3, Fulfilled v2); (t4, Fulfilled (VRun run)) ]
           ++ poll_script polls
           ++ [ (t, Fulfilled (VRun last)); (s1, Fulfilled v); (s2, Rejected e);
                (s3, Fulfilled v') ]) m).
Proof.
  intros polled caught. subst polled caught.
  assert (Hterm : terminal last) by (unfold terminal; by rewrite Hlast).
  rewrite !dispatch_to_status by assumption.
  unfold on_status, failed_branch, on_error. rewrite Hlast. cbn.
  destruct m as [w ts tm iss]. norm_run. repeat split; reflexivity.
Qed.

(** X13: two awaits of the dispatch are outside its [try].  When the
    thread creation is rejected the handler ends with that exception,
    having sent no reply and bound no thread; when the rate gate is closed
    and the wait notice cannot be sent the handler ends with that
    exception. *)
Theorem X13_failures_before_the_try_are_not_caught
    (after_reply : Message -> string -> Prog unit) (fuel : nat) (message : Message)
    (t0 t1 : Z) (e : Err) (rest : list (Z * Response)) (m : Machine) :
  (* thread creation fails: no reply, no binding, the handler rejects *)
  (nextAvailableTime (world m) <= t0 ->
   threadMap (world m) !! msg_channel_id message = None ->
   invoke t0 (dispatch after_reply fuel message) ((t1, Rejected e) :: rest) m =
   (issue ThreadsCreate m, Throw e))
  (* the wait notice cannot be sent: the handler rejects *)
  /\ (t0 < nextAvailableTime (world m) ->
      invoke t0 (dispatch after_reply fuel message) ((t1, Rejected e) :: rest) m =
      (issue (Reply (msg_channel_id message) please_wait) m, Throw e)).
Proof.
  destruct m as [w ts tm iss]. split; intros Hgate; cbn in Hgate.
  - intros Hunbound. cbn in Hunbound. apply Z.ltb_ge in Hgate. unfold invoke, dispatch. cbn. rewrite Hgate. cbn.
    unfold getOpenAiThreadId. rewrite Hunbound. cbn.
    rewrite feed_done by congruence. reflexivity.
  - apply Z.ltb_lt in Hgate. unfold invoke, dispatch. cbn. rewrite Hgate. cbn.
    rewrite feed_done by congruence. reflexivity.
Qed.

(** ** What the handlers may do to the module variables *)

Section StepsIn.
Variable R : Z -> World -> World -> Prop.

Lemma steps_in_bind {A B : Type} (p : Prog A) (g : A -> Prog B) :
  steps_in R p -> (forall a, steps_in R (g a)) -> steps_in R (bind p g).
Proof.
  intros Hp Hg.
  induction p as [A a|A e|A X f k IH|A c k IH|A child IHc k IHk|A ms cb IHcb k IHk|A];
    cbn in *; auto.
  - intros now w. destruct (Hp now w). split; auto.
  - destruct Hp. split; auto.
  - destruct Hp. split; auto.
Qed.

Lemma steps_in_try_catch {A : Type} (p : Prog A) (h : Err -> Prog A) :
  steps_in R p -> (forall e, steps_in R (h e)) -> steps_in R (try_catch p h).
Proof.
  intros Hp Hh.
  induction p as [A a|A e|A X f k IH|A c k IH|A child IHc k IHk|A ms cb IHcb k IHk|A];
    cbn in *; auto.
  - intros now w. destruct (Hp now w). split; auto.
  - destruct Hp. split; auto.
  - destruct Hp. split; auto.
Qed.

Lemma steps_in_try_finally {A : Type} (p : Prog A) (fin : Prog unit) :
  steps_in R p -> steps_in R fin -> steps_in R (try_finally p fin).
Proof.
  intros Hp Hfin. unfold try_finally.
  apply steps_in_bind.
  - apply steps_in_try_catch; [|cbn; auto].
    apply steps_in_bind; [exact Hp|cbn; auto].
  - intros r. apply steps_in_bind; [exact Hfin|]. intros _. destruct r; cbn; auto.
Qed.

Lemma steps_in_await c : steps_in R (await c).
Proof. intros [v|e]; cbn; auto. Qed.

Lemma steps_in_write (f : Z -> World -> World) :
  (forall now w, R now w (f now w)) ->
  steps_in R (Sync (fun now w => (f now w, tt)) Ret).
Proof. intros H now w. cbn. split; [apply H|exact I]. Qed.

Hypothesis HR : permits R.

Lemma steps_in_read {X : Type} (g : Z -> World -> X) :
  steps_in R (Sync (fun now w => (w, g now w)) Ret).
Proof.
  intros now w. cbn. split; [|exact I].
  apply (permits_same R HR). repeat split.
Qed.

Lemma steps_in_console_log text : steps_in R (console_log text).
Proof.
  intros now w. cbn. split; [|exact I]. apply (permits_same R HR). repeat split.
Qed.

Lemma steps_in_console_error text : steps_in R (console_error text).
Proof.
  intros now w. cbn. split; [|exact I]. apply (permits_same R HR). repeat split.
Qed.

Lemma steps_in_penalize : steps_in R penalize.
Proof. apply steps_in_write. intros. apply (permits_penalty R HR). Qed.

Ltac steps_tac :=
  repeat first
    [ progress intros
    | exact I
    | apply steps_in_await
    | apply steps_in_console_log
    | apply steps_in_console_error
    | apply steps_in_penalize
    | apply steps_in_read
    | apply steps_in_bind
    | apply steps_in_try_catch
    | apply steps_in_try_finally
    | match goal with
      | |- steps_in _ (if ?b then _ else _) => destruct b
      | |- steps_in _ (match ?x with _ => _ end) => destruct x
      | |- steps_in _ (Spawn _ _) => split
      | |- steps_in _ (SetTimeout _ _ _) => split
      end ].

Lemma steps_in_statusCheckLoop fuel tid rid : steps_in R (statusCheckLoop fuel tid rid).
Proof.
  induction fuel as [|fuel IH]; [exact I|]. cbn [statusCheckLoop].
  apply steps_in_bind; [|intros [s|]; [exact I|exact IH]].
  unfold sleep, as_run. steps_tac.
Qed.

Lemma steps_in_resolveOrCreate c : steps_in R (resolveOrCreate c).
Proof.
  unfold resolveOrCreate, thread_id.
  assert (Hbind : forall tid,
            steps_in R (Sync (fun (_ : Z) w => (addThreadToMap c tid w, tt)) Ret)).
  { intros tid. apply (steps_in_write (fun _ w => addThreadToMap c tid w)).
    intros. apply (permits_bind R HR). }
  apply steps_in_bind; [apply (steps_in_read (fun _ w => getOpenAiThreadId c w))|].
  intros [tid|]; [destruct (falsy_string tid); [|exact I]|];
    (apply steps_in_bind; [apply steps_in_await|]; intros v;
     apply steps_in_bind; [destruct v; exact I|]; intros tid';
     apply steps_in_bind; [apply Hbind|]; intros; exact I).
Qed.

Lemma steps_in_dispatch after_reply fuel message :
  (forall msg response, steps_in R (after_reply msg response)) ->
  steps_in R (dispatch after_reply fuel message).
Proof.
  intros Har. unfold dispatch, rate_limited.
  apply steps_in_bind; [apply steps_in_read|]. intros [|]; [steps_tac|].
  apply steps_in_bind; [apply steps_in_resolveOrCreate|]. intros tid.
  apply steps_in_try_catch; [|unfold on_error; steps_tac].
  apply steps_in_bind; [steps_tac|]. intros _.
  apply steps_in_bind; [unfold addMessage; steps_tac|]. intros _.
  apply steps_in_bind; [steps_tac|]. intros v.
  apply steps_in_bind; [unfold as_run; steps_tac|]. intros run.
  apply steps_in_bind; [apply steps_in_statusCheckLoop|]. intros status.
  unfold on_status, failed_branch, completed_branch, as_run, messages_data,
    first_text_value.
  steps_tac; apply Har.
Qed.

Lemma steps_in_withDb operation :
  (forall db, steps_in R (operation db)) -> steps_in R (Ionetbot.withDb operation).
Proof. intros H. unfold Ionetbot.withDb. steps_tac. apply H. Qed.

Lemma steps_in_record_interaction message response :
  steps_in R (Ionetbot.record_interaction message response).
Proof.
  unfold Ionetbot.record_interaction. split; [|exact I].
  apply steps_in_withDb. intros db. unfold Date_now. steps_tac.
Qed.

End StepsIn.

Ltac steps_with HR :=
  repeat first
    [ progress intros
    | exact I
    | apply steps_in_await
    | apply (steps_in_console_log _ HR)
    | apply (steps_in_console_error _ HR)
    | apply (steps_in_penalize _ HR)
    | apply (steps_in_read _ HR)
    | apply steps_in_bind
    | apply steps_in_try_catch
    | apply steps_in_try_finally
    | match goal with
      | |- steps_in _ (if ?b then _ else _) => destruct b
      | |- steps_in _ (match ?x with _ => _ end) => destruct x
      | |- steps_in _ (Spawn _ _) => split
      | |- steps_in _ (SetTimeout _ _ _) => split
      end ].

Lemma steps_in_weaken (R R' : Z -> World -> World -> Prop) {A : Type} (p : Prog A) :
  (forall now w w', R now w w' -> R' now w w') -> steps_in R p -> steps_in R' p.
Proof.
  intros HRR'.
  induction p as [A a|A e|A X f k IH|A c k IH|A child IHc k IHk|A ms cb IHcb k IHk|A];
    cbn; auto.
  - intros Hp now w. destruct (Hp now w). split; auto.
  - intros [? ?]. split; auto.
  - intros [? ?]. split; auto.
Qed.

Lemma permits_guild_step : permits guild_step.
Proof.
  split.
  - intros now w w' (Ht & Hc & Hg & Hs). repeat split; try (by left). exact Hs.
  - intros now w c tid. repeat split; try (by left). right. by exists c, tid.
  - intros now w. repeat split; try (by left). by right.
Qed.

Lemma permits_dm_step : permits dm_step.
Proof.
  split.
  - intros now w w' (Ht & Hc & Hg & Hs). repeat split; try (by left). exact Hc.
  - intros now w c tid. repeat split; try (by left). right. by exists c, tid.
  - intros now w. repeat split; try (by left). by right.
Qed.

Lemma permits_keeps_sessions : permits keeps_sessions.
Proof.
  split.
  - intros now w w' (Ht & Hc & Hg & Hs). exact Hs.
  - reflexivity.
  - reflexivity.
Qed.

Lemma guild_step_store now w w' : guild_step now w w' -> store_step now w w'.
Proof. intros (Ht & Hc & Hg & Hs). repeat split; auto. by left. Qed.

Lemma dm_step_store now w w' : dm_step now w w' -> store_step now w w'.
Proof. intros (Ht & Hc & Hg & Hs). repeat split; auto. by left. Qed.

Lemma guild_register (ch : Channel) :
  steps_in guild_step
    (Sync (fun (_ : Z) w => (set_channelsMap (<[ch_id ch := ch]>) w, tt)) Ret).
Proof.
  apply (steps_in_write guild_step (fun _ w => set_channelsMap (<[ch_id ch := ch]>) w)).
  intros now w. repeat split; try (by left). right. left. by exists ch.
Qed.

Lemma guild_deregister (c : N) :
  steps_in guild_step
    (Sync (fun (_ : Z) w => (set_channelsMap (delete c) w, tt)) Ret).
Proof.
  apply (steps_in_write guild_step (fun _ w => set_channelsMap (delete c) w)).
  intros now w. repeat split; try (by left). right. right. by exists c.
Qed.

Lemma guild_timerCallback ch : steps_in guild_step (Ionetbot.timerCallback ch).
Proof.
  pose proof permits_guild_step as HR.
  unfold Ionetbot.timerCallback, as_channel.
  apply steps_in_bind; [apply (steps_in_read _ HR (fun _ w => has (channelsMap w) ch))|].
  intros [|]; [|exact I].
  apply steps_in_try_finally; [|apply guild_deregister].
  apply steps_in_try_catch; [|steps_with HR].
  apply steps_in_bind; [steps_with HR|]. intros v.
  apply steps_in_bind; [steps_with HR|]. intros [fetched|]; [|exact I].
  apply steps_in_bind; [steps_with HR|]. intros _.
  apply steps_in_bind; [steps_with HR|]. intros _.
  split; [|exact I]. apply (steps_in_withDb _ HR). intros db. unfold Date_now.
  steps_with HR.
Qed.

Lemma guild_nodb_timerCallback ch : steps_in guild_step (WithoutMongoDB.timerCallback ch).
Proof.
  pose proof permits_guild_step as HR.
  unfold WithoutMongoDB.timerCallback, as_channel.
  apply steps_in_bind; [apply (steps_in_read _ HR (fun _ w => has (channelsMap w) ch))|].
  intros [|]; [|exact I].
  apply steps_in_try_finally; [|apply guild_deregister].
  apply steps_in_try_catch; [|steps_with HR].
  apply steps_in_bind; [steps_with HR|]. intros v.
  apply steps_in_bind; [steps_with HR|]. intros [fetched|]; [|exact I].
  steps_with HR.
Qed.

Lemma guild_ionetbot cmd fuel :
  (forall message, steps_in guild_step (on_messageCreate (Ionetbot.bot cmd fuel) message))
  /\ (forall interaction,
        steps_in guild_step (on_interactionCreate (Ionetbot.bot cmd fuel) interaction)).
Proof.
  pose proof permits_guild_step as HR. split.
  - intros message. unfold Ionetbot.bot; cbn [on_messageCreate].
    unfold Ionetbot.messageCreate.
    destruct (_ || _); [exact I|]. destruct (_ && _).
    + unfold Ionetbot.createPrivateChannel, as_channel.
      apply steps_in_try_catch; [|steps_with HR].
      apply steps_in_bind; [steps_with HR|]. intros v.
      apply steps_in_bind; [steps_with HR|]. intros [channel|]; [|exact I].
      apply steps_in_bind; [apply guild_register|]. intros _.
      apply steps_in_bind; [steps_with HR|]. intros _.
      apply steps_in_bind; [steps_with HR|]. intros _.
      split; [|split; [apply guild_timerCallback|exact I]].
      apply (steps_in_withDb _ HR). intros db. unfold Date_now. steps_with HR.
    + destruct (_ && _); [|exact I].
      apply (steps_in_dispatch _ HR). apply (steps_in_record_interaction _ HR).
  - intros interaction. unfold Ionetbot.bot; cbn [on_interactionCreate].
    unfold Ionetbot.interactionCreate.
    destruct (_ || _); [exact I|].
    apply steps_in_bind;
      [apply (steps_in_read _ HR (fun _ w => channelsMap w !! int_channelId interaction))|].
    intros [channel|]; [|exact I].
    apply steps_in_try_catch; [|steps_with HR].
    apply steps_in_bind; [steps_with HR|]. intros _.
    apply steps_in_bind; [steps_with HR|]. intros _.
    apply guild_deregister.
Qed.

Lemma guild_without_mongodb cmd fuel :
  (forall message,
     steps_in guild_step (on_messageCreate (WithoutMongoDB.bot cmd fuel) message))
  /\ (forall interaction,
        steps_in guild_step
          (on_interactionCreate (WithoutMongoDB.bot cmd fuel) interaction)).
Proof.
  pose proof permits_guild_step as HR. split.
  - intros message. unfold WithoutMongoDB.bot; cbn [on_messageCreate].
    unfold WithoutMongoDB.messageCreate.
    destruct (_ || _); [exact I|]. destruct (_ && _).
    + unfold WithoutMongoDB.createPrivateChannel, as_channel.
      apply steps_in_try_catch; [|steps_with HR].
      apply steps_in_bind; [steps_with HR|]. intros v.
      apply steps_in_bind; [steps_with HR|]. intros [channel|]; [|exact I].
      apply steps_in_bind; [apply guild_register|]. intros _.
      apply steps_in_bind; [steps_with HR|]. intros _.
      apply steps_in_bind; [steps_with HR|]. intros _.
      split; [apply guild_nodb_timerCallback|exact I].
    + destruct (_ && _); [|exact I].
      apply (steps_in_dispatch _ HR). intros; exact I.
  - intros interaction. unfold WithoutMongoDB.bot; cbn [on_interactionCreate].
    unfold WithoutMongoDB.interactionCreate.
    destruct (_ || _); [exact I|].
    apply steps_in_bind;
      [apply (steps_in_read _ HR (fun _ w => channelsMap w !! int_channelId interaction))|].
    intros [channel|]; [|steps_with HR].
    apply steps_in_try_catch; [|steps_with HR].
    apply steps_in_bind; [steps_with HR|]. intros _.
    apply steps_in_bind; [apply guild_deregister|]. intros _.
    steps_with HR.
Qed.

Lemma dm_test_dm cid fuel :
  (forall message, steps_in dm_step (on_messageCreate (TestDm.bot cid fuel) message))
  /\ (forall interaction,
        steps_in dm_step (on_interactionCreate (TestDm.bot cid fuel) interaction)).
Proof.
  pose proof permits_dm_step as HR. split; [|intros; exact I].
  intros message. unfold TestDm.bot; cbn [on_messageCreate]. unfold TestDm.messageCreate.
  apply steps_in_bind; [steps_with HR|]. intros _.
  destruct (_ || _); [exact I|]. destruct (_ && _).
  - apply steps_in_bind; [|steps_with HR].
    unfold TestDm.startSession.
    apply (steps_in_write dm_step
             (fun now w => set_dmSessions (<[msg_author_id message := now + 600000]>) w)).
    intros now w. repeat split; try (by left). right. by exists (msg_author_id message).
  - destruct (ChannelType_eqb _ _); [|exact I].
    apply steps_in_bind; [steps_with HR|]. intros _.
    apply steps_in_bind;
      [apply (steps_in_read _ HR
                (fun now w => TestDm.session_rejected now
                                (dmSessions w !! msg_author_id message)))|].
    intros [|]; [steps_with HR|].
    apply (steps_in_dispatch _ HR). intros; exact I.
Qed.

Lemma store_bot script fuel :
  (forall message, steps_in store_step (on_messageCreate (bot_of script fuel) message))
  /\ (forall interaction,
        steps_in store_step (on_interactionCreate (bot_of script fuel) interaction)).
Proof.
  destruct script as [c|c|c]; cbn [bot_of].
  - destruct (guild_ionetbot c fuel) as [H1 H2].
    split; intros x; apply (steps_in_weaken guild_step store_step _ guild_step_store);
      [apply H1|apply H2].
  - destruct (guild_without_mongodb c fuel) as [H1 H2].
    split; intros x; apply (steps_in_weaken guild_step store_step _ guild_step_store);
      [apply H1|apply H2].
  - destruct (dm_test_dm c fuel) as [H1 H2].
    split; intros x; apply (steps_in_weaken dm_step store_step _ dm_step_store);
      [apply H1|apply H2].
Qed.

Section Preservation.
Variable R : Z -> World -> World -> Prop.
Variable Inv : Z -> World -> Prop.
Hypothesis Hclosed : forall now w w', Inv now w -> R now w w' -> Inv now w'.

Lemma advance_steps {A : Type} (p : Prog A) : forall now m,
  steps_in R p -> all_steps_in R m -> Inv now (world m) ->
  Inv now (world (fst (advance now p m)))
  /\ all_steps_in R (fst (advance now p m))
  /\ steps_in R (snd (advance now p m)).
Proof.
  induction p as [A a|A e|A X f k IH|A c k IH|A child IHc k IHk|A ms cb IHcb k IHk|A];
    intros now m Hp Hall Hinv; cbn; auto.
  - destruct (Hp now (world m)) as [Hstep Hk].
    destruct (f now (world m)) as [w x]; cbn in Hstep, Hk.
    apply IH; [exact Hk|exact Hall|]. cbn. eapply Hclosed; eauto.
  - destruct Hp as [Hchild Hk].
    destruct (IHc now m Hchild Hall Hinv) as (Hinv1 & Hall1 & Hsafe1).
    destruct (advance now child m) as [m1 child']; cbn in Hinv1, Hall1, Hsafe1.
    apply IHk; [exact Hk| |exact Hinv1].
    destruct Hall1 as [Ht Htm]. split; [|exact Htm].
    cbn. apply Forall_app. split; [exact Ht|]. by constructor.
  - destruct Hp as [Hcb Hk].
    apply IHk; [exact Hk| |exact Hinv].
    destruct Hall as [Ht Htm]. split; [exact Ht|].
    cbn. apply Forall_app. split; [exact Htm|]. by constructor.
Qed.

Lemma start_steps now p m :
  steps_in R p -> all_steps_in R m -> Inv now (world m) ->
  Inv now (world (start now p m)) /\ all_steps_in R (start now p m).
Proof.
  intros Hp Hall Hinv. unfold start.
  assert (Hall' : all_steps_in R (add_task p m)).
  { destruct Hall as [Ht Htm]. split; [|exact Htm].
    cbn. apply Forall_app. split; [exact Ht|]. by constructor. }
  destruct (advance_steps p now (add_task p m) Hp Hall' Hinv) as (Hinv1 & Hall1 & Hp1).
  destruct (advance now p (add_task p m)) as [m1 p1]; cbn in *.
  split; [exact Hinv1|]. destruct Hall1 as [Ht Htm]. split; [|exact Htm].
  cbn. by apply Forall_insert.
Qed.

Lemma step_steps bot now ev m :
  (forall message, steps_in R (on_messageCreate bot message)) ->
  (forall interaction, steps_in R (on_interactionCreate bot interaction)) ->
  all_steps_in R m -> Inv now (world m) ->
  Inv now (world (step bot now ev m)) /\ all_steps_in R (step bot now ev m).
Proof.
  intros Hmsg Hint Hall Hinv. destruct ev as [message|interaction|j|i r]; cbn.
  - by apply start_steps.
  - by apply start_steps.
  - destruct (timers m !! j) as [[due [cb|]]|] eqn:Hj; auto.
    destruct (due <=? now); auto.
    assert (Hcb : steps_in R cb).
    { destruct Hall as [_ Htm]. apply (Forall_lookup_1 _ _ _ _ Htm Hj). }
    apply start_steps; [exact Hcb| |exact Hinv].
    destruct Hall as [Ht Htm]. split; [exact Ht|].
    unfold clear_timer. cbn. rewrite Hj. by apply Forall_insert.
  - unfold resume.
    destruct (tasks m !! i) as [p|] eqn:Hi; auto.
    destruct p as [a|e|X f k|c k|child k|ms cb k|]; auto.
    assert (Hk : steps_in R (k r)).
    { destruct Hall as [Ht _]. apply (Forall_lookup_1 _ _ _ _ Ht Hi). }
    destruct (advance_steps (k r) now m Hk Hall Hinv) as (Hinv1 & Hall1 & Hp1).
    destruct (advance now (k r) m) as [m1 p1]; cbn in *.
    split; [exact Hinv1|]. destruct Hall1 as [Ht Htm]. split; [|exact Htm].
    cbn. by apply Forall_insert.
Qed.


End Preservation.

Section Keeping.
Variable R : Z -> World -> World -> Prop.
Variable P : World -> Prop.
Hypothesis Hclosed : forall now w w', P w -> R now w w' -> P w'.

Lemma run_keeps bot schedule : forall m,
  (forall message, steps_in R (on_messageCreate bot message)) ->
  (forall interaction, steps_in R (on_interactionCreate bot interaction)) ->
  all_steps_in R m -> P (world m) ->
  P (world (run bot schedule m)) /\ all_steps_in R (run bot schedule m).
Proof.
  induction schedule as [|[t ev] rest IH]; intros m Hmsg Hint Hall HP; cbn; [auto|].
  destruct (step_steps R (fun _ => P) Hclosed bot t ev m Hmsg Hint Hall HP) as [HP' Hall'].
  apply IH; assumption.
Qed.

Lemma advance_keeps {A : Type} (p : Prog A) : forall now m,
  steps_in R p -> P (world m) ->
  P (world (fst (advance now p m))) /\ steps_in R (snd (advance now p m)).
Proof.
  induction p as [A a|A e|A X f k IH|A c k IH|A child IHc k IHk|A ms cb IHcb k IHk|A];
    intros now m Hp HP; cbn; auto.
  - destruct (Hp now (world m)) as [Hstep Hk].
    destruct (f now (world m)) as [w x]; cbn in Hstep, Hk.
    apply IH; [exact Hk|]. cbn. eapply Hclosed; eauto.
  - destruct Hp as [Hchild Hk].
    destruct (IHc now m Hchild HP) as (HP1 & _).
    destruct (advance now child m) as [m1 child']; cbn in HP1.
    apply IHk; [exact Hk|exact HP1].
  - destruct Hp as [Hcb Hk]. apply IHk; [exact Hk|exact HP].
Qed.

Lemma feed_keeps {A : Type} script : forall (p : Prog A) m,
  steps_in R p -> P (world m) -> P (world (fst (feed p script m))).
Proof.
  induction script as [|[t r] rest IH]; intros p m Hp HP; cbn; [exact HP|].
  destruct p as [a|e|X f k|c k|child k|ms cb k|]; cbn; auto.
  destruct (advance_keeps (k r) t m (Hp r) HP) as (HP1 & Hp1).
  destruct (advance t (k r) m) as [m1 p1]. cbn in *. by apply IH.
Qed.

Lemma invoke_keeps {A : Type} now (p : Prog A) script m :
  steps_in R p -> P (world m) -> P (world (fst (invoke now p script m))).
Proof.
  intros Hp HP. unfold invoke.
  destruct (advance_keeps p now m Hp HP) as (HP1 & Hp1).
  destruct (advance now p m) as [m1 p1]. cbn in *. by apply feed_keeps.
Qed.

End Keeping.

Lemma boot_steps R t0 : all_steps_in R (boot t0).
Proof. split; constructor. Qed.

(** ** Invariants of the module variables *)

(** X14: in every run of the event loop of any of the three scripts, a
    conversation that has a thread keeps having one and a user who has a
    DM session entry keeps having one: no handler removes an entry of
    [threadMap] or [dmSessions]. *)
Theorem X14_entries_are_never_removed
    (script : Script) (fuel : nat) (t0 : Z) (before after : list (Z * Event)) :
  let bot := bot_of script fuel in
  let earlier := world (run bot before (boot t0)) in
  let later := world (run bot (before ++ after) (boot t0)) in
  (forall c, is_Some (threadMap earlier !! c) -> is_Some (threadMap later !! c))
  /\ (forall u, is_Some (dmSessions earlier !! u) -> is_Some (dmSessions later !! u)).
Proof.
  intros bot earlier later. subst earlier later.
  destruct (store_bot script fuel) as [Hmsg Hint]. fold bot in Hmsg, Hint.
  rewrite run_app.
  destruct (run_keeps store_step (fun _ => True) (fun _ _ _ _ _ => I) bot before (boot t0)
              Hmsg Hint (boot_steps _ t0) I) as [_ Hall].
  set (m := run bot before (boot t0)) in *.
  apply (run_keeps store_step
           (fun w => (forall c, is_Some (threadMap (world m) !! c) ->
                                is_Some (threadMap w !! c))
                     /\ (forall u, is_Some (dmSessions (world m) !! u) ->
                                   is_Some (dmSessions w !! u)))); auto.
  intros now w w' [Ht Hs] (Hthread & _ & _ & Hsession). split.
  - intros c Hc. specialize (Ht c Hc).
    destruct Hthread as [-> | (c' & tid & ->)]; [exact Ht|].
    rewrite lookup_insert_is_Some. destruct (decide (c' = c)); auto.
  - intros u Hu. specialize (Hs u Hu).
    destruct Hsession as [-> | (u' & ->)]; [exact Hs|].
    rewrite lookup_insert_is_Some. destruct (decide (u' = u)); auto.
Qed.

(** X15: in every run of the event loop of any of the three scripts, a
    channel found in [channelsMap] under a key has that key as its id; so
    a close button pressed in a registered channel asks the platform to
    delete that very channel. *)
Theorem X15_registry_is_keyed_by_channel_id
    (script : Script) (fuel : nat) (t0 t : Z) (schedule : list (Z * Event))
    (key : N) (channel : Channel) (interaction : Interaction) (cmd : N)
    (Hentry : channelsMap (world (run (bot_of script fuel) schedule (boot t0))) !! key
              = Some channel)
    (Hbutton : int_isButton interaction = true)
    (Hid : int_customId interaction = "close_ticket")
    (Hpressed : int_channelId interaction = key) :
  let m := run (bot_of script fuel) schedule (boot t0) in
  ch_id channel = key
  /\ issued (step (Ionetbot.bot cmd fuel) t (InteractionCreate interaction) m) =
     issued m ++ [ChannelDelete (int_channelId interaction)]
  /\ issued (step (WithoutMongoDB.bot cmd fuel) t (InteractionCreate interaction) m) =
     issued m ++ [ChannelDelete (int_channelId interaction)].
Proof.
  intros m.
  destruct (store_bot script fuel) as [Hmsg Hint].
  assert (Hkey : forall k c, channelsMap (world m) !! k = Some c -> ch_id c = k).
  { apply (run_keeps store_step
             (fun w => forall k c, channelsMap w !! k = Some c -> ch_id c = k));
      auto using boot_steps.
    - intros now w w' Hw (_ & Hchan & _ & _) k c.
      destruct Hchan as [-> | [(ch & ->) | (c' & ->)]]; [apply Hw| |].
      + rewrite lookup_insert. destruct (decide (ch_id ch = k)) as [<-|Hne].
        * intros [= <-]. reflexivity.
        * apply Hw.
      + rewrite lookup_delete. destruct (decide (c' = k)); [discriminate|apply Hw].
    - intros k c. cbn. rewrite lookup_empty. discriminate. }
  pose proof (Hkey key channel Hentry) as Hch. split; [exact Hch|].
  fold m in Hentry. destruct m as [w ts tm iss]. cbn in Hentry.
  unfold step, start. cbn [on_interactionCreate Ionetbot.bot WithoutMongoDB.bot].
  unfold Ionetbot.interactionCreate, WithoutMongoDB.interactionCreate.
  rewrite Hbutton, Hid, Hpressed. cbn. rewrite Hentry. cbn. rewrite Hch.
  split; reflexivity.
Qed.


(** X17: in [ionetbot_test_dm.js], a message that is not a start command
    in the start channel leaves [dmSessions] as it was, whatever the
    platform and the backend answer. *)
Theorem X17_only_the_start_command_touches_sessions
    (cid : N) (fuel : nat) (message : Message) (now : Z)
    (script : list (Z * Response)) (m : Machine)
    (Hnotstart : String.prefix "!create" (msg_content message)
                 && (msg_channel_id message =? cid)%N = false) :
  dmSessions (world (fst (invoke now (TestDm.messageCreate cid fuel message) script m)))
  = dmSessions (world m).
Proof.
  pose proof permits_keeps_sessions as HR.
  apply (invoke_keeps keeps_sessions (fun w => dmSessions w = dmSessions (world m)));
    [|unfold TestDm.messageCreate|reflexivity].
  - intros t w w' Hw Hstep. unfold keeps_sessions in Hstep. congruence.
  - apply steps_in_bind; [steps_with HR|]. intros _.
    destruct (_ || _); [exact I|]. rewrite Hnotstart.
    destruct (ChannelType_eqb _ _); [|exact I].
    apply steps_in_bind; [steps_with HR|]. intros _.
    apply steps_in_bind;
      [apply (steps_in_read _ HR
                (fun now w => TestDm.session_rejected now
                                (dmSessions w !! msg_author_id message)))|].
    intros [|]; [steps_with HR|].
    apply (steps_in_dispatch _ HR). intros; exact I.
Qed.

Lemma insert_slot {T : Type} (ts : list T) (p q c : T) :
  <[List.length ts := q]> ((ts ++ [p]) ++ [c]) = (ts ++ [q]) ++ [c].
Proof.
  rewrite insert_app_l by (rewrite length_app; cbn; lia). by rewrite insert_last_task.
Qed.

Lemma lookup_slot {T : Type} (ts : list T) (q c : T) :
  ((ts ++ [q]) ++ [c]) !! List.length ts = Some q.
Proof.
  rewrite lookup_app_l by (rewrite length_app; cbn; lia). apply lookup_last_task.
Qed.

Lemma lookup_child {T : Type} (ts : list T) (q c : T) :
  ((ts ++ [q]) ++ [c]) !! S (List.length ts) = Some c.
Proof.
  replace (S (List.length ts)) with (List.length (ts ++ [q]))
    by (rewrite length_app; cbn; lia).
  apply lookup_last_task.
Qed.

Lemma insert_child {T : Type} (ts : list T) (q c c' : T) :
  <[S (List.length ts) := c']> ((ts ++ [q]) ++ [c]) = (ts ++ [q]) ++ [c'].
Proof.
  replace (S (List.length ts)) with (List.length (ts ++ [q]))
    by (rewrite length_app; cbn; lia).
  apply insert_last_task.
Qed.

(** X18: in [ionetbot_test_dm.js], the start notice is sent without being
    awaited: the handler returns at once, and when the notice is rejected
    the rejection is unhandled, while the session stays stored and no
    other call is issued. *)
Theorem X18_session_starts_even_if_the_notice_fails
    (cid : N) (fuel : nat) (create : Message) (t0 t1 : Z) (e : Err) (m : Machine)
    (Hhuman : msg_author_bot create = false)
    (Hcreate : String.prefix "!create" (msg_content create) = true)
    (Hchannel : msg_channel_id create = cid) :
  let bot := TestDm.bot cid fuel in
  let i := List.length (tasks m) in
  let started := step bot t0 (MessageCreate create) m in
  let failed := step bot t1 (Settles (S i) (Rejected e)) started in
  exit_of started i = Some Returned
  /\ pending started (S i) = Some (AuthorSend (msg_author_id create) TestDm.session_started)
  /\ exit_of failed (S i) = Some (Threw e)
  /\ dmSessions (world failed) !! msg_author_id create = Some (t0 + 600000)
  /\ issued failed = issued m ++ [AuthorSend (msg_author_id create) TestDm.session_started].
Proof.
  intros bot i started failed. subst bot i started failed.
  assert (Hne : falsy_string (msg_content create) = false).
  { destruct (msg_content create); [discriminate|reflexivity]. }
  destruct m as [w ts tm iss].
  unfold step, start, resume. cbn [on_messageCreate TestDm.bot].
  unfold TestDm.messageCreate. subst cid. rewrite Hhuman, Hne, Hcreate, N.eqb_refl.
  cbn. unfold pending, exit_of. cbn.
  rewrite !insert_slot, !lookup_slot, !lookup_child. cbn.
  rewrite insert_slot, insert_child, lookup_child, lookup_insert_eq. auto.
Qed.

(** ** Start-up of [ionetbot.js] *)

(** X19: [connectMongo] ends the process, with status 1, exactly when the
    connection is rejected, and then creates no index.  Otherwise the three
    indexes are created in order up to the first rejection, which is
    logged and ends index creation but not start-up. *)
Theorem X19_only_a_failed_connection_stops_the_bot
    (answer : StartupCall -> option Err) (l : StartupLog) :
  let result := connectMongo answer l in
  (* the process exits, with status 1, exactly when the connection fails *)
  snd result = inl (if answer MongoConnect is Some _ then Some 1 else None)
  /\ (forall e, answer MongoConnect = Some e ->
        made (fst result) = made l ++ [MongoConnect]
        /\ printed (fst result) =
             printed l ++ [ConsoleError "Could not connect to MongoDB"])
  (* otherwise the indexes are created in order up to the first failure,
     which is logged and ends index creation but not start-up *)
  /\ (answer MongoConnect = None ->
        made (fst result) = made l ++ MongoConnect :: indexes_tried answer
        /\ printed (fst result) =
             printed l ++ [ ConsoleLog "Connected to MongoDB";
                            if indexes_created answer
                            then ConsoleLog "Indexes created."
                            else ConsoleError "Could not create indexes" ]).
Proof.
  intros result. subst result.
  unfold connectMongo, setupIndexes, su_try, su_bind, su_await, su_print, su_ret,
    indexes_tried, indexes_created.
  destruct l as [calls lines]. cbn.
  destruct (answer MongoConnect) as [e|]; cbn.
  - split; [reflexivity|]. split; [|discriminate]. intros e' _. auto.
  - split; [|split; [discriminate|intros _]];
      destruct (answer index_privateMessages); cbn;
      try destruct (answer index_interactions); cbn;
      try destruct (answer index_channelDeletions); cbn;
      rewrite <- ?app_assoc; auto.
Qed.

(** X20: the rate gate is one variable for all conversations: after a run
    that failed with rate_limit_exceeded in one channel, a message of any
    author in any channel, handled before the penalty instant, gets only
    the wait notice. *)
Theorem X20_a_penalty_blocks_every_channel
    (after_reply : Message -> string -> Prog unit) (fuel : nat)
    (message other : Message)
    (threadId : string) (run last details : Run) (polls : list (Z * Run * Z))
    (t0 t1 t2 t3 t4 t s1 s2 now : Z) (v v1 v2 : Value) (m : Machine)
    (Hgate : nextAvailableTime (world m) <= t0)
    (Hunbound : threadMap (world m) !! msg_channel_id message = None)
    (Hpolls : Forall (fun p => nonterminal (snd (fst p))) polls)
    (Hfuel : (List.length polls < fuel)%nat)
    (Hlast : run_status last = "failed")
    (Hoverload : run_last_error details = Some "rate_limit_exceeded")
    (Hnow : now < s2 + 20000) :
  let penalized :=
    fst (invoke t0 (dispatch after_reply fuel message)
           ([ (t1, Fulfilled (VThread threadId)); (t2, Fulfilled v1);
              (t3, Fulfilled v2); (t4, Fulfilled (VRun run)) ]
            ++ poll_script polls
            ++ [ (t, Fulfilled (VRun last)); (s1, Fulfilled v);
                 (s2, Fulfilled (VRun details)) ]) m) in
  nextAvailableTime (world penalized) = s2 + 20000
  /\ invoke now (dispatch after_reply fuel other) [] penalized =
     (issue (Reply (msg_channel_id other) please_wait) penalized,
      await (Reply (msg_channel_id other) please_wait);; Ret tt).
Proof.
  intros penalized.
  assert (Hterm : terminal last) by (unfold terminal; by rewrite Hlast).
  assert (Hnat : nextAvailableTime (world penalized) = s2 + 20000).
  { subst penalized. rewrite dispatch_to_status by assumption.
    unfold on_status, failed_branch. rewrite Hlast. cbn.
    unfold is_rate_limit. rewrite Hoverload. reflexivity. }
  split; [exact Hnat|].
  unfold invoke. rewrite dispatch_limited by lia. reflexivity.
Qed.

(** ** Instances of the further properties *)

(** X1 at sample data. *)
Lemma X1_create_registers_and_schedules_witness :
  (msg_author_bot create_command = false
   /\ String.prefix "!createPrivateChannel" (msg_content create_command) = true
   /\ msg_channel_id create_command = 500%N)
  /\ (let '(m', p') :=
        invoke 1000 (Ionetbot.messageCreate 500 5 create_command)
          [ (1100, Fulfilled (VChannel (Some private_42))); (1200, Fulfilled VVoid);
            (1300, Fulfilled VVoid) ] (boot 0) in
      p' = Ret tt
      /\ channelsMap (world m')
         = <[ch_id private_42 := private_42]> (channelsMap (world (boot 0)))
      /\ timers m' = timers (boot 0)
                     ++ [(1300 + 600000, Some (Ionetbot.timerCallback (ch_id private_42)))]
      /\ issued m' = issued (boot 0) ++
           [ GuildChannelsCreate (msg_guild_id create_command)
               ("private-" +:+ pretty (msg_author_id create_command))
               (msg_author_id create_command);
             ChannelSend (ch_id private_42) Ionetbot.greeting "close_ticket";
             Reply (msg_channel_id create_command) (Ionetbot.created_notice private_42);
             InsertOne "events"
               (ChannelCreationDoc (ch_id private_42) (msg_author_id create_command)
                  1300) ]).
Proof.
  split.
  - repeat split; reflexivity.
  - exact (proj1 (proj2 (X1_create_registers_and_schedules 500 5 create_command
                           private_42 1000 1100 1200 1300 VVoid VVoid (boot 0)
                           eq_refl eq_refl eq_refl))).
Defined.

(** X2 at sample data. *)
Lemma X2_create_rejected_registers_nothing_witness :
  (msg_author_bot create_command = false
   /\ String.prefix "!createPrivateChannel" (msg_content create_command) = true
   /\ msg_channel_id create_command = 500%N)
  /\ invoke 1000 (WithoutMongoDB.messageCreate 500 5 create_command)
       [(1100, Rejected (CallFailed "Missing Permissions")); (1200, Fulfilled VVoid)]
       (boot 0) =
     (issue_all
        [ GuildChannelsCreate (msg_guild_id create_command)
            ("private-" +:+ pretty (msg_author_id create_command))
            (msg_author_id create_command);
          Reply (msg_channel_id create_command) "Failed to create private channel." ]
        (log_error "Error creating private channel:" (boot 0)), Ret tt).
Proof.
  split.
  - repeat split; reflexivity.
  - exact (proj2 (X2_create_rejected_registers_nothing 500 5 create_command
                    1000 1100 1200 (CallFailed "Missing Permissions") VVoid (boot 0)
                    eq_refl eq_refl eq_refl)).
Defined.

(** X3 at sample data: the greeting is rejected. *)
Lemma X3_create_failing_after_registration_leaks_witness :
  (msg_author_bot create_command = false
   /\ String.prefix "!createPrivateChannel" (msg_content create_command) = true
   /\ msg_channel_id create_command = 500%N)
  /\ (let result :=
        invoke 1000 (Ionetbot.messageCreate 500 5 create_command)
          [ (1100, Fulfilled (VChannel (Some private_42)));
            (1200, Rejected (CallFailed "Missing Access")); (1300, Fulfilled VVoid) ]
          (boot 0) in
      channelsMap (world (fst result))
      = <[ch_id private_42 := private_42]> (channelsMap (world (boot 0)))
      /\ timers (fst result) = timers (boot 0)).
Proof.
  split.
  - repeat split; reflexivity.
  - pose proof (X3_create_failing_after_registration_leaks 500 5 create_command
                  private_42 1000 1100 1200 1300 1400 (CallFailed "Missing Access")
                  VVoid VVoid (boot 0) eq_refl eq_refl eq_refl) as H.
    cbv zeta beta in H. destruct H as ((_ & Hmap & Htimers & _) & _).
    split; [exact Hmap|exact Htimers].
Defined.

(** X4 at sample data. *)
Lemma X4_timer_fetch_without_channel_witness :
  channelsMap (world sample_registered) !! 7%N = Some private_42
  /\ invoke 10 (Ionetbot.timerCallback 7) [(20, Fulfilled (VChannel None))]
       sample_registered =
     (set_world (set_channelsMap (delete 7%N) (world sample_registered))
        (issue (ChannelsFetch 7) sample_registered), Ret tt).
Proof.
  split.
  - reflexivity.
  - exact (proj1 (X4_timer_fetch_without_channel 7 private_42 10 20 sample_registered
                    eq_refl)).
Defined.

(** X5 at sample data: the second press. *)
Lemma X5_failed_button_close_can_be_retried_witness :
  (int_isButton close_press = true
   /\ int_customId close_press = "close_ticket"
   /\ channelsMap (world sample_registered) !! int_channelId close_press
        = Some private_42)
  /\ (let '(m', p') :=
        invoke 30 (Ionetbot.interactionCreate close_press) [(40, Fulfilled VVoid)]
          (fst (invoke 10 (Ionetbot.interactionCreate close_press)
                  [(20, Rejected (CallFailed "Missing Permissions"))]
                  sample_registered)) in
      p' = Ret tt
      /\ issued m' = issued sample_registered
                     ++ [ChannelDelete (ch_id private_42); ChannelDelete (ch_id private_42)]
      /\ channelsMap (world m') !! int_channelId close_press = None).
Proof.
  split.
  - repeat split; reflexivity.
  - exact (proj1 (X5_failed_button_close_can_be_retried close_press private_42 private_42
                    10 20 30 40 50 (CallFailed "Missing Permissions") VVoid
                    sample_registered eq_refl eq_refl eq_refl)).
Defined.

(** X6 at sample data. *)
Lemma X6_close_handlers_never_reject_witness :
  snd (invoke 10 (Ionetbot.interactionCreate close_press)
         [(20, Rejected (CallFailed "Missing Permissions"))] sample_registered)
  <> Throw (CallFailed "Missing Permissions").
Proof.
  exact (proj1 (X6_close_handlers_never_reject close_press 7 10
                  [(20, Rejected (CallFailed "Missing Permissions"))] sample_registered
                  (CallFailed "Missing Permissions"))).
Defined.

(** X7 at sample data. *)
Lemma X7_polling_has_no_ceiling_witness :
  (Forall (fun p => nonterminal (snd (fst p))) sample_polls
   /\ (List.length sample_polls < 3)%nat)
  /\ awaiting (snd (invoke 0 (statusCheckLoop 3 "thread_1" "run_1")
                      (poll_script sample_polls) (boot 0)))
     = Some (RunsRetrieve "thread_1" "run_1").
Proof.
  assert (H3 : (List.length sample_polls < 3)%nat) by (cbn; lia).
  split.
  - split; [exact sample_polls_nonterminal|exact H3].
  - exact (proj1 (X7_polling_has_no_ceiling 3 "thread_1" "run_1" sample_polls 0 (boot 0)
                    sample_polls_nonterminal H3)).
Defined.

(** X8 at sample data: the run is cancelled. *)
Lemma X8_cancelled_or_expired_run_is_silent_witness :
  (nextAvailableTime (world (boot 0)) <= 10
   /\ threadMap (world (boot 0)) !! msg_channel_id hello = None
   /\ Forall (fun p => nonterminal (snd (fst p))) sample_polls
   /\ (List.length sample_polls < 3)%nat
   /\ run_status (mkRun "run_1" "cancelled" None) = "cancelled")
  /\ invoke 10 (dispatch Ionetbot.record_interaction 3 hello)
       ([ (20, Fulfilled (VThread "thread_1")); (30, Fulfilled VVoid);
          (40, Fulfilled VVoid); (50, Fulfilled (VRun sample_run)) ]
        ++ poll_script sample_polls
        ++ (2015, Fulfilled (VRun (mkRun "run_1" "cancelled" None))) :: []) (boot 0) =
     (issue_all (poll_calls "thread_1" (run_id sample_run) (List.length sample_polls)
                   ++ [RunsRetrieve "thread_1" (run_id sample_run)])
        (run_created hello "thread_1" (boot 0)), Ret tt).
Proof.
  assert (H3 : (List.length sample_polls < 3)%nat) by (cbn; lia).
  split.
  - split; [exact boot_gate_open|]. split; [reflexivity|].
    split; [exact sample_polls_nonterminal|]. split; [exact H3|reflexivity].
  - exact (X8_cancelled_or_expired_run_is_silent Ionetbot.record_interaction 3 hello
             "thread_1" sample_run (mkRun "run_1" "cancelled" None) sample_polls
             10 20 30 40 50 2015 VVoid VVoid [] (boot 0)
             boot_gate_open eq_refl sample_polls_nonterminal H3 (or_introl eq_refl)).
Defined.

(** X9 at sample data: an empty message list. *)
Lemma X9_completed_run_without_messages_is_silent_witness :
  (nextAvailableTime (world (boot 0)) <= 10
   /\ threadMap (world (boot 0)) !! msg_channel_id hello = None
   /\ Forall (fun p => nonterminal (snd (fst p))) sample_polls
   /\ (List.length sample_polls < 3)%nat
   /\ run_status sample_completed = "completed"
   /\ has_messages (Some []) = false)
  /\ invoke 10 (dispatch Ionetbot.record_interaction 3 hello)
       ([ (20, Fulfilled (VThread "thread_1")); (30, Fulfilled VVoid);
          (40, Fulfilled VVoid); (50, Fulfilled (VRun sample_run)) ]
        ++ poll_script sample_polls
        ++ (2015, Fulfilled (VRun sample_completed))
           :: (2020, Fulfilled (VMessageList (Some []))) :: []) (boot 0) =
     (issue_all (poll_calls "thread_1" (run_id sample_run) (List.length sample_polls)
                   ++ [RunsRetrieve "thread_1" (run_id sample_run);
                       MessagesList "thread_1"])
        (run_created hello "thread_1" (boot 0)), Ret tt).
Proof.
  assert (H3 : (List.length sample_polls < 3)%nat) by (cbn; lia).
  split.
  - split; [exact boot_gate_open|]. split; [reflexivity|].
    split; [exact sample_polls_nonterminal|]. split; [exact H3|].
    split; reflexivity.
  - exact (X9_completed_run_without_messages_is_silent Ionetbot.record_interaction 3
             hello "thread_1" sample_run sample_completed sample_polls (Some [])
             10 20 30 40 50 2015 2020 VVoid VVoid [] (boot 0)
             boot_gate_open eq_refl sample_polls_nonterminal H3 eq_refl eq_refl).
Defined.

(** X10 at sample data: the newest message starts with an image. *)
Lemma X10_completed_run_without_text_gets_the_notice_witness :
  (nextAvailableTime (world (boot 0)) <= 10
   /\ threadMap (world (boot 0)) !! msg_channel_id hello = None
   /\ Forall (fun p => nonterminal (snd (fst p))) sample_polls
   /\ (List.length sample_polls < 3)%nat
   /\ run_status sample_completed = "completed"
   /\ has_text sample_image = false)
  /\ invoke 10 (dispatch Ionetbot.record_interaction 3 hello)
       ([ (20, Fulfilled (VThread "thread_1")); (30, Fulfilled VVoid);
          (40, Fulfilled VVoid); (50, Fulfilled (VRun sample_run)) ]
        ++ poll_script sample_polls
        ++ [ (2015, Fulfilled (VRun sample_completed));
             (2020, Fulfilled (VMessageList (Some (sample_image :: []))));
             (2030, Fulfilled VVoid) ]) (boot 0) =
     (issue_all (poll_calls "thread_1" (run_id sample_run) (List.length sample_polls)
                   ++ [ RunsRetrieve "thread_1" (run_id sample_run);
                        MessagesList "thread_1";
                        Reply (msg_channel_id hello) processing_failed ])
        (log_error "Error during message processing"
           (run_created hello "thread_1" (boot 0))),
      Ret tt).
Proof.
  assert (H3 : (List.length sample_polls < 3)%nat) by (cbn; lia).
  split.
  - split; [exact boot_gate_open|]. split; [reflexivity|].
    split; [exact sample_polls_nonterminal|]. split; [exact H3|].
    split; reflexivity.
  - exact (X10_completed_run_without_text_gets_the_notice Ionetbot.record_interaction 3
             hello "thread_1" sample_run sample_completed sample_polls sample_image []
             10 20 30 40 50 2015 2020 2030 VVoid VVoid VVoid (boot 0)
             boot_gate_open eq_refl sample_polls_nonterminal H3 eq_refl eq_refl).
Defined.

(** X11 at sample data. *)
Lemma X11_rejected_reply_skips_the_record_witness :
  (nextAvailableTime (world (boot 0)) <= 10
   /\ threadMap (world (boot 0)) !! msg_channel_id hello = None
   /\ Forall (fun p => nonterminal (snd (fst p))) sample_polls
   /\ (List.length sample_polls < 3)%nat
   /\ run_status sample_completed = "completed")
  /\ (let '(m', p') :=
        invoke 10 (Ionetbot.dispatch 3 hello)
          ([ (20, Fulfilled (VThread "thread_1")); (30, Fulfilled VVoid);
             (40, Fulfilled VVoid); (50, Fulfilled (VRun sample_run)) ]
           ++ poll_script sample_polls
           ++ [ (2015, Fulfilled (VRun sample_completed));
                (2020, Fulfilled
                         (VMessageList
                            (Some (mkThreadMessage (Some "hi there" :: []) :: []))));
                (2030, Rejected (CallFailed "Unknown Message"));
                (2040, Fulfilled VVoid) ]) (boot 0) in
      p' = Ret tt
      /\ issued m' = issued (run_created hello "thread_1" (boot 0))
           ++ poll_calls "thread_1" (run_id sample_run) (List.length sample_polls)
           ++ [ RunsRetrieve "thread_1" (run_id sample_run); MessagesList "thread_1";
                Reply (msg_channel_id hello) (truncate "hi there");
                Reply (msg_channel_id hello) processing_failed ]
      /\ tasks m' = tasks (boot 0)).
Proof.
  assert (H3 : (List.length sample_polls < 3)%nat) by (cbn; lia).
  split.
  - split; [exact boot_gate_open|]. split; [reflexivity|].
    split; [exact sample_polls_nonterminal|]. split; [exact H3|reflexivity].
  - exact (X11_rejected_reply_skips_the_record 3 hello "thread_1" "hi there" sample_run
             sample_completed sample_polls [] []
             10 20 30 40 50 2015 2020 2030 2040 (CallFailed "Unknown Message")
             VVoid VVoid VVoid (boot 0)
             boot_gate_open eq_refl sample_polls_nonterminal H3 eq_refl).
Defined.

(** X12 at sample data: the failure details cannot be retrieved. *)
Lemma X12_failed_run_errors_leave_the_gate_witness :
  (nextAvailableTime (world (boot 0)) <= 10
   /\ threadMap (world (boot 0)) !! msg_channel_id hello = None
   /\ Forall (fun p => nonterminal (snd (fst p))) sample_polls
   /\ (List.length sample_polls < 3)%nat
   /\ run_status sample_overloaded = "failed")
  /\ nextAvailableTime
       (world (fst (invoke 10 (dispatch Ionetbot.record_interaction 3 hello)
                      ([ (20, Fulfilled (VThread "thread_1")); (30, Fulfilled VVoid);
                         (40, Fulfilled VVoid); (50, Fulfilled (VRun sample_run)) ]
                       ++ poll_script sample_polls
                       ++ [ (2015, Fulfilled (VRun sample_overloaded));
                            (2020, Fulfilled VVoid);
                            (2030, Rejected (CallFailed "ECONNRESET"));
                            (2040, Fulfilled VVoid) ]) (boot 0))))
     = nextAvailableTime (world (boot 0)).
Proof.
  assert (H3 : (List.length sample_polls < 3)%nat) by (cbn; lia).
  split.
  - split; [exact boot_gate_open|]. split; [reflexivity|].
    split; [exact sample_polls_nonterminal|]. split; [exact H3|reflexivity].
  - pose proof (X12_failed_run_errors_leave_the_gate Ionetbot.record_interaction 3 hello
                  "thread_1" sample_run sample_overloaded sample_polls
                  10 20 30 40 50 2015 2020 2030 2040 (CallFailed "ECONNRESET")
                  VVoid VVoid VVoid VVoid (boot 0)
                  boot_gate_open eq_refl sample_polls_nonterminal H3 eq_refl) as H.
    cbv zeta beta in H. destruct H as (_ & _ & _ & Hgate). exact Hgate.
Defined.

(** X13 at sample data: the thread cannot be created. *)
Lemma X13_failures_before_the_try_are_not_caught_witness :
  (nextAvailableTime (world (boot 0)) <= 10
   /\ threadMap (world (boot 0)) !! msg_channel_id hello = None)
  /\ invoke 10 (dispatch Ionetbot.record_interaction 3 hello)
       ((20, Rejected (CallFailed "ECONNRESET")) :: []) (boot 0) =
     (issue ThreadsCreate (boot 0), Throw (CallFailed "ECONNRESET")).
Proof.
  split.
  - split; [exact boot_gate_open|reflexivity].
  - exact (proj1 (X13_failures_before_the_try_are_not_caught
                    Ionetbot.record_interaction 3 hello 10 20 (CallFailed "ECONNRESET")
                    [] (boot 0)) boot_gate_open eq_refl).
Defined.

(** X14 at sample data: the thread bound by the first settlement of
    [first_use_race] is still bound, to whatever thread, at its end. *)
Lemma X14_entries_are_never_removed_witness :
  is_Some (threadMap (world (run (bot_of (IonetbotJs 500) 5) (take 3 first_use_race)
                               (boot 0))) !! 7%N)
  /\ is_Some (threadMap (world (run (bot_of (IonetbotJs 500) 5)
                                  (take 3 first_use_race ++ drop 3 first_use_race)
                                  (boot 0))) !! 7%N).
Proof.
  assert (H : is_Some (threadMap (world (run (bot_of (IonetbotJs 500) 5)
                                           (take 3 first_use_race) (boot 0))) !! 7%N)).
  { exists "thread_A". reflexivity. }
  split; [exact H|].
  exact (proj1 (X14_entries_are_never_removed (IonetbotJs 500) 5 0
                  (take 3 first_use_race) (drop 3 first_use_race)) 7%N H).
Defined.

(** X15 at sample data: the button is pressed once the channel of
    [close_race] has been created. *)
Lemma X15_registry_is_keyed_by_channel_id_witness :
  (channelsMap (world (run (bot_of (IonetbotJs 500) 5) (take 5 close_race) (boot 0)))
     !! 7%N = Some private_42
   /\ int_isButton close_press = true
   /\ int_customId close_press = "close_ticket"
   /\ int_channelId close_press = 7%N)
  /\ issued (step (Ionetbot.bot 500 5) 2000 (InteractionCreate close_press)
               (run (bot_of (IonetbotJs 500) 5) (take 5 close_race) (boot 0))) =
     issued (run (bot_of (IonetbotJs 500) 5) (take 5 close_race) (boot 0))
     ++ [ChannelDelete (int_channelId close_press)].
Proof.
  split.
  - repeat split; reflexivity.
  - exact (proj1 (proj2 (X15_registry_is_keyed_by_channel_id (IonetbotJs 500) 5 0 2000
                           (take 5 close_race) 7 private_42 close_press 500
                           eq_refl eq_refl eq_refl eq_refl))).
Defined.




(** X17 at sample data: a DM in a running session. *)
Lemma X17_only_the_start_command_touches_sessions_witness :
  String.prefix "!create" (msg_content dm_hello) && (msg_channel_id dm_hello =? 600)%N
  = false
  /\ dmSessions (world (fst (invoke 2000 (TestDm.messageCreate 600 5 dm_hello)
                               [(2010, Fulfilled (VThread "thread_1"))] sample_session)))
     = dmSessions (world sample_session).
Proof.
  split.
  - reflexivity.
  - exact (X17_only_the_start_command_touches_sessions 600 5 dm_hello 2000
             [(2010, Fulfilled (VThread "thread_1"))] sample_session eq_refl).
Defined.

(** X18 at sample data. *)
Lemma X18_session_starts_even_if_the_notice_fails_witness :
  (msg_author_bot start_command = false
   /\ String.prefix "!create" (msg_content start_command) = true
   /\ msg_channel_id start_command = 600%N)
  /\ dmSessions
       (world (step (TestDm.bot 600 5) 1100
                 (Settles (S (List.length (tasks (boot 0))))
                    (Rejected (CallFailed "Cannot send messages to this user")))
                 (step (TestDm.bot 600 5) 1000 (MessageCreate start_command) (boot 0))))
       !! msg_author_id start_command = Some (1000 + 600000).
Proof.
  split.
  - repeat split; reflexivity.
  - pose proof (X18_session_starts_even_if_the_notice_fails 600 5 start_command
                  1000 1100 (CallFailed "Cannot send messages to this user") (boot 0)
                  eq_refl eq_refl eq_refl) as H.
    cbv zeta in H. destruct H as (_ & _ & _ & Hsession & _). exact Hsession.
Defined.

(** X19 at sample data: the connection is refused. *)
Lemma X19_only_a_failed_connection_stops_the_bot_witness :
  snd (connectMongo connection_refused (mkStartupLog [] [])) = inl (Some 1)
  /\ made (fst (connectMongo connection_refused (mkStartupLog [] []))) = [MongoConnect].
Proof.
  pose proof (X19_only_a_failed_connection_stops_the_bot connection_refused
                (mkStartupLog [] [])) as H.
  cbv zeta in H. destruct H as (Hexit & Hrefused & _).
  split; [exact Hexit|].
  exact (proj1 (Hrefused (CallFailed "ECONNREFUSED") eq_refl)).
Defined.

(** X20 at sample data: user 43 writes in channel 8 one second after
    the penalty of channel 7. *)
Lemma X20_a_penalty_blocks_every_channel_witness :
  (nextAvailableTime (world (boot 0)) <= 10
   /\ threadMap (world (boot 0)) !! msg_channel_id hello = None
   /\ Forall (fun p => nonterminal (snd (fst p))) sample_polls
   /\ (List.length sample_polls < 3)%nat
   /\ run_status sample_overloaded = "failed"
   /\ run_last_error sample_overloaded = Some "rate_limit_exceeded"
   /\ 3030 < 2030 + 20000)
  /\ (let penalized :=
        fst (invoke 10 (dispatch Ionetbot.record_interaction 3 hello)
               ([ (20, Fulfilled (VThread "thread_1")); (30, Fulfilled VVoid);
                  (40, Fulfilled VVoid); (50, Fulfilled (VRun sample_run)) ]
                ++ poll_script sample_polls
                ++ [ (2015, Fulfilled (VRun sample_overloaded)); (2020, Fulfilled VVoid);
                     (2030, Fulfilled (VRun sample_overloaded)) ]) (boot 0)) in
      nextAvailableTime (world penalized) = 2030 + 20000
      /\ invoke 3030 (dispatch Ionetbot.record_interaction 3 elsewhere) [] penalized =
         (issue (Reply (msg_channel_id elsewhere) please_wait) penalized,
          await (Reply (msg_channel_id elsewhere) please_wait);; Ret tt)).
Proof.
  assert (H3 : (List.length sample_polls < 3)%nat) by (cbn; lia).
  assert (Hnow : 3030 < 2030 + 20000) by lia.
  split.
  - split; [exact boot_gate_open|]. split; [reflexivity|].
    split; [exact sample_polls_nonterminal|]. split; [exact H3|].
    split; [reflexivity|]. split; [reflexivity|exact Hnow].
  - exact (X20_a_penalty_blocks_every_channel Ionetbot.record_interaction 3 hello
             elsewhere "thread_1" sample_run sample_overloaded sample_overloaded
             sample_polls 10 20 30 40 50 2015 2020 2030 3030 VVoid VVoid VVoid (boot 0)
             boot_gate_open eq_refl sample_polls_nonterminal H3 eq_refl eq_refl Hnow).
Defined.

Lemma private_channels_differ : ch_id private_42 <> ch_id private_42_bis.
Proof. cbn. discriminate. Defined.

(** X21 at sample data: user 42 sends the command twice. *)
Lemma X21_one_user_can_hold_several_channels_witness :
  (msg_author_bot create_command = false
   /\ msg_author_bot create_again = false
   /\ String.prefix "!createPrivateChannel" (msg_content create_command) = true
   /\ String.prefix "!createPrivateChannel" (msg_content create_again) = true
   /\ msg_channel_id create_command = 500%N
   /\ msg_channel_id create_again = 500%N
   /\ msg_author_id create_again = msg_author_id create_command
   /\ ch_id private_42 <> ch_id private_42_bis)
  /\ (let m2 :=
        fst (invoke 2000 (WithoutMongoDB.messageCreate 500 5 create_again)
               [ (2100, Fulfilled (VChannel (Some private_42_bis)));
                 (2200, Fulfilled VVoid); (2300, Fulfilled VVoid) ]
               (fst (invoke 1000 (WithoutMongoDB.messageCreate 500 5 create_command)
                       [ (1100, Fulfilled (VChannel (Some private_42)));
                         (1200, Fulfilled VVoid); (1300, Fulfilled VVoid) ]
                       (boot 0)))) in
      channelsMap (world m2) !! ch_id private_42 = Some private_42
      /\ channelsMap (world m2) !! ch_id private_42_bis = Some private_42_bis).
Proof.
  split.
  - do 7 (split; [reflexivity|]). exact private_channels_differ.
  - pose proof (X21_one_user_can_hold_several_channels 500 5 create_command
                  create_again private_42 private_42_bis
                  1000 1100 1200 1300 2000 2100 2200 2300 VVoid VVoid VVoid VVoid
                  (boot 0) eq_refl eq_refl eq_refl eq_refl eq_refl eq_refl eq_refl
                  private_channels_differ) as H.
    cbv zeta beta in H. destruct H as (_ & Hfirst & Hsecond & _).
    split; [exact Hfirst|exact Hsecond].
Defined.
